(** * analyze-stl: the STL analysis engine of [scripts/analyze-stl.py]

    A shallow embedding of the loader (binary and text STL), of the geometric
    heuristics it feeds and of the command-line entry point, followed by the
    properties of the specification that were checked against it.

    Conventions of the embedding.
    - A file is the list of its bytes; a file object is the list of the
      bytes that are still unread.
    - A Python [float] is an exact rational ([Q]): rounding, overflow,
      infinities and not-a-number values of the binary64 representation are
      outside the embedding.  The library functions that produce floats or
      text or print floats ([struct]'s [f] format, [float(str)], text-mode
      [readlines], [math.sqrt], the [f] format of f-strings, [round(x, 1)])
      are variables of the sections that use them.
    - A Python [int] is a [Z]; lengths, counters and loop counts are [nat].
    - An exception is a value of [exn]; code that can raise returns a
      [result].
    - Standard output is the list of the lines printed: the arguments of
      the calls of [print], in order; it takes every line, [print] raises
      nothing.
    - A character of a [str] is a code point below 256.
    - Memory.  The lists that grow with the file (the triangles, the
      vertices, the slabs) are taken to fit.  The one allocation whose size
      follows the coordinates and not the size of the file, the grid of a
      picture, is held against [sys.maxsize] and against [capacity], the
      number of list items the machine can allocate: a variable of the
      sections that use it. *)

From stdpp Require Import base option list gmap strings pretty sorting.
From Stdlib Require Import ZArith NArith QArith Qabs Qround Qcanon Lia Lqa.
From Stdlib Require Import Strings.Byte Strings.Ascii.

Set Default Proof Using "Type".
Local Open Scope Z_scope.

(* ================================================================= *)
(** ** The Python runtime, as far as the script uses it *)

(** The exceptions the modelled code can raise. *)
Inductive exn : Type :=
| StructError          (* struct.error: the buffer has the wrong size *)
| ValueError           (* float("x"), min([]) *)
| IndexError           (* parts[4] on a short list *)
| ZeroDivisionError
| UnicodeDecodeError   (* text-mode read of bytes that are not text *)
| OverflowError        (* [c] * n for an n that fits no index *)
| MemoryError.         (* a list the machine cannot hold *)

Inductive result (A : Type) : Type :=
| Ok (a : A)
| Raise (e : exn).
Arguments Ok {A} a.
Arguments Raise {A} e.

#[export] Instance result_ret : MRet result := fun _ a => Ok a.
#[export] Instance result_bind : MBind result := fun _ _ f m =>
  match m with
  | Ok a => f a
  | Raise e => Raise e
  end.

(** [f.read(n)]: up to [n] bytes, and the file object after them. *)
Definition read (n : nat) (f : list byte) : list byte * list byte :=
  (take n f, drop n f).

(** The bytes [bytes.lstrip()] removes: [b' \t\n\r\x0b\x0c']. *)
Definition is_space_byte (b : byte) : bool :=
  match b with
  | x09 | x0a | x0b | x0c | x0d | x20 => true
  | _ => false
  end.

(** [s.lstrip()] on bytes. *)
Fixpoint lstrip (s : list byte) : list byte :=
  match s with
  | [] => []
  | b :: r => if is_space_byte b then lstrip r else s
  end.

(** [s.startswith(p)] on bytes. *)
Fixpoint startswith (p s : list byte) : bool :=
  match p, s with
  | [], _ => true
  | _ :: _, [] => false
  | a :: p', b :: s' => Byte.eqb a b && startswith p' s'
  end.

(** [b in s] for a single byte [b]. *)
Definition contains (b : byte) (s : list byte) : bool :=
  existsb (Byte.eqb b) s.

(** A little-endian unsigned integer. *)
Fixpoint le_value (data : list byte) : N :=
  match data with
  | [] => 0
  | b :: r => Byte.to_N b + 256 * le_value r
  end%N.

(** [struct.unpack("<I", data)[0]]: exactly four bytes, or [struct.error]. *)
Definition unpack_u32 (data : list byte) : result N :=
  if (length data =? 4)%nat then Ok (le_value data) else Raise StructError.

(** Comparison of floats: [x < y]. *)
Definition ltb (x y : Q) : bool := negb (Qle_bool y x).

(** [max(a, b)] with two arguments: [b] only when it is strictly larger. *)
Definition max2 (a b : Q) : Q := if ltb a b then b else a.

(** [float(n)] for an int, and for a length. *)
Definition of_int (n : Z) : Q := inject_Z n.
Definition of_len (n : nat) : Q := inject_Z (Z.of_nat n).

(** The builtins and operators whose names are taken: [Py.div] is [/] on
    floats, and so on. *)
Module Py.

(** [x / y] on floats. *)
Definition div (x y : Q) : result Q :=
  if Qeq_bool y 0 then Raise ZeroDivisionError else Ok (x / y)%Q.

(** [min(l)] and [max(l)]: the first smallest (largest) element. *)
Definition min (l : list Q) : result Q :=
  match l with
  | [] => Raise ValueError
  | x :: r => Ok (fold_left (fun m y => if ltb y m then y else m) r x)
  end.

Definition max (l : list Q) : result Q :=
  match l with
  | [] => Raise ValueError
  | x :: r => Ok (fold_left (fun m y => if ltb m y then y else m) r x)
  end.

(** [sum(l)]: left to right, from 0. *)
Definition sum (l : list Q) : Q := fold_left Qplus l 0%Q.

(** [int(x)]: truncation towards zero. *)
Definition int (x : Q) : Z := Z.quot (Qnum x) (Z.pos (Qden x)).

End Py.

(* ================================================================= *)
(** ** Triangles and the loader ([read_binary_stl], [is_ascii_stl],
       [read_ascii_stl]) *)

(** A point is the tuple [(x, y, z)]. *)
Definition Point3 : Type := Q * Q * Q.
Definition px (p : Point3) : Q := p.1.1.
Definition py (p : Point3) : Q := p.1.2.
Definition pz (p : Point3) : Q := p.2.

(** A triangle is the tuple [(normal, v1, v2, v3)]: [tri[0]] is [normal]. *)
Record Triangle : Type := mkTriangle {
  normal : Point3;
  v1 : Point3;
  v2 : Point3;
  v3 : Point3;
}.

(** Text, as the text-mode reader hands it over, and [str]'s methods. *)
Module Str.

(** [str.isspace] on the characters below 256. *)
Definition is_space (c : ascii) : bool :=
  let n := nat_of_ascii c in
  ((9 <=? n) && (n <=? 13) || (28 <=? n) && (n <=? 32)
   || (n =? 133) || (n =? 160))%nat.

Fixpoint lstrip (s : string) : string :=
  match s with
  | EmptyString => EmptyString
  | String c r => if is_space c then lstrip r else s
  end.

Definition rstrip (s : string) : string :=
  String.rev (lstrip (String.rev s)).

Definition strip (s : string) : string := rstrip (lstrip s).

(** [s.split()]: the maximal runs of characters that are not whitespace;
    [cur] is the run being read, last character first. *)
Fixpoint split_from (cur : string) (s : string) : list string :=
  match s with
  | EmptyString =>
      match cur with
      | EmptyString => []
      | _ => [String.rev cur]
      end
  | String c r =>
      if is_space c then
        match cur with
        | EmptyString => split_from EmptyString r
        | _ => String.rev cur :: split_from EmptyString r
        end
      else split_from (String c cur) r
  end.

Definition split (s : string) : list string := split_from EmptyString s.

(** [s.encode()]: UTF-8.  A character is a code point below 256: one byte
    below 128, and the two bytes [0xC0 + n / 64], [0x80 + n mod 64] from
    there on. *)
Definition encode_char (c : ascii) : list byte :=
  let n := nat_of_ascii c in
  if (n <? 128)%nat then [byte_of_ascii c]
  else [byte_of_ascii (ascii_of_nat (192 + n / 64));
        byte_of_ascii (ascii_of_nat (128 + n mod 64))].

Definition encode (s : string) : list byte :=
  flat_map encode_char (String.list_ascii_of_string s).

(** [parts[i]]. *)
Definition item (parts : list string) (i : nat) : result string :=
  match parts !! i with
  | Some s => Ok s
  | None => Raise IndexError
  end.

End Str.

Section Loader.

(** [struct.unpack("<f", b)[0]] on four bytes. *)
Variable unpack_f32 : list byte -> Q.
(** [open(path, "r").readlines()] on the bytes of the file. *)
Variable readlines : list byte -> result (list string).
(** [float(s)]. *)
Variable float_of_str : string -> result Q.

(** [vals[i]] of [struct.unpack("<12fH", data)]. *)
Definition val (data : list byte) (i : nat) : Q :=
  unpack_f32 (take 4 (drop (4 * i) data)).

(** Lines 36 to 41: one 50-byte record as a triangle; the two attribute
    bytes are dropped. *)
Definition unpack_triangle (data : list byte) : Triangle :=
  {| normal := (val data 0, val data 1, val data 2);
     v1 := (val data 3, val data 4, val data 5);
     v2 := (val data 6, val data 7, val data 8);
     v3 := (val data 9, val data 10, val data 11) |}.

(** Lines 32 to 41: [for _ in range(num_tri)], with the [break] on a short
    read. *)
Fixpoint read_triangles (num_tri : nat) (f : list byte) : list Triangle :=
  match num_tri with
  | O => []
  | S n =>
      let '(data, f') := read 50 f in
      if (length data <? 50)%nat then []
      else unpack_triangle data :: read_triangles n f'
  end.

(** Lines 24 to 43: the header and the triangles of a binary file. *)
Definition read_binary_stl (file : list byte)
  : result (list byte * list Triangle) :=
  let '(header, f) := read 80 file in
  let '(count, f) := read 4 f in
  num_tri ← unpack_u32 count;
  Ok (header, read_triangles (N.to_nat num_tri) f).

(** [b"solid"]. *)
Definition solid : list byte := [x73; x6f; x6c; x69; x64].

(** Lines 46 to 50: format detection on the first 80 bytes. *)
Definition is_ascii_stl (file : list byte) : bool :=
  let start := lstrip (read 80 file).1 in
  startswith solid start && negb (contains x00 start).

(** The state of the loop of [read_ascii_stl]: [normal], [verts] and
    [triangles]. *)
Record ascii_state : Type := mkAsciiState {
  cur_normal : option Point3;
  cur_verts : list Point3;
  triangles_so_far : list Triangle;
}.

(** [(float(parts[i]), float(parts[i+1]), float(parts[i+2]))]. *)
Definition float3 (parts : list string) (i : nat) : result Point3 :=
  x ← Str.item parts i ≫= float_of_str;
  y ← Str.item parts (i + 1) ≫= float_of_str;
  z ← Str.item parts (i + 2) ≫= float_of_str;
  Ok (x, y, z).

(** Lines 64 to 73: the body of the loop over the lines. *)
Definition ascii_step (st : ascii_state) (raw : string) : result ascii_state :=
  let line := Str.strip raw in
  if String.prefix "facet normal" line then
    n ← float3 (Str.split line) 2;
    Ok (mkAsciiState (Some n) [] (triangles_so_far st))
  else if String.prefix "vertex" line then
    v ← float3 (Str.split line) 1;
    Ok (mkAsciiState (cur_normal st) (cur_verts st ++ [v]) (triangles_so_far st))
  else
    match String.prefix "endfacet" line, cur_normal st, cur_verts st with
    | true, Some n, [a; b; c] =>
        Ok (mkAsciiState (cur_normal st) (cur_verts st)
              (triangles_so_far st ++ [mkTriangle n a b c]))
    | _, _, _ => Ok st
    end.

(** Line 63: [for line in lines]. *)
Fixpoint ascii_loop (st : ascii_state) (lines : list string)
  : result ascii_state :=
  match lines with
  | [] => Ok st
  | l :: rest => st' ← ascii_step st l; ascii_loop st' rest
  end.

(** Lines 53 to 75: the header and the triangles of a text file. *)
Definition read_ascii_stl (file : list byte)
  : result (list byte * list Triangle) :=
  lines ← readlines file;
  let header :=
    match lines with
    | [] => []
    | l :: _ => Str.encode (Str.strip l)
    end in
  st ← ascii_loop (mkAsciiState None [] []) lines;
  Ok (header, triangles_so_far st).

End Loader.

(* ================================================================= *)
(** ** Geometry metrics: vertices and face normals (lines 188 to 223) *)

(** [[v for t in triangles for v in t[1:]]]. *)
Definition all_verts_of (triangles : list Triangle) : list Point3 :=
  flat_map (fun t => [v1 t; v2 t; v3 t]) triangles.

(** Lines 189 to 196: the bounding box of the vertices. *)
Record BoundingBox : Type := mkBox {
  min_x : Q; max_x : Q;
  min_y : Q; max_y : Q;
  min_z : Q; max_z : Q;
}.

Definition bounding_box (triangles : list Triangle) : result BoundingBox :=
  let all_verts := all_verts_of triangles in
  let xs := map px all_verts in
  let ys := map py all_verts in
  let zs := map pz all_verts in
  min_x ← Py.min xs;
  max_x ← Py.max xs;
  min_y ← Py.min ys;
  max_y ← Py.max ys;
  min_z ← Py.min zs;
  max_z ← Py.max zs;
  Ok (mkBox min_x max_x min_y max_y min_z max_z).

(** The four counters of the face-normal loop. *)
Record normal_counts : Type := mkCounts {
  top : nat;
  bottom : nat;
  vertical : nat;
  angled : nat;
}.

(** The body of the loop, lines 215 to 223. *)
Definition count_normal (c : normal_counts) (tri : Triangle) : normal_counts :=
  let nz := pz (normal tri) in
  if ltb 0.9 nz then mkCounts (top c + 1) (bottom c) (vertical c) (angled c)
  else if ltb nz (-0.9) then mkCounts (top c) (bottom c + 1) (vertical c) (angled c)
  else if ltb (Qabs nz) 0.1 then mkCounts (top c) (bottom c) (vertical c + 1) (angled c)
  else mkCounts (top c) (bottom c) (vertical c) (angled c + 1).

(** Lines 213 to 223: the counters after the loop. *)
Definition face_normals (triangles : list Triangle) : normal_counts :=
  fold_left count_normal triangles (mkCounts 0 0 0 0).

(** The vertices of a height slab, as [(x, y)] pairs:
    [[(v[0], v[1]) for v in all_verts if abs(v[2] - target_z) < tolerance]]. *)
Definition in_slab (target_z tolerance : Q) (v : Point3) : bool :=
  ltb (Qabs (pz v - target_z)) tolerance.

Definition slab (all_verts : list Point3) (target_z tolerance : Q)
  : list (Q * Q) :=
  map (fun v => (px v, py v)) (List.filter (in_slab target_z tolerance) all_verts).

(* ================================================================= *)
(** ** Cross-section analysis ([analyze_slice], lines 262 to 294) *)

Record SliceInfo : Type := mkSliceInfo {
  verts : nat;
  x_range : Q * Q;
  y_range : Q * Q;
  width : Q;
  height : Q;
  center : Q * Q;
  avg_radius : Q;
  variation : Q;
  shape : string;
}.

(** Lines 277 to 282. *)
Definition shape_of (variation : Q) : string :=
  if ltb variation 0.1 then "circular"
  else if ltb variation 0.25 then "roughly circular/oval"
  else "irregular".

Section CrossSection.

(** [math.sqrt]; [x ** 0.5] is read as the same function. *)
Variable sqrt : Q -> Q.

(** [[math.sqrt((x - cx) ** 2 + (y - cy) ** 2) for x, y in verts]]. *)
Definition distances (cx cy : Q) (verts : list (Q * Q)) : list Q :=
  map (fun '(x, y) => sqrt ((x - cx) ^ 2 + (y - cy) ^ 2)%Q) verts.

(** Lines 262 to 294.  [analyze_slice] is a closure of [analyze]: the
    variable [all_verts] that it captures is its first argument here, and
    the dictionary it returns is a [SliceInfo]. *)
Definition analyze_slice (all_verts : list Point3) (target_z tolerance : Q)
  : result (option SliceInfo) :=
  let verts := slab all_verts target_z tolerance in
  if (length verts <? 10)%nat then Ok None
  else
    let sx := verts.*1 in
    let sy := verts.*2 in
    min_sx ← Py.min sx;
    max_sx ← Py.max sx;
    cx ← Py.div (min_sx + max_sx) 2;
    min_sy ← Py.min sy;
    max_sy ← Py.max sy;
    cy ← Py.div (min_sy + max_sy) 2;
    let dists := distances cx cy verts in
    avg_r ← Py.div (Py.sum dists) (of_len (length dists));
    var_r ← Py.div (Py.sum (map (fun dd => (dd - avg_r) ^ 2)%Q dists))
                   (of_len (length dists));
    let std_r := sqrt var_r in
    variation ← (if ltb 0 avg_r then Py.div std_r avg_r else Ok 0%Q);
    Ok (Some {| verts := length verts;
                x_range := (min_sx, max_sx);
                y_range := (min_sy, max_sy);
                width := max_sx - min_sx;
                height := max_sy - min_sy;
                center := (cx, cy);
                avg_radius := avg_r;
                variation := variation;
                shape := shape_of variation |}).

(** The call sites pass no tolerance: [tolerance=0.25]. *)
Definition analyze_slice_default (all_verts : list Point3) (target_z : Q)
  : result (option SliceInfo) :=
  analyze_slice all_verts target_z 0.25.

End CrossSection.

(* ================================================================= *)
(** ** Pocket detection ([detect_pockets], lines 126 to 170) *)

Record PocketInfo : Type := mkPocketInfo {
  count : nat;
  pocket_x_range : Q * Q;
  pocket_y_range : Q * Q;
  pocket_width : Q;
  pocket_height : Q;
}.

(** Lines 133 to 137: the dictionary of hit counts per cell. *)
Definition add_hit (grid : gmap (Z * Z) Z) (cell : Z * Z) : gmap (Z * Z) Z :=
  <[cell := default 0 (grid !! cell) + 1]> grid.

(** The dictionary after the loop over the cells of the vertices. *)
Definition hit_grid (cells : list (Z * Z)) : gmap (Z * Z) Z :=
  fold_left add_hit cells ∅.

(** [(gx, gy) not in grid or grid[(gx, gy)] < 3]. *)
Definition sparse (grid : gmap (Z * Z) Z) (cell : Z * Z) : bool :=
  match grid !! cell with
  | None => true
  | Some n => n <? 3
  end.

(** [(gx + dx, gy + dy) in grid and grid[(gx + dx, gy + dy)] >= 3]. *)
Definition dense (grid : gmap (Z * Z) Z) (cell : Z * Z) : bool :=
  match grid !! cell with
  | None => false
  | Some n => 3 <=? n
  end.

(** [for dx in [-1, 0, 1] for dy in [-1, 0, 1]]. *)
Definition offsets : list (Z * Z) :=
  dx ← [-1; 0; 1]; dy ← [-1; 0; 1]; [(dx, dy)].

(** Lines 151 to 153: [sum(1 for dx ... for dy ... if ...)]. *)
Definition neighbors (grid : gmap (Z * Z) Z) (gx gy : Z) : nat :=
  length (List.filter (fun d => dense grid (gx + d.1, gy + d.2)) offsets).

(** [range(a, b + 1)]. *)
Definition range_incl (a b : Z) : list Z := seqZ a (b + 1 - a).

(** [min] and [max] of the ints [x :: l]. *)
Definition min_Z (x : Z) (l : list Z) : Z := fold_left Z.min l x.
Definition max_Z (x : Z) (l : list Z) : Z := fold_left Z.max l x.

(** Lines 144 to 157, up to the cell centres: the cells of the scanned
    rectangle that enter [empty_interior], in the order of the two loops. *)
Definition empty_cells (grid : gmap (Z * Z) Z) : list (Z * Z) :=
  let keys := elements (dom grid) in
  match keys.*1, keys.*2 with
  | x0 :: xs, y0 :: ys =>
      gx ← range_incl (min_Z x0 xs) (max_Z x0 xs);
      gy ← range_incl (min_Z y0 ys) (max_Z y0 ys);
      if sparse grid (gx, gy) && (4 <=? neighbors grid gx gy)%nat
      then [(gx, gy)] else []
  | _, _ => []
  end.

(** Lines 155 to 157: the centre of a cell. *)
Definition cell_centre (grid_size : Q) (cell : Z * Z) : Q * Q :=
  (of_int cell.1 * grid_size + grid_size / 2,
   of_int cell.2 * grid_size + grid_size / 2)%Q.

(** Lines 126 to 170; the dictionary it returns is a [PocketInfo]. *)
Definition detect_pockets (all_verts : list Point3) (min_x min_y z_target : Q)
    (tol grid_size : Q) : result (option PocketInfo) :=
  let verts_2d :=
    map (fun v => (px v - min_x, py v - min_y)%Q)
        (List.filter (in_slab z_target tol) all_verts) in
  if (length verts_2d <? 10)%nat then Ok None
  else
    cells ← mapM (fun '(x, y) =>
                    qx ← Py.div x grid_size;
                    qy ← Py.div y grid_size;
                    Ok (Py.int qx, Py.int qy)) verts_2d;
    let grid := hit_grid cells in
    let empty_interior := map (cell_centre grid_size) (empty_cells grid) in
    match empty_interior with
    | [] => Ok None
    | _ :: _ =>
        let ex := empty_interior.*1 in
        let ey := empty_interior.*2 in
        min_ex ← Py.min ex;
        max_ex ← Py.max ex;
        min_ey ← Py.min ey;
        max_ey ← Py.max ey;
        Ok (Some {| count := length empty_interior;
                    pocket_x_range := (min_ex, max_ex);
                    pocket_y_range := (min_ey, max_ey);
                    pocket_width := max_ex - min_ex;
                    pocket_height := max_ey - min_ey |})
    end.

(** The call site passes neither: [tol=0.3, grid_size=2.0]. *)
Definition detect_pockets_default (all_verts : list Point3)
    (min_x min_y z_target : Q) : result (option PocketInfo) :=
  detect_pockets all_verts min_x min_y z_target 0.3 2.

(* ================================================================= *)
(** ** The report: ASCII cross-sections, the recommendation, [analyze]
       and the entry point *)

(** ["\n"]. *)
Definition nl : string := String "010" EmptyString.

(** [n] with a comma between groups of three digits, as [f"{n:,}"] prints
    a count; [digits] is read from the last digit. *)
Fixpoint group3 (digits : list ascii) (k : nat) : list ascii :=
  match digits with
  | [] => []
  | d :: r =>
      match k, r with
      | 2%nat, _ :: _ => d :: ","%char :: group3 r 0
      | _, _ => d :: group3 r (S k)
      end
  end.

Definition with_commas (n : nat) : string :=
  String.string_of_list_ascii
    (reverse (group3 (reverse (String.list_ascii_of_string (pretty n))) 0)).

(** [sys.maxsize]: the largest index of a list. *)
Definition maxsize : Z := 2 ^ 63 - 1.

Section Report.

(** [f"{x:W.Pf}"]: a float with [P] decimals, padded to [W] characters. *)
Variable fmt_f : nat -> nat -> Q -> string.
(** The number of list items the machine can allocate for a grid. *)
Variable capacity : Z.

(** Line 89: [[[' '] * cols for _ in range(rows)]].  No row is built when
    [rows] is not positive.  Otherwise [[' '] * cols] raises OverflowError
    when [cols] fits no index, above [sys.maxsize] or below
    [-sys.maxsize - 1], and MemoryError ends the comprehension when the
    rows, of [cols] items each (of none when [cols] is negative), and the
    list of [rows] items that holds them exceed what the machine can
    allocate. *)
Definition blank_grid (rows cols : Z) : result (list (list ascii)) :=
  if rows <=? 0 then Ok []
  else if (maxsize <? cols) || (cols <? - maxsize - 1) then Raise OverflowError
  else if capacity <? rows * (Z.max cols 0 + 1) then Raise MemoryError
  else Ok (replicate (Z.to_nat rows) (replicate (Z.to_nat cols) " "%char)).

(** Lines 91 to 95: one vertex of the slab marks its cell. *)
Definition mark (grid_res min_x min_y : Q) (rows cols : Z)
    (grid : list (list ascii)) (p : Q * Q) : result (list (list ascii)) :=
  qc ← Py.div (p.1 - min_x) grid_res;
  qr ← Py.div (p.2 - min_y) grid_res;
  let c := Py.int qc in
  let r := Py.int qr in
  if (0 <=? r) && (r <? rows) && (0 <=? c) && (c <? cols)
  then Ok (alter (fun row => <[Z.to_nat c := "#"%char]> row) (Z.to_nat r) grid)
  else Ok grid.

(** Line 91: [for x, y in verts_2d]. *)
Fixpoint mark_all (grid_res min_x min_y : Q) (rows cols : Z)
    (grid : list (list ascii)) (verts_2d : list (Q * Q))
  : result (list (list ascii)) :=
  match verts_2d with
  | [] => Ok grid
  | p :: rest =>
      grid' ← mark grid_res min_x min_y rows cols grid p;
      mark_all grid_res min_x min_y rows cols grid' rest
  end.

(** Lines 100 to 104: the line of row [r], when the row has a mark. *)
Definition row_line (grid_res min_y : Q) (grid : list (list ascii)) (r : nat)
  : list string :=
  let y_val := (min_y + of_len r * grid_res)%Q in
  let line := default [] (grid !! r) in
  if existsb (Ascii.eqb "#") line
  then ["  y=" +:+ fmt_f 6 1 y_val +:+ " |" +:+ String.string_of_list_ascii line +:+ "|"]
  else [].

(** Lines 78 to 106: the lines of the picture, highest row first. *)
Definition ascii_cross_section (verts_2d : list (Q * Q)) (width height : Q)
    (grid_res : Q) (label : string) : result (list string) :=
  match verts_2d with
  | [] => Ok []
  | _ :: _ =>
      min_x ← Py.min verts_2d.*1;
      min_y ← Py.min verts_2d.*2;
      qw ← Py.div width grid_res;
      let cols := Py.int qw + 2 in
      qh ← Py.div height grid_res;
      let rows := Py.int qh + 2 in
      blank ← blank_grid rows cols;
      grid ← mark_all grid_res min_x min_y rows cols blank verts_2d;
      Ok ((if decide (label = "") then [] else [label])
          ++ (r ← reverse (seq 0 (Z.to_nat rows)); row_line grid_res min_y grid r))
  end.

(** Line 311. *)
Definition ascii_z_levels (min_z max_z z_range : Q) : list Q :=
  [min_z + 0.2; min_z + z_range * 0.25; min_z + z_range * 0.5;
   min_z + z_range * 0.75; max_z - 0.2]%Q.

(** Line 315: the tolerance of the ASCII slabs. *)
Definition ascii_tol (z_range : Q) : Q := max2 0.25 (z_range * 0.03).

(** Lines 315 to 323: what one pass of the loop prints for [z_target]. *)
Definition ascii_block (all_verts : list Point3) (w h z_range : Q)
    (z_target : Q) : result (list string) :=
  let tol := ascii_tol z_range in
  let verts_2d := slab all_verts z_target tol in
  if (length verts_2d <? 10)%nat then Ok []
  else
    lines ← ascii_cross_section verts_2d w h 2
              (nl +:+ "  --- z=" +:+ fmt_f 0 1 z_target +:+ "mm ---");
    Ok (map (fun line => "  " +:+ line) lines).

(** Lines 310 to 324. *)
Definition ascii_section (all_verts : list Point3) (w h min_z max_z : Q)
  : result (list string) :=
  let z_range := (max_z - min_z)%Q in
  blocks ← mapM (ascii_block all_verts w h z_range)
                (ascii_z_levels min_z max_z z_range);
  Ok (["ASCII cross-sections (# = geometry present):"] ++ concat blocks ++ [""]).

(** The three outcomes of the recommendation; [Polyhedron] carries the
    ratio of the [--reduce] hint when the hint is printed. *)
Inductive strategy : Type :=
| ManualParametric
| Polyhedron (reduce : option Q)
| SlicedCrossSection.

(** The branch taken by lines 368 to 386, for [n = len(triangles)]. *)
Definition recommend (n : Z) (flat_vertical_pct curve_pct : Q) : strategy :=
  if (n <? 500) && ltb 80 flat_vertical_pct then ManualParametric
  else if (1000 <? n) || ltb 30 curve_pct then
    Polyhedron (if 50000 <? n
                then Some (max2 0.1 (of_int 20000 / of_int n))
                else None)
  else SlicedCrossSection.

(** Lines 363 to 387. *)
Definition recommendation (triangles : list Triangle) (c : normal_counts)
  : result (list string) :=
  let len := length triangles in
  flat ← Py.div (of_len (top c + bottom c + vertical c)) (of_len len);
  let flat_vertical_pct := (flat * 100)%Q in
  curve ← Py.div (of_len (angled c)) (of_len len);
  let curve_pct := (curve * 100)%Q in
  let rule := String.string_of_list_ascii (replicate 60 "="%char) in
  let body :=
    match recommend (Z.of_nat len) flat_vertical_pct curve_pct with
    | ManualParametric =>
        ["  >>Manual parametric (simple geometry: " +:+ pretty len +:+ " faces, "
           +:+ fmt_f 0 0 flat_vertical_pct +:+ "% flat/vertical)";
         "    Write OpenSCAD by hand using dimensions above.";
         "    Best for: boxes, plates, simple brackets, geometric shapes"]
    | Polyhedron reduce =>
        ["  >>Polyhedron (complex: " +:+ with_commas len +:+ " faces, "
           +:+ fmt_f 0 0 curve_pct +:+ "% curved)";
         "    python scripts/stl-to-scad.py <file>";
         "    Perfect fidelity, ~1s render, valid manifold"]
        ++ match reduce with
           | Some ratio =>
               ["    Consider: --reduce " +:+ fmt_f 0 1 ratio +:+ " to reduce from "
                  +:+ with_commas len +:+ " to ~"
                  +:+ with_commas (Z.to_nat (Py.int (of_len len * ratio)))
                  +:+ " faces"]
           | None => []
           end
    | SlicedCrossSection =>
        ["  >>Sliced cross-section (medium: " +:+ with_commas len +:+ " faces, "
           +:+ fmt_f 0 0 curve_pct +:+ "% curved)";
         "    python scripts/stl-to-scad.py <file> --mode sliced";
         "    Approximate but editable in OpenSCAD"]
    end in
  Ok ([rule; "Recommended reconstruction:"] ++ body ++ [rule]).

End Report.

Section Program.

Variable unpack_f32 : list byte -> Q.
Variable readlines : list byte -> result (list string).
Variable float_of_str : string -> result Q.
(** Lines 188 to 387 of [analyze]: the report of a mesh that has triangles,
    as the lines it prints and the exception that ends it, if any.  Its
    arguments are the path, the file size, the format and the triangles. *)
Variable report :
  string -> nat -> string -> list Triangle -> list string * option exn.

(** Lines 177 to 182: the format, the header and the triangles. *)
Definition load (file : list byte)
  : result (string * (list byte * list Triangle)) :=
  if is_ascii_stl file then
    r ← read_ascii_stl readlines float_of_str file; Ok ("ASCII", r)
  else
    r ← read_binary_stl unpack_f32 file; Ok ("Binary", r).

(** [analyze(filepath)] on a file with the bytes [file]: what it prints,
    and the exception that leaves it, if any. *)
Definition analyze (filepath : string) (file : list byte)
  : list string * option exn :=
  let filesize := length file in
  match load file with
  | Raise e => ([], Some e)
  | Ok (fmt, (header, triangles)) =>
      match triangles with
      | [] => (["Error: No triangles found in file."], None)
      | _ :: _ => report filepath filesize fmt triangles
      end
  end.

(** What a run leaves behind: the lines on standard output and the exit
    status of the process. *)
Record outcome : Type := mkOutcome {
  stdout : list string;
  exit_code : Z;
}.

(** Lines 390 to 400, on the file system [fs] (the bytes of every path that
    exists) and [sys.argv].  An exception that nobody catches ends the
    process with status 1; falling off the end of the script ends it
    with status 0. *)
Definition main (fs : string -> option (list byte)) (argv : list string)
  : outcome :=
  match argv with
  | [] => mkOutcome [] 1
  | [prog] => mkOutcome ["Usage: " +:+ prog +:+ " <file.stl>"] 1
  | _ :: path :: _ =>
      match fs path with
      | None => mkOutcome ["Error: File not found: " +:+ path] 1
      | Some file =>
          match analyze path file with
          | (out, Some _) => mkOutcome out 1
          | (out, None) => mkOutcome out 0
          end
      end
  end.

End Program.

(* ================================================================= *)
(** ** The rest of [analyze]: printing, the surfaces and the report *)

(** A piece of the script that prints: the lines it has printed, and the
    value it returns or the exception it raises. *)
Record io (A : Type) : Type := mkIO {
  printed : list string;
  returned : result A;
}.
Arguments mkIO {A} printed returned.
Arguments printed {A} i.
Arguments returned {A} i.

#[export] Instance io_ret : MRet io := fun _ a => mkIO [] (Ok a).
#[export] Instance io_bind : MBind io := fun _ _ f m =>
  match returned m with
  | Ok a => mkIO (printed m ++ printed (f a)) (returned (f a))
  | Raise e => mkIO (printed m) (Raise e)
  end.

(** [print(s)]. *)
Definition print (s : string) : io unit := mkIO [s] (Ok tt).

(** A computation that prints nothing. *)
Definition lift {A} (r : result A) : io A := mkIO [] r.

(** [for x in l: body(x)]. *)
Fixpoint for_each {A} (l : list A) (body : A -> io unit) : io unit :=
  match l with
  | [] => mret tt
  | x :: rest => body x ;; for_each rest body
  end.

(** [f"{n:Wd}"]: a count, padded with blanks on the left to [w] characters. *)
Definition fmt_d (w : nat) (n : nat) : string :=
  String.string_of_list_ascii (replicate (w - String.length (pretty n)) " "%char)
  +:+ pretty n.

(** [os.path.basename(p)] where the separator is [/]: what follows the last
    [/]. *)
Fixpoint basename (p : string) : string :=
  match p with
  | EmptyString => EmptyString
  | String c rest =>
      if existsb (Ascii.eqb "/") (String.list_ascii_of_string p)
      then basename rest else p
  end.

(** [max(l)] on counts. *)
Definition max_count_of (l : list nat) : result nat :=
  match l with
  | [] => Raise ValueError
  | x :: r => Ok (fold_left (fun m y => if (m <? y)%nat then y else m) r x)
  end.

(** The key of a float in a dictionary or a set: floats that are equal are
    one key. *)
Definition float_key (x : Q) : Qc := Q2Qc x.

(** [sorted(d.keys())]. *)
Definition sorted_keys {V} (d : gmap Qc V) : list Qc :=
  merge_sort Qcle (elements (dom d)).

Section FullReport.

(** [math.sqrt], the [f] format of f-strings and [round(x, 1)]. *)
Variable sqrt : Q -> Q.
Variable fmt_f : nat -> nat -> Q -> string.
Variable round1 : Q -> Q.
(** The number of list items the machine can allocate for a grid. *)
Variable capacity : Z.

(** Lines 109 to 123.  [defaultdict(lambda: defaultdict(int))] is a
    dictionary of dictionaries in which a missing entry reads as empty, and
    a missing count as 0. *)
Definition count_face (faces : gmap Qc (gmap string nat)) (avg_z : Qc)
  : gmap Qc (gmap string nat) :=
  let inner := default ∅ (faces !! avg_z) in
  <[avg_z := <["total" := (default 0 (inner !! "total") + 1)%nat]> inner]> faces.

Definition surface_step (min_y : Q)
    (st : gmap Qc (gmap string nat) * gmap Qc (gmap string nat))
    (tri : Triangle) : gmap Qc (gmap string nat) * gmap Qc (gmap string nat) :=
  let avg_z := round1 ((pz (v1 tri) + pz (v2 tri) + pz (v3 tri)) / 3) in
  let avg_y := ((py (v1 tri) + py (v2 tri) + py (v3 tri)) / 3 - min_y)%Q in
  if ltb 0.9 (pz (normal tri)) then (count_face st.1 (float_key avg_z), st.2)
  else if ltb (pz (normal tri)) (-0.9) then (st.1, count_face st.2 (float_key avg_z))
  else st.

Definition detect_surfaces (triangles : list Triangle) (min_y : Q)
  : gmap Qc (gmap string nat) * gmap Qc (gmap string nat) :=
  fold_left (surface_step min_y) triangles (∅, ∅).

(** [faces[z]["total"]]. *)
Definition face_total (faces : gmap Qc (gmap string nat)) (z : Qc) : nat :=
  default 0%nat (default ∅ (faces !! z) !! "total").

(** Lines 329 to 334 and 336 to 341: the list of one kind of surface. *)
Definition surface_lines (heading : string) (faces : gmap Qc (gmap string nat))
  : io unit :=
  print heading ;;
  for_each (sorted_keys faces) (fun z =>
    let count := face_total faces z in
    if (5 <? count)%nat
    then print ("  z=" +:+ fmt_f 5 1 z +:+ ": " +:+ fmt_d 4 count +:+ " faces")
    else mret tt) ;;
  print "".

(** Lines 236 to 239: the histogram of the rounded heights. *)
Definition add_level (z_hist : gmap Qc nat) (v : Point3) : gmap Qc nat :=
  let zr := float_key (round1 (pz v)) in
  <[zr := (default 0 (z_hist !! zr) + 1)%nat]> z_hist.

Definition z_histogram (all_verts : list Point3) : gmap Qc nat :=
  fold_left add_level all_verts ∅.

(** Line 242. *)
Definition bar_scale_of (max_count : nat) : result Q :=
  if (0 <? max_count)%nat then Py.div (of_int 40) (of_len max_count) else Ok 1%Q.

(** Line 246: the number of [#] of a bar. *)
Definition bar_length (count : nat) (bar_scale : Q) : Z :=
  Py.int (of_len count * bar_scale).

(** Lines 236 to 248. *)
Definition z_hist_section (all_verts : list Point3) : io unit :=
  let z_hist := z_histogram all_verts in
  max_count ← lift (max_count_of (map_to_list z_hist).*2);
  bar_scale ← lift (bar_scale_of max_count);
  print ("Z-level distribution (" +:+ pretty (size z_hist) +:+ " distinct levels):") ;;
  for_each (sorted_keys z_hist) (fun z =>
    let n := default 0%nat (z_hist !! z) in
    let bar := String.string_of_list_ascii
                 (replicate (Z.to_nat (bar_length n bar_scale)) "#"%char) in
    print ("  z=" +:+ fmt_f 6 1 z +:+ ": " +:+ fmt_d 6 n +:+ " " +:+ bar)) ;;
  print "".

(** Lines 252 to 260: [sorted(set([...]))]. *)
Definition z_levels (min_z max_z : Q) : list Qc :=
  let z_range := (max_z - min_z)%Q in
  merge_sort Qcle
    (elements (list_to_set (C := gset Qc)
       (float_key <$>
          [min_z; min_z + z_range * 0.1; min_z + z_range * 0.25;
           min_z + z_range * 0.5; min_z + z_range * 0.75;
           min_z + z_range * 0.9; max_z]%Q))).

(** Lines 296 to 307. *)
Definition slice_line (z_level : Q) (info : option SliceInfo) : string :=
  match info with
  | Some info =>
      "  z=" +:+ fmt_f 0 1 z_level +:+ ": " +:+ shape info +:+ " ("
      +:+ fmt_f 0 1 (width info) +:+ " x " +:+ fmt_f 0 1 (height info)
      +:+ " mm, r~" +:+ fmt_f 0 1 (avg_radius info) +:+ " mm, variation="
      +:+ fmt_f 0 3 (variation info) +:+ ", pts=" +:+ pretty (verts info) +:+ ")"
  | None => "  z=" +:+ fmt_f 0 1 z_level +:+ ": insufficient data"
  end.

Definition cross_section_section (all_verts : list Point3) (min_z max_z : Q)
  : io unit :=
  print "Cross-section analysis:" ;;
  for_each (z_levels min_z max_z) (fun z_level =>
    info ← lift (analyze_slice_default sqrt all_verts z_level);
    print (slice_line z_level info)) ;;
  print "".

(** Lines 310 to 324, printing as the loop goes. *)
Definition ascii_section_io (all_verts : list Point3) (w h min_z max_z : Q)
  : io unit :=
  let z_range := (max_z - min_z)%Q in
  print "ASCII cross-sections (# = geometry present):" ;;
  for_each (ascii_z_levels min_z max_z z_range) (fun z_target =>
    lines ← lift (ascii_block fmt_f capacity all_verts w h z_range z_target);
    for_each lines print) ;;
  print "".

(** Lines 352 to 357. *)
Definition pocket_line (z_target : Q) (pocket : PocketInfo) : string :=
  "  z=" +:+ fmt_f 0 1 z_target +:+ ": " +:+ pretty (count pocket)
  +:+ " void cells, region: " +:+ fmt_f 0 0 (pocket_width pocket) +:+ " x "
  +:+ fmt_f 0 0 (pocket_height pocket) +:+ " mm at X=["
  +:+ fmt_f 0 0 (pocket_x_range pocket).1 +:+ ","
  +:+ fmt_f 0 0 (pocket_x_range pocket).2 +:+ "] Y=["
  +:+ fmt_f 0 0 (pocket_y_range pocket).1 +:+ ","
  +:+ fmt_f 0 0 (pocket_y_range pocket).2 +:+ "]".

(** Lines 345 and 346. *)
Definition pocket_z_levels (min_z z_range : Q) : list Q :=
  map (fun f => (min_z + z_range * f)%Q) [0.1; 0.2; 0.3; 0.4; 0.5; 0.6; 0.7; 0.8; 0.9]%Q.

(** Lines 348 to 357: the loop, with the flag [found_pockets] as its
    state. *)
Fixpoint pocket_loop (all_verts : list Point3) (min_x min_y : Q)
    (levels : list Q) (found_pockets : bool) : io bool :=
  match levels with
  | [] => mret found_pockets
  | z_target :: rest =>
      pocket ← lift (detect_pockets_default all_verts min_x min_y z_target);
      match pocket with
      | Some p =>
          print (pocket_line z_target p) ;;
          pocket_loop all_verts min_x min_y rest true
      | None => pocket_loop all_verts min_x min_y rest found_pockets
      end
  end.

(** Lines 344 to 360. *)
Definition pocket_section (all_verts : list Point3) (min_x min_y min_z z_range : Q)
  : io unit :=
  print "Pocket/void detection:" ;;
  found_pockets ← pocket_loop all_verts min_x min_y
                    (pocket_z_levels min_z z_range) false;
  (if found_pockets : bool then mret tt
   else print "  No internal voids detected (solid object)") ;;
  print "".

(** [f"({100*n/len(triangles):.0f}%)"]. *)
Definition percent (n len : nat) : result string :=
  p ← Py.div (of_len (100 * n)) (of_len len);
  Ok ("(" +:+ fmt_f 0 0 p +:+ "%)").

(** Lines 225 to 233. *)
Definition normals_section (c : normal_counts) (len : nat) : io unit :=
  print "Face normals:" ;;
  p ← lift (percent (top c) len);
  print ("  Top-facing (flat):    " +:+ fmt_d 6 (top c) +:+ "  " +:+ p) ;;
  p ← lift (percent (bottom c) len);
  print ("  Bottom-facing (flat): " +:+ fmt_d 6 (bottom c) +:+ "  " +:+ p) ;;
  p ← lift (percent (vertical c) len);
  print ("  Vertical (walls):     " +:+ fmt_d 6 (vertical c) +:+ "  " +:+ p) ;;
  p ← lift (percent (angled c) len);
  print ("  Angled (curves/bevel):" +:+ fmt_d 6 (angled c) +:+ "  " +:+ p) ;;
  print "".

(** Lines 199 to 210. *)
Definition header_section (filepath : string) (filesize : nat) (fmt : string)
    (len : nat) (box : BoundingBox) : io unit :=
  let w := (max_x box - min_x box)%Q in
  let h := (max_y box - min_y box)%Q in
  let d := (max_z box - min_z box)%Q in
  print ("File: " +:+ basename filepath) ;;
  print ("Format: " +:+ fmt) ;;
  print ("Size: " +:+ with_commas filesize +:+ " bytes") ;;
  print ("Triangles: " +:+ with_commas len) ;;
  print "" ;;
  print "Bounding box:" ;;
  print ("  X: " +:+ fmt_f 0 2 (min_x box) +:+ " to " +:+ fmt_f 0 2 (max_x box)
         +:+ "  (width:  " +:+ fmt_f 0 2 w +:+ " mm)") ;;
  print ("  Y: " +:+ fmt_f 0 2 (min_y box) +:+ " to " +:+ fmt_f 0 2 (max_y box)
         +:+ "  (height: " +:+ fmt_f 0 2 h +:+ " mm)") ;;
  print ("  Z: " +:+ fmt_f 0 2 (min_z box) +:+ " to " +:+ fmt_f 0 2 (max_z box)
         +:+ "  (depth:  " +:+ fmt_f 0 2 d +:+ " mm)") ;;
  print ("  Center: (" +:+ fmt_f 0 2 ((min_x box + max_x box) / 2) +:+ ", "
         +:+ fmt_f 0 2 ((min_y box + max_y box) / 2) +:+ ", "
         +:+ fmt_f 0 2 ((min_z box + max_z box) / 2) +:+ ")") ;;
  print "".

(** Lines 188 to 387: [analyze] after the test for an empty mesh. *)
Definition report_io (filepath : string) (filesize : nat) (fmt : string)
    (triangles : list Triangle) : io unit :=
  let all_verts := all_verts_of triangles in
  box ← lift (bounding_box triangles);
  let w := (max_x box - min_x box)%Q in
  let h := (max_y box - min_y box)%Q in
  header_section filepath filesize fmt (length triangles) box ;;
  let c := face_normals triangles in
  normals_section c (length triangles) ;;
  z_hist_section all_verts ;;
  let z_range := (max_z box - min_z box)%Q in
  cross_section_section all_verts (min_z box) (max_z box) ;;
  ascii_section_io all_verts w h (min_z box) (max_z box) ;;
  let '(top_faces, bot_faces) := detect_surfaces triangles (min_y box) in
  surface_lines "Floor surfaces (top-facing flat faces by Z level):" top_faces ;;
  surface_lines "Ceiling surfaces (bottom-facing flat faces by Z level):" bot_faces ;;
  pocket_section all_verts (min_x box) (min_y box) (min_z box) z_range ;;
  lines ← lift (recommendation fmt_f triangles c);
  for_each lines print.

(** The report in the form [analyze] takes it. *)
Definition full_report (filepath : string) (filesize : nat) (fmt : string)
    (triangles : list Triangle) : list string * option exn :=
  let r := report_io filepath filesize fmt triangles in
  (printed r, match returned r with Ok _ => None | Raise e => Some e end).

End FullReport.

(* ================================================================= *)
(** ** The vocabulary of the specification *)

(** Section 4.2: the four classes of a face. *)
Inductive face_class : Type := Top | Bottom | Vertical | Angled.

(** Section 4.2, as written: [z > 0.9] is top, [z < -0.9] is bottom,
    [|z| < 0.1] is vertical, and a face is angled otherwise. *)
Definition has_class (nz : Q) (k : face_class) : Prop :=
  match k with
  | Top => (0.9 < nz)%Q
  | Bottom => (nz < -0.9)%Q
  | Vertical => (Qabs nz < 0.1)%Q
  | Angled => ~ (0.9 < nz)%Q /\ ~ (nz < -0.9)%Q /\ ~ (Qabs nz < 0.1)%Q
  end.

(** One more face of class [k]. *)
Definition bump (k : face_class) (c : normal_counts) : normal_counts :=
  match k with
  | Top => mkCounts (top c + 1) (bottom c) (vertical c) (angled c)
  | Bottom => mkCounts (top c) (bottom c + 1) (vertical c) (angled c)
  | Vertical => mkCounts (top c) (bottom c) (vertical c + 1) (angled c)
  | Angled => mkCounts (top c) (bottom c) (vertical c) (angled c + 1)
  end.

(** The faces counted so far. *)
Definition total (c : normal_counts) : nat :=
  (top c + bottom c + vertical c + angled c)%nat.

(** A smallest and a largest element of a list: the sides of a bounding
    box. *)
Definition is_min (m : Q) (l : list Q) : Prop :=
  m ∈ l /\ forall x, x ∈ l -> (m <= x)%Q.
Definition is_max (m : Q) (l : list Q) : Prop :=
  m ∈ l /\ forall x, x ∈ l -> (x <= m)%Q.

(** Section 4.3: the arithmetic mean and the population standard deviation
    of a list, and the Euclidean distance of a point to a centre, for a
    square root [sqrt]. *)
Definition mean (l : list Q) : Q := (Py.sum l / of_len (length l))%Q.

Definition pstdev (sqrt : Q -> Q) (l : list Q) : Q :=
  sqrt (Py.sum (map (fun d => (d - mean l) ^ 2)%Q l) / of_len (length l))%Q.

Definition euclid (sqrt : Q -> Q) (c p : Q * Q) : Q :=
  sqrt ((p.1 - c.1) ^ 2 + (p.2 - c.2) ^ 2)%Q.

(** Section 4.3: the variation coefficient of a list of distances. *)
Definition variation_coefficient (sqrt : Q -> Q) (dists : list Q) : Q :=
  if Qeq_bool (mean dists) 0 then 0%Q else (pstdev sqrt dists / mean dists)%Q.

(** Section 4.3: the three shape labels and their thresholds. *)
Inductive shape_label : Type := Circular | Oval | Irregular.

Definition label_of (variation : Q) : shape_label :=
  if Qlt_le_dec variation 0.1 then Circular
  else if Qlt_le_dec variation 0.25 then Oval
  else Irregular.

(** The text the report prints for a label. *)
Definition label_text (l : shape_label) : string :=
  match l with
  | Circular => "circular"
  | Oval => "roughly circular/oval"
  | Irregular => "irregular"
  end.

(** Section 4.6: the hit count of a cell, 0 for a cell that holds no
    vertex. *)
Definition hits (grid : gmap (Z * Z) Z) (cell : Z * Z) : Z :=
  default 0 (grid !! cell).

(** Section 4.6: the 8 immediate neighbours of a cell, as offsets, and the
    number of those with a hit count of at least 3. *)
Definition neighbours8 : list (Z * Z) :=
  [(-1, -1); (-1, 0); (-1, 1); (0, -1); (0, 1); (1, -1); (1, 0); (1, 1)].

Definition dense_neighbours (grid : gmap (Z * Z) Z) (gx gy : Z) : nat :=
  length (List.filter (fun d => 3 <=? hits grid (gx + d.1, gy + d.2)) neighbours8).

(** Section 4.6: the rectangle that spans the occupied cells: some occupied
    cell lies to the left of the column (or in it) and some to the right,
    some below the row (or in it) and some above. *)
Definition in_span (grid : gmap (Z * Z) Z) (gx gy : Z) : Prop :=
  (exists k, k ∈ dom grid /\ k.1 <= gx) /\
  (exists k, k ∈ dom grid /\ gx <= k.1) /\
  (exists k, k ∈ dom grid /\ k.2 <= gy) /\
  (exists k, k ∈ dom grid /\ gy <= k.2).

(** The grid of a picture of [width] by [height], at a cell size that is
    not 0, can be allocated: its columns fit an index, and its cells and its
    rows the machine. *)
Definition grid_fits (capacity : Z) (width height grid_res : Q) : Prop :=
  let cols := Py.int (width / grid_res) + 2 in
  let rows := Py.int (height / grid_res) + 2 in
  - maxsize - 1 <= cols <= maxsize /\ rows * (Z.max cols 0 + 1) <= capacity.

(** An exception of the allocation of a grid. *)
Definition allocation_error (e : exn) : Prop :=
  e = OverflowError \/ e = MemoryError.

(** The cell of a vertex (lines 135 and 136), for a cell size that is not
    0. *)
Definition cell_of (grid_size : Q) (p : Q * Q) : Z * Z :=
  (Py.int (p.1 / grid_size), Py.int (p.2 / grid_size)).

(* ================================================================= *)
(** ** Further vocabulary for the properties *)

(** The [i]-th 50-byte record of a binary file, and the number of whole
    records after the header and the count. *)
Definition record_at (file : list byte) (i : nat) : list byte :=
  take 50 (drop (84 + 50 * i) file).

Definition whole_records (file : list byte) : nat :=
  ((length file - 84) / 50)%nat.

(** The count announced by a binary file. *)
Definition announced (file : list byte) : nat :=
  N.to_nat (le_value (take 4 (drop 80 file))).

(** A line of a text file that closes a facet. *)
Definition is_endfacet (raw : string) : bool :=
  String.prefix "endfacet" (Str.strip raw).

(** The state of the text parser before the first line. *)
Definition ascii_init : ascii_state := mkAsciiState None [] [].

(** The fields of a line that the parser reads as numbers: those after
    [facet normal], or after [vertex]; no field on any other line. *)
Definition number_fields (raw : string) : option (list string) :=
  let line := Str.strip raw in
  if String.prefix "facet normal" line then Some (drop 2 (Str.split line))
  else if String.prefix "vertex" line then Some (drop 1 (Str.split line))
  else None.

(** The row and the column of a vertex in a picture (lines 92 and 93), for a
    resolution that is not 0. *)
Definition raster_cell (grid_res min_x min_y : Q) (p : Q * Q) : Z * Z :=
  (Py.int ((p.2 - min_y) / grid_res), Py.int ((p.1 - min_x) / grid_res)).

(** Some vertex has its cell at row [r] and column [c]. *)
Definition covered (grid_res min_x min_y : Q) (verts_2d : list (Q * Q))
    (r c : nat) : bool :=
  existsb (fun p => let cell := raster_cell grid_res min_x min_y p in
                    (cell.1 =? Z.of_nat r) && (cell.2 =? Z.of_nat c)) verts_2d.

(** The grid of [rows] by [cols] characters that holds [#] where [f] does
    and a blank elsewhere. *)
Definition picture_row (cols : nat) (f : nat -> bool) : list ascii :=
  map (fun c => if f c then "#"%char else " "%char) (seq 0 cols).

Definition picture (rows cols : nat) (f : nat -> nat -> bool)
  : list (list ascii) :=
  map (fun r => picture_row cols (f r)) (seq 0 rows).

(** The key of a vertex in the histogram of the heights, and the key of a
    triangle in the dictionaries of the surfaces, for the rounding
    [round1]. *)
Definition level_of (round1 : Q -> Q) (v : Point3) : Qc :=
  float_key (round1 (pz v)).

Definition surface_level (round1 : Q -> Q) (tri : Triangle) : Qc :=
  float_key (round1 ((pz (v1 tri) + pz (v2 tri) + pz (v3 tri)) / 3)%Q).

(** [sum(z_hist.values())], and the sum of the ["total"] entries of a
    dictionary of surfaces. *)
Definition values_total (z_hist : gmap Qc nat) : nat :=
  sum_list_with snd (map_to_list z_hist).

Definition faces_total (faces : gmap Qc (gmap string nat)) : nat :=
  sum_list_with (fun kv => default 0%nat (kv.2 !! "total")) (map_to_list faces).

(** What the loop over the heights of the pocket detection prints: one line
    for every height that has a pocket. *)
Definition pocket_lines (fmt_f : nat -> nat -> Q -> string)
    (all_verts : list Point3) (min_x min_y : Q) (levels : list Q)
  : list string :=
  z_target ← levels;
  match detect_pockets_default all_verts min_x min_y z_target with
  | Ok (Some p) => [pocket_line fmt_f z_target p]
  | _ => []
  end.

(** A line that the text parser passes over: stripped, it starts with none
    of [facet normal], [vertex] and [endfacet]. *)
Definition is_ignored (raw : string) : bool :=
  let line := Str.strip raw in
  negb (String.prefix "facet normal" line) && negb (String.prefix "vertex" line)
  && negb (String.prefix "endfacet" line).

(* ================================================================= *)
(** ** Instances of the library functions, and sample inputs *)

(** The value of an IEEE 754 single given by its four little-endian bytes,
    when the single is finite (an infinity or a not-a-number pattern has no
    rational value and is read as 0 here). *)
Definition f32_value (data : list byte) : Q :=
  let w := Z.of_N (le_value data) in
  let e := (w / 2 ^ 23) mod 256 in
  let m := w mod 2 ^ 23 in
  let mag :=
    if e =? 0 then (inject_Z m * 2 ^ (-149))%Q
    else (inject_Z (2 ^ 23 + m) * 2 ^ (e - 150))%Q in
  if e =? 255 then 0%Q
  else if w / 2 ^ 31 =? 1 then Qred (- mag) else Qred mag.

(** A text reader for files that hold no text, and a [float] that accepts
    nothing. *)
Definition no_text (file : list byte) : result (list string) :=
  Raise UnicodeDecodeError.
Definition no_float (s : string) : result Q := Raise ValueError.

(** A [float] that reads a run of decimal digits. *)
Definition digits_float (s : string) : result Q :=
  match s with
  | EmptyString => Raise ValueError
  | _ =>
      let step := fun (acc : option Z) (c : ascii) =>
        let n := Z.of_nat (nat_of_ascii c) in
        match acc with
        | Some a => if (48 <=? n) && (n <=? 57) then Some (10 * a + (n - 48)) else None
        | None => None
        end in
      match fold_left step (String.list_ascii_of_string s) (Some 0) with
      | Some a => Ok (inject_Z a)
      | None => Raise ValueError
      end
  end.

(** A report that prints nothing. *)
Definition silent_report (filepath : string) (filesize : nat) (fmt : string)
    (triangles : list Triangle) : list string * option exn :=
  ([], None).

(** The integer square root of the integer part: a square root that is
    never negative. *)
Definition floor_sqrt (x : Q) : Q := inject_Z (Z.sqrt (Qfloor x)).

(** A formatter that prints the integer part of a float only. *)
Definition fmt_int_part (w p : nat) (x : Q) : string := pretty (Py.int x).

(** A binary header, the counts 0 and 3, and a record whose normal is
    (0, 0, 1) and whose vertices are (0,0,0), (1,0,0), (0,1,0). *)
Definition header0 : list byte := replicate 80 x00.
Definition count0 : list byte := [x00; x00; x00; x00].
Definition count3 : list byte := [x03; x00; x00; x00].
Definition f32_zero : list byte := [x00; x00; x00; x00].
Definition f32_one : list byte := [x00; x00; x80; x3f].
Definition record1 : list byte :=
  f32_zero ++ f32_zero ++ f32_one
  ++ f32_zero ++ f32_zero ++ f32_zero
  ++ f32_one ++ f32_zero ++ f32_zero
  ++ f32_zero ++ f32_one ++ f32_zero
  ++ [x00; x00].

(** A binary file that announces no triangle, and a file system that holds
    it as ["empty.stl"]. *)
Definition empty_binary : list byte := header0 ++ count0.

Definition fs_empty (path : string) : option (list byte) :=
  if decide (path = "empty.stl") then Some empty_binary else None.

(** A binary file of three triangles whose header starts with the bytes
    [solid] and a null byte. *)
Definition solid_binary : list byte :=
  solid ++ x00 :: replicate 74 x00 ++ count3 ++ record1 ++ record1 ++ record1.

(** A file that stops one byte short of the end of the count, and a file
    system that holds it as ["short.stl"]. *)
Definition short_binary : list byte := replicate 83 x00.

Definition fs_short (path : string) : option (list byte) :=
  if decide (path = "short.stl") then Some short_binary else None.

(** The lines of a small text file, a facet with two vertices followed by a
    facet with three, and a text reader that hands them over. *)
Definition sample_lines : list string :=
  ["solid part" +:+ nl;
   "  facet normal 0 0 1" +:+ nl;
   "    outer loop" +:+ nl;
   "      vertex 0 0 0" +:+ nl;
   "      vertex 1 0 0" +:+ nl;
   "    endloop" +:+ nl;
   "  endfacet" +:+ nl;
   "  facet normal 0 0 1" +:+ nl;
   "    outer loop" +:+ nl;
   "      vertex 0 0 0" +:+ nl;
   "      vertex 1 0 0" +:+ nl;
   "      vertex 0 1 0" +:+ nl;
   "    endloop" +:+ nl;
   "  endfacet" +:+ nl;
   "endsolid part" +:+ nl].

Definition sample_text (file : list byte) : result (list string) :=
  Ok sample_lines.

(** A text file whose first line ends in the character U+00E9, and that
    holds no facet. *)
Definition accent_lines : list string :=
  ["  solid caf" +:+ String "233"%char EmptyString +:+ nl;
   "endsolid" +:+ nl].

Definition accent_text (file : list byte) : result (list string) :=
  Ok accent_lines.

(** Twelve vertices: ten of them at heights within 0.25 of 0, on the sides
    of the square from (0,0) to (4,4), and two above. *)
Definition sample_verts10 : list Point3 :=
  [(0, 0, 0); (2, 0, 0); (4, 0, 0.1); (4, 2, 0); (4, 4, 0); (2, 4, -0.2);
   (0, 4, 0); (0, 2, 0); (4, 0, 0.2); (4, 4, 0); (2, 2, 5); (2, 2, 0.25)]%Q.

(** The same without their first vertex: nine are left in the slab. *)
Definition sample_verts9 : list Point3 := tail sample_verts10.

(** A ring of cells with three hits each around the 3 x 3 hole from (1, 1)
    to (3, 3), and vertices at height 0 that fall into these cells, three
    in each, for a cell size of 2. *)
Definition ring_cells : list (Z * Z) :=
  x ← seqZ 0 5; y ← seqZ 0 5;
  if decide (1 <= x <= 3 /\ 1 <= y <= 3) then [] else [(x, y); (x, y); (x, y)].

Definition ring_verts : list Point3 :=
  map (fun c => (of_int (2 * c.1 + 1), of_int (2 * c.2 + 1), 0)%Q) ring_cells.

(* ================================================================= *)
(** ** Instances of the library functions for the report, and a sample mesh *)

(** The integer nearest to [x], the even one of the two when [x] lies
    half-way. *)
Definition round_half_even (x : Q) : Z :=
  let f := Qfloor x in
  let d := (x - inject_Z f)%Q in
  if ltb d 0.5 then f
  else if ltb 0.5 d then f + 1
  else if Z.even f then f else f + 1.

(** [round(x, 1)] on a rational. *)
Definition round_tenths (x : Q) : Q :=
  Qred (inject_Z (round_half_even (x * 10)) / 10).

(** [f"{x:W.Pf}"] on a rational: [p] decimals, padded on the left to [w]
    characters. *)
Definition fmt_fixed (w p : nat) (x : Q) : string :=
  let scaled := Z.abs (round_half_even (x * inject_Z (10 ^ Z.of_nat p))) in
  let int_part := pretty (scaled / 10 ^ Z.of_nat p) in
  let frac := pretty (scaled mod 10 ^ Z.of_nat p) in
  let frac_part :=
    match p with
    | O => ""
    | _ => "." +:+ String.string_of_list_ascii
                     (replicate (p - String.length frac) "0"%char) +:+ frac
    end in
  let body := (if ltb x 0 then "-" else "") +:+ int_part +:+ frac_part in
  String.string_of_list_ascii (replicate (w - String.length body) " "%char)
  +:+ body.

(** The twelve triangles of the cube from (0,0,0) to (10,10,10). *)
Definition cube : list Triangle :=
  [mkTriangle (0, 0, -1) (0, 0, 0) (10, 10, 0) (10, 0, 0);
   mkTriangle (0, 0, -1) (0, 0, 0) (0, 10, 0) (10, 10, 0);
   mkTriangle (0, 0, 1) (0, 0, 10) (10, 0, 10) (10, 10, 10);
   mkTriangle (0, 0, 1) (0, 0, 10) (10, 10, 10) (0, 10, 10);
   mkTriangle (0, -1, 0) (0, 0, 0) (10, 0, 0) (10, 0, 10);
   mkTriangle (0, -1, 0) (0, 0, 0) (10, 0, 10) (0, 0, 10);
   mkTriangle (0, 1, 0) (0, 10, 0) (10, 10, 10) (10, 10, 0);
   mkTriangle (0, 1, 0) (0, 10, 0) (0, 10, 10) (10, 10, 10);
   mkTriangle (-1, 0, 0) (0, 0, 0) (0, 0, 10) (0, 10, 10);
   mkTriangle (-1, 0, 0) (0, 0, 0) (0, 10, 10) (0, 10, 0);
   mkTriangle (1, 0, 0) (10, 0, 0) (10, 10, 0) (10, 10, 10);
   mkTriangle (1, 0, 0) (10, 0, 0) (10, 10, 10) (10, 0, 10)]%Q.

(* ================================================================= *)
(** * Properties *)

(** ** Generalities on the runtime *)

Lemma ltb_lt (x y : Q) : ltb x y = true <-> (x < y)%Q.
Proof.
  unfold ltb. rewrite negb_true_iff, <- not_true_iff_false, Qle_bool_iff.
  split; [apply Qnot_le_lt | apply Qlt_not_le].
Qed.

Lemma ltb_ge (x y : Q) : ltb x y = false <-> (y <= x)%Q.
Proof.
  unfold ltb. rewrite negb_false_iff. apply Qle_bool_iff.
Qed.

Lemma bind_Ok {A B} (f : A -> result B) (a : A) : (Ok a ≫= f) = f a.
Proof. reflexivity. Qed.

Lemma div_Ok (x y : Q) : ~ (y == 0)%Q -> Py.div x y = Ok (x / y)%Q.
Proof.
  intros Hy. unfold Py.div.
  destruct (Qeq_bool y 0) eqn:E; [|done].
  apply Qeq_bool_iff in E. contradiction.
Qed.

Lemma of_len_pos (n : nat) : (0 < n)%nat -> (0 < of_len n)%Q.
Proof.
  intros Hn. unfold of_len, Qlt. simpl. lia.
Qed.

(** ** The loader *)

Lemma lstrip_split (s : list byte) :
  exists ws, s = ws ++ lstrip s /\ Forall (fun b => is_space_byte b = true) ws.
Proof.
  induction s as [|b r IH]; simpl.
  - exists []. by split.
  - destruct (is_space_byte b) eqn:Hb.
    + destruct IH as (ws & Hr & Hws). exists (b :: ws). split.
      * simpl. by rewrite <- Hr.
      * by constructor.
    + exists []. by split.
Qed.

Lemma lstrip_app_space (ws t : list byte) :
  Forall (fun b => is_space_byte b = true) ws -> lstrip (ws ++ t) = lstrip t.
Proof.
  induction 1 as [|b ws Hb _ IH]; simpl; [done|]. by rewrite Hb.
Qed.

Lemma startswith_prefix (p s : list byte) :
  startswith p s = true <-> exists rest, s = p ++ rest.
Proof.
  revert s. induction p as [|a p IH]; intros s; simpl.
  - split; [eauto|done].
  - destruct s as [|b s].
    + split; [done|]. intros (rest & Hr). discriminate.
    + rewrite andb_true_iff, IH. split.
      * intros (Hab & rest & ->). apply Byte.byte_dec_bl in Hab as ->. eauto.
      * intros (rest & Hr). injection Hr as -> ->. split; [|eauto].
        apply Byte.byte_dec_lb. done.
Qed.

Lemma contains_elem (b : byte) (s : list byte) :
  contains b s = true <-> b ∈ s.
Proof.
  unfold contains. rewrite existsb_exists. split.
  - intros (c & Hin & Hc). apply Byte.byte_dec_bl in Hc as ->.
    by apply list_elem_of_In.
  - intros Hin. exists b. split; [by apply list_elem_of_In|].
    by apply Byte.byte_dec_lb.
Qed.

Lemma space_not_null (ws : list byte) :
  Forall (fun b => is_space_byte b = true) ws -> x00 ∉ ws.
Proof.
  intros Hws Hin. rewrite Forall_forall in Hws.
  specialize (Hws _ Hin). discriminate.
Qed.

(** C3.  Format detection looks at the first 80 bytes of the file only, and
    answers "text" exactly when those bytes are some run of leading
    whitespace followed by the marker [solid], and none of them is the null
    byte.  In particular a file that starts with [solid] and a null byte is
    not text, and [analyze] hands it to the binary parser. *)
Theorem format_detection (unpack_f32 : list byte -> Q)
    (readlines : list byte -> result (list string))
    (float_of_str : string -> result Q) :
  (forall file : list byte,
      is_ascii_stl file = true <->
      (exists ws rest,
          take 80 file = ws ++ solid ++ rest /\
          Forall (fun b => is_space_byte b = true) ws) /\
      x00 ∉ take 80 file) /\
  (forall rest : list byte,
      is_ascii_stl (solid ++ x00 :: rest) = false /\
      load unpack_f32 readlines float_of_str (solid ++ x00 :: rest) =
        (r ← read_binary_stl unpack_f32 (solid ++ x00 :: rest); Ok ("Binary", r))).
Proof.
  split.
  - intros file. unfold is_ascii_stl, read. cbn [fst].
    set (h := take 80 file).
    destruct (lstrip_split h) as (ws & Hh & Hws).
    rewrite andb_true_iff, negb_true_iff, startswith_prefix.
    rewrite <- not_true_iff_false, contains_elem.
    split.
    + intros ((rest & Hrest) & Hnull). split.
      * exists ws, rest. split; [|done]. by rewrite <- Hrest.
      * rewrite Hh. rewrite elem_of_app. intros [Hin|Hin]; [|done].
        by apply (space_not_null ws).
    + intros ((ws' & rest & Hh' & Hws') & Hnull). split.
      * exists rest. rewrite Hh'. by rewrite lstrip_app_space.
      * intros Hin. apply Hnull. rewrite Hh. apply elem_of_app. by right.
  - intros rest. assert (H : is_ascii_stl (solid ++ x00 :: rest) = false) by reflexivity.
    split; [done|]. unfold load. by rewrite H.
Qed.

Lemma format_detection_witness :
  is_ascii_stl solid_binary = false /\
  load f32_value no_text no_float solid_binary =
    Ok ("Binary",
        (solid ++ replicate 75 x00,
         replicate 3 (mkTriangle (0, 0, 1)%Q (0, 0, 0)%Q (1, 0, 0)%Q (0, 1, 0)%Q))).
Proof.
  destruct (format_detection f32_value no_text no_float) as [_ Hnull].
  destruct (Hnull (replicate 74 x00 ++ count3 ++ record1 ++ record1 ++ record1))
    as [Hbin Hload].
  split; [exact Hbin|]. etransitivity; [exact Hload|]. vm_compute. reflexivity.
Defined.

Lemma read_app_length (n : nat) (l k : list byte) :
  length l = n -> read n (l ++ k) = (l, k).
Proof.
  intros Hl. unfold read.
  by rewrite take_app_length', drop_app_length'.
Qed.

Lemma read_short (f : list byte) (n : nat) :
  (length f < n)%nat -> length (read n f).1 = length f.
Proof.
  intros Hf. unfold read. cbn [fst]. rewrite length_take. lia.
Qed.

(** The loop of the binary parser on [k] whole records followed by less than
    one record, when more than [k] triangles were announced. *)
Lemma read_triangles_truncated (unpack_f32 : list byte -> Q)
    (records : list (list byte)) (tail : list byte) (num_tri : nat) :
  Forall (fun r => length r = 50%nat) records ->
  (length records < num_tri)%nat ->
  (length tail < 50)%nat ->
  read_triangles unpack_f32 num_tri (concat records ++ tail) =
    map (unpack_triangle unpack_f32) records.
Proof.
  intros Hrec. revert num_tri.
  induction Hrec as [|r rs Hr _ IH]; intros num_tri Hn Htail.
  - destruct num_tri as [|n]; [simpl in Hn; lia|].
    cbn [concat app read_triangles].
    destruct (read 50 tail) as [data f'] eqn:Hread.
    assert (Hlen : length data = length tail).
    { change data with (data, f').1. rewrite <- Hread. by apply read_short. }
    destruct (Nat.ltb_spec (length data) 50); [done|lia].
  - destruct num_tri as [|n]; [simpl in Hn; lia|].
    cbn [concat read_triangles]. rewrite <- app_assoc.
    rewrite (read_app_length 50 r) by done.
    rewrite Hr. cbn [Nat.ltb Nat.leb]. cbn [map]. f_equal.
    apply IH; [simpl in Hn; lia|done].
Qed.

(** The loop of the binary parser when the announced records are all there:
    what follows them is not read. *)
Lemma read_triangles_complete (unpack_f32 : list byte -> Q)
    (records : list (list byte)) (rest : list byte) :
  Forall (fun r => length r = 50%nat) records ->
  read_triangles unpack_f32 (length records) (concat records ++ rest) =
    map (unpack_triangle unpack_f32) records.
Proof.
  induction 1 as [|r rs Hr _ IH]; [done|].
  cbn [length concat read_triangles]. rewrite <- app_assoc.
  rewrite (read_app_length 50 r) by done.
  rewrite Hr. cbn [Nat.ltb Nat.leb]. cbn [map]. by f_equal.
Qed.

(** C8.  A binary file made of an 80-byte header, a 4-byte count, [k] whole
    50-byte records and fewer than 50 further bytes, whose count announces
    more than [k] triangles, is read without an exception: the parser
    returns the header and the [k] triangles of the whole records, in file
    order. *)
Theorem binary_truncated_record_tolerated (unpack_f32 : list byte -> Q)
    (header count : list byte) (records : list (list byte)) (tail : list byte) :
  length header = 80%nat ->
  length count = 4%nat ->
  Forall (fun r => length r = 50%nat) records ->
  (length records < N.to_nat (le_value count))%nat ->
  (length tail < 50)%nat ->
  read_binary_stl unpack_f32 (header ++ count ++ concat records ++ tail) =
    Ok (header, map (unpack_triangle unpack_f32) records).
Proof.
  intros Hheader Hcount Hrec Hn Htail. unfold read_binary_stl.
  rewrite (read_app_length 80 header) by done.
  rewrite (read_app_length 4 count) by done.
  unfold unpack_u32. rewrite Hcount. cbn [Nat.eqb]. rewrite bind_Ok.
  by rewrite read_triangles_truncated.
Qed.

(** Four bytes cannot be read from a file of fewer than 84 bytes. *)
Lemma short_count (file : list byte) :
  (length file < 84)%nat -> (length (read 4 (read 80 file).2).1 < 4)%nat.
Proof.
  intros Hlen. unfold read. cbn [fst snd].
  rewrite length_take, length_drop. lia.
Qed.

Lemma read_binary_stl_short (unpack_f32 : list byte -> Q) (file : list byte) :
  (length file < 84)%nat -> read_binary_stl unpack_f32 file = Raise StructError.
Proof.
  intros Hlen. unfold read_binary_stl.
  pose proof (short_count file Hlen) as Hshort.
  destruct (read 80 file) as [header f]. cbn [snd] in Hshort.
  destruct (read 4 f) as [count f']. cbn [fst] in Hshort. unfold unpack_u32.
  destruct (Nat.eqb_spec (length count) 4); [lia|done].
Qed.

(** C9.  Whatever its content, a file of fewer than 84 bytes makes the
    binary parser raise [struct.error] on the triangle count; when format
    detection sends such a file to the binary parser, the exception leaves
    [analyze] with nothing printed and ends the process with status 1.
    Such files exist: the empty file is one. *)
Theorem binary_short_file_raises (unpack_f32 : list byte -> Q)
    (readlines : list byte -> result (list string))
    (float_of_str : string -> result Q)
    (report : string -> nat -> string -> list Triangle -> list string * option exn) :
  (forall file : list byte,
      (length file < 84)%nat ->
      read_binary_stl unpack_f32 file = Raise StructError /\
      (is_ascii_stl file = false ->
       forall (fs : string -> option (list byte)) (prog path : string),
         fs path = Some file ->
         analyze unpack_f32 readlines float_of_str report path file
           = ([], Some StructError) /\
         main unpack_f32 readlines float_of_str report fs [prog; path]
           = mkOutcome [] 1)) /\
  (exists file : list byte,
      (length file < 84)%nat /\ is_ascii_stl file = false /\
      read_binary_stl unpack_f32 file = Raise StructError).
Proof.
  split.
  - intros file Hlen. split; [by apply read_binary_stl_short|].
    intros Hbin fs prog path Hfs.
    assert (Han : analyze unpack_f32 readlines float_of_str report path file
                  = ([], Some StructError)).
    { unfold analyze, load. rewrite Hbin.
      by rewrite read_binary_stl_short. }
    split; [done|]. unfold main. by rewrite Hfs, Han.
  - exists []. split; [simpl; lia|]. split; [done|].
    apply read_binary_stl_short. simpl. lia.
Qed.

Lemma binary_short_file_raises_witness :
  read_binary_stl f32_value short_binary = Raise StructError /\
  main f32_value no_text no_float silent_report fs_short
    ["analyze-stl.py"; "short.stl"] = mkOutcome [] 1.
Proof.
  destruct (binary_short_file_raises f32_value no_text no_float silent_report)
    as [Hshort _].
  destruct (Hshort short_binary) as [Hraise Hrun]; [vm_compute; lia|].
  split; [exact Hraise|].
  apply (Hrun eq_refl fs_short "analyze-stl.py" "short.stl" eq_refl).
Defined.

Lemma binary_truncated_record_tolerated_witness :
  read_binary_stl f32_value (header0 ++ count3 ++ concat [record1] ++ [x2a; x2a]) =
    Ok (header0, [unpack_triangle f32_value record1]).
Proof.
  apply (binary_truncated_record_tolerated f32_value header0 count3 [record1]
           [x2a; x2a]).
  - reflexivity.
  - reflexivity.
  - repeat constructor.
  - vm_compute. lia.
  - simpl. lia.
Defined.

(** C1.  When the path exists and the loader returns no triangle, the run
    prints the single line [Error: No triangles found in file.] and the
    process ends with status 0: [analyze] returns after the message and
    nothing after the call sets a status. *)
Theorem empty_mesh_run (unpack_f32 : list byte -> Q)
    (readlines : list byte -> result (list string))
    (float_of_str : string -> result Q)
    (report : string -> nat -> string -> list Triangle -> list string * option exn)
    (fs : string -> option (list byte)) (prog path : string) (rest : list string)
    (file : list byte) (fmt : string) (header : list byte) :
  fs path = Some file ->
  load unpack_f32 readlines float_of_str file = Ok (fmt, (header, [])) ->
  main unpack_f32 readlines float_of_str report fs (prog :: path :: rest) =
    mkOutcome ["Error: No triangles found in file."] 0.
Proof.
  intros Hfs Hload. unfold main. rewrite Hfs.
  unfold analyze. by rewrite Hload.
Qed.

Lemma empty_mesh_run_witness :
  main f32_value no_text no_float silent_report fs_empty ["analyze-stl.py"; "empty.stl"] =
    mkOutcome ["Error: No triangles found in file."] 0.
Proof.
  apply (empty_mesh_run f32_value no_text no_float silent_report fs_empty
           "analyze-stl.py" "empty.stl" [] empty_binary "Binary" header0).
  - reflexivity.
  - reflexivity.
Defined.

(** ** Face normals *)

Lemma Qabs_bounds (x : Q) : (x <= Qabs x)%Q /\ (- x <= Qabs x)%Q.
Proof.
  split; [apply Qle_Qabs|]. rewrite <- Qabs_opp. apply Qle_Qabs.
Qed.

Lemma Qabs_lt_iff (x y : Q) : (Qabs x < y)%Q <-> (- y < x)%Q /\ (x < y)%Q.
Proof. apply Qabs_Qlt_condition. Qed.

(** Every comparison of the goal becomes an inequality of rationals. *)
Ltac ltb_cases :=
  repeat match goal with
    | |- context [ltb ?a ?b] =>
        let E := fresh "E" in
        destruct (ltb a b) eqn:E;
        [apply ltb_lt in E | apply ltb_ge in E]
    end.

Lemma has_class_unique (nz : Q) (k k' : face_class) :
  has_class nz k -> has_class nz k' -> k = k'.
Proof.
  destruct (Qabs_bounds nz) as [Hpos Hneg].
  destruct k, k'; simpl; intros H H'; try reflexivity; exfalso;
    try (destruct H as (? & ? & ?)); try (destruct H' as (? & ? & ?));
    try contradiction; lra.
Qed.

Lemma has_class_total (nz : Q) : exists k, has_class nz k.
Proof.
  destruct (Qlt_le_dec 0.9 nz) as [Ht|Ht]; [by exists Top|].
  destruct (Qlt_le_dec nz (-0.9)) as [Hb|Hb]; [by exists Bottom|].
  destruct (Qlt_le_dec (Qabs nz) 0.1) as [Hv|Hv]; [by exists Vertical|].
  exists Angled. simpl. repeat split; lra.
Qed.

Lemma count_normal_class (c : normal_counts) (tri : Triangle) (k : face_class) :
  has_class (pz (normal tri)) k -> count_normal c tri = bump k c.
Proof.
  intros Hk. unfold count_normal.
  destruct (Qabs_bounds (pz (normal tri))) as [Hpos Hneg].
  destruct k; simpl in Hk; ltb_cases; try reflexivity; exfalso;
    try (destruct Hk as (? & ? & ?)); lra.
Qed.

Lemma total_bump (k : face_class) (c : normal_counts) :
  total (bump k c) = S (total c).
Proof. destruct k; unfold total; simpl; lia. Qed.

Lemma total_fold (triangles : list Triangle) (c : normal_counts) :
  total (fold_left count_normal triangles c) = (total c + length triangles)%nat.
Proof.
  revert c. induction triangles as [|tri rest IH]; intros c; simpl; [lia|].
  rewrite IH. destruct (has_class_total (pz (normal tri))) as [k Hk].
  rewrite (count_normal_class c tri k Hk), total_bump. lia.
Qed.

(** The number of triangles whose normal satisfies a condition on its z
    component. *)
Lemma counters_fold (triangles : list Triangle) (c : normal_counts) :
  let n := fun (test : Q -> bool) =>
    length (List.filter (fun t => test (pz (normal t))) triangles) in
  top (fold_left count_normal triangles c) = (top c + n (ltb 0.9))%nat /\
  bottom (fold_left count_normal triangles c)
    = (bottom c + n (fun nz => ltb nz (-0.9)))%nat /\
  vertical (fold_left count_normal triangles c)
    = (vertical c + n (fun nz => ltb (Qabs nz) 0.1))%nat.
Proof.
  revert c. induction triangles as [|tri rest IH]; intros c n.
  - unfold n. simpl. lia.
  - cbn [fold_left]. destruct (IH (count_normal c tri)) as (Ht & Hb & Hv).
    rewrite Ht, Hb, Hv. unfold n. cbn [List.filter].
    unfold count_normal.
    destruct (Qabs_bounds (pz (normal tri))) as [Hpos Hneg].
    ltb_cases; cbn [top bottom vertical length]; try lia; exfalso; lra.
Qed.

(** C5.  The z component of a normal has exactly one of the four classes of
    section 4.2; the loop adds one to the counter of that class, which it
    finds from the z component alone; after the loop the counters of top,
    bottom and vertical faces are the numbers of triangles with [z > 0.9],
    [z < -0.9] and [|z| < 0.1], and the four counters add up to the number
    of triangles. *)
Theorem normal_classification_partitions :
  (forall nz : Q,
      exists k, has_class nz k /\ forall k', has_class nz k' -> k' = k) /\
  (forall (c : normal_counts) (tri : Triangle) (k : face_class),
      has_class (pz (normal tri)) k -> count_normal c tri = bump k c) /\
  (forall triangles : list Triangle,
      let n := fun (test : Q -> bool) =>
        length (List.filter (fun t => test (pz (normal t))) triangles) in
      top (face_normals triangles) = n (ltb 0.9) /\
      bottom (face_normals triangles) = n (fun nz => ltb nz (-0.9)) /\
      vertical (face_normals triangles) = n (fun nz => ltb (Qabs nz) 0.1) /\
      (top (face_normals triangles) + bottom (face_normals triangles)
       + vertical (face_normals triangles) + angled (face_normals triangles)
       = length triangles)%nat).
Proof.
  split; [|split].
  - intros nz. destruct (has_class_total nz) as [k Hk].
    exists k. split; [done|]. intros k' Hk'. by apply (has_class_unique nz).
  - apply count_normal_class.
  - intros triangles n. unfold face_normals.
    destruct (counters_fold triangles (mkCounts 0 0 0 0)) as (Ht & Hb & Hv).
    pose proof (total_fold triangles (mkCounts 0 0 0 0)) as H.
    unfold total in H. simpl in H. repeat split; done.
Qed.

(** Four faces, one of each class. *)
Example face_normals_sample :
  face_normals
    [mkTriangle (0, 0, 1)%Q (0, 0, 0)%Q (1, 0, 0)%Q (0, 1, 0)%Q;
     mkTriangle (0, 0, -1)%Q (0, 0, 0)%Q (0, 1, 0)%Q (1, 0, 0)%Q;
     mkTriangle (1, 0, 0.05)%Q (0, 0, 0)%Q (0, 1, 0)%Q (0, 0, 1)%Q;
     mkTriangle (0.6, 0, 0.8)%Q (0, 0, 0)%Q (0, 1, 0)%Q (1, 0, 1)%Q]
  = mkCounts 1 1 1 1.
Proof. reflexivity. Qed.

(** ** Height slabs and cross-sections *)

Lemma elem_of_slab (all_verts : list Point3) (target_z tolerance : Q) (p : Q * Q) :
  p ∈ slab all_verts target_z tolerance <->
  exists v, v ∈ all_verts /\ (Qabs (pz v - target_z) < tolerance)%Q /\ p = (px v, py v).
Proof.
  unfold slab. change (map ?f ?l) with (f <$> l). rewrite list_elem_of_fmap.
  split.
  - intros (v & -> & Hv). apply list_elem_of_In, filter_In in Hv as [Hin Hz].
    exists v. split; [by apply list_elem_of_In|]. split; [|done].
    by apply ltb_lt.
  - intros (v & Hin & Hz & ->). exists v. split; [done|].
    apply list_elem_of_In, filter_In. split; [by apply list_elem_of_In|].
    by apply ltb_lt.
Qed.

Lemma fold_min_spec (r : list Q) (x : Q) :
  is_min (fold_left (fun m y => if ltb y m then y else m) r x) (x :: r).
Proof.
  revert x. induction r as [|y r IH]; intros x; simpl.
  - split; [by left|]. intros z Hz. apply list_elem_of_singleton in Hz as ->. lra.
  - destruct (IH (if ltb y x then y else x)) as [Hin Hle]. split.
    + apply elem_of_cons in Hin as [->|Hin].
      * destruct (ltb y x); [right; by left | by left].
      * by do 2 right.
    + intros z Hz.
      assert (Hm : forall w, w ∈ [x; y] ->
                (fold_left (fun m y => if ltb y m then y else m) r
                   (if ltb y x then y else x) <= w)%Q).
      { intros w Hw.
        pose proof (Hle _ (list_elem_of_here _ _)) as H0.
        destruct (ltb y x) eqn:E; [apply ltb_lt in E | apply ltb_ge in E];
          apply elem_of_cons in Hw as [->|Hw];
          try (apply list_elem_of_singleton in Hw as ->); lra. }
      apply elem_of_cons in Hz as [->|Hz]; [apply Hm; by left|].
      apply elem_of_cons in Hz as [->|Hz]; [apply Hm; right; by left|].
      apply Hle. by right.
Qed.

Lemma fold_max_spec (r : list Q) (x : Q) :
  is_max (fold_left (fun m y => if ltb m y then y else m) r x) (x :: r).
Proof.
  revert x. induction r as [|y r IH]; intros x; simpl.
  - split; [by left|]. intros z Hz. apply list_elem_of_singleton in Hz as ->. lra.
  - destruct (IH (if ltb x y then y else x)) as [Hin Hle]. split.
    + apply elem_of_cons in Hin as [->|Hin].
      * destruct (ltb x y); [right; by left | by left].
      * by do 2 right.
    + intros z Hz.
      assert (Hm : forall w, w ∈ [x; y] ->
                (w <= fold_left (fun m y => if ltb m y then y else m) r
                        (if ltb x y then y else x))%Q).
      { intros w Hw.
        pose proof (Hle _ (list_elem_of_here _ _)) as H0.
        destruct (ltb x y) eqn:E; [apply ltb_lt in E | apply ltb_ge in E];
          apply elem_of_cons in Hw as [->|Hw];
          try (apply list_elem_of_singleton in Hw as ->); lra. }
      apply elem_of_cons in Hz as [->|Hz]; [apply Hm; by left|].
      apply elem_of_cons in Hz as [->|Hz]; [apply Hm; right; by left|].
      apply Hle. by right.
Qed.

Lemma min_Ok (l : list Q) :
  (0 < length l)%nat -> exists m, Py.min l = Ok m /\ is_min m l.
Proof.
  destruct l as [|x r]; simpl; [lia|]. intros _.
  eexists. split; [reflexivity|]. apply fold_min_spec.
Qed.

Lemma max_Ok (l : list Q) :
  (0 < length l)%nat -> exists m, Py.max l = Ok m /\ is_max m l.
Proof.
  destruct l as [|x r]; simpl; [lia|]. intros _.
  eexists. split; [reflexivity|]. apply fold_max_spec.
Qed.

Lemma sum_acc_nonneg (l : list Q) (acc : Q) :
  (0 <= acc)%Q -> Forall (fun d => 0 <= d)%Q l -> (0 <= fold_left Qplus l acc)%Q.
Proof.
  intros Hacc Hl. revert acc Hacc.
  induction Hl as [|d l Hd _ IH]; intros acc Hacc; simpl; [done|].
  apply IH. lra.
Qed.

Lemma mean_nonneg (l : list Q) :
  Forall (fun d => 0 <= d)%Q l -> (0 <= mean l)%Q.
Proof.
  intros Hl. unfold mean, Qdiv.
  apply Qmult_le_0_compat.
  - apply sum_acc_nonneg; [lra|done].
  - apply Qinv_le_0_compat. unfold of_len, Qle. simpl. lia.
Qed.

Lemma distances_euclid (sqrt : Q -> Q) (cx cy : Q) (pts : list (Q * Q)) :
  distances sqrt cx cy pts = map (euclid sqrt (cx, cy)) pts.
Proof.
  unfold distances. apply map_ext. by intros [x y].
Qed.

Lemma of_len_nonzero (n : nat) : (0 < n)%nat -> ~ (of_len n == 0)%Q.
Proof.
  intros Hn Heq. pose proof (of_len_pos n Hn). lra.
Qed.

(** What [analyze_slice] returns on a slab of at least 10 points, step by
    step: no step raises. *)
Lemma analyze_slice_enough (sqrt : Q -> Q) (all_verts : list Point3)
    (target_z tolerance : Q) :
  let pts := slab all_verts target_z tolerance in
  (10 <= length pts)%nat ->
  exists x0 x1 y0 y1,
    is_min x0 pts.*1 /\ is_max x1 pts.*1 /\
    is_min y0 pts.*2 /\ is_max y1 pts.*2 /\
    let cx := ((x0 + x1) / 2)%Q in
    let cy := ((y0 + y1) / 2)%Q in
    let dists := map (euclid sqrt (cx, cy)) pts in
    let avg_r := mean dists in
    let std_r := pstdev sqrt dists in
    let v := if ltb 0 avg_r then (std_r / avg_r)%Q else 0%Q in
    analyze_slice sqrt all_verts target_z tolerance =
      Ok (Some {| verts := length pts;
                  x_range := (x0, x1);
                  y_range := (y0, y1);
                  width := x1 - x0;
                  height := y1 - y0;
                  center := (cx, cy);
                  avg_radius := avg_r;
                  variation := v;
                  shape := shape_of v |}).
Proof.
  intros pts Hlen.
  assert (Hx : (0 < length pts.*1)%nat) by (rewrite length_fmap; lia).
  assert (Hy : (0 < length pts.*2)%nat) by (rewrite length_fmap; lia).
  destruct (min_Ok _ Hx) as (x0 & Ex0 & Hx0).
  destruct (max_Ok _ Hx) as (x1 & Ex1 & Hx1).
  destruct (min_Ok _ Hy) as (y0 & Ey0 & Hy0).
  destruct (max_Ok _ Hy) as (y1 & Ey1 & Hy1).
  exists x0, x1, y0, y1. do 4 (split; [done|]).
  intros cx cy dists avg_r std_r v.
  unfold analyze_slice. fold pts.
  destruct (Nat.ltb_spec (length pts) 10) as [Hlt|_]; [lia|].
  rewrite Ex0, bind_Ok, Ex1, bind_Ok.
  rewrite (div_Ok _ 2) by lra. rewrite bind_Ok.
  rewrite Ey0, bind_Ok, Ey1, bind_Ok.
  rewrite (div_Ok _ 2) by lra. rewrite bind_Ok.
  fold cx cy. rewrite distances_euclid. fold dists.
  assert (Hd : (0 < length dists)%nat).
  { unfold dists. rewrite length_map. lia. }
  rewrite (div_Ok _ (of_len (length dists))) by (by apply of_len_nonzero).
  rewrite bind_Ok. change (Py.sum dists / of_len (length dists))%Q with avg_r.
  rewrite (div_Ok _ (of_len (length dists))) by (by apply of_len_nonzero).
  rewrite bind_Ok.
  change (sqrt (Py.sum (map (fun dd => (dd - avg_r) ^ 2)%Q dists)
                / of_len (length dists))%Q) with std_r.
  assert (Hv : (if ltb 0 avg_r then Py.div std_r avg_r else Ok 0%Q) = Ok v).
  { unfold v. destruct (ltb 0 avg_r) eqn:E; [|done].
    apply ltb_lt in E. apply div_Ok. lra. }
  rewrite Hv, bind_Ok. reflexivity.
Qed.

(** C6.  [analyze_slice] keeps a vertex exactly when its height is within
    the tolerance of the target, strictly; it returns [None] ("insufficient
    data") exactly when fewer than 10 vertices are kept: 9 give [None], 10
    give a result that counts 10 points.  The call sites use the tolerance
    0.25. *)
Theorem slice_threshold (sqrt : Q -> Q) (all_verts : list Point3)
    (target_z tolerance : Q) :
  let pts := slab all_verts target_z tolerance in
  (forall p : Q * Q,
      p ∈ pts <->
      exists v, v ∈ all_verts /\ (Qabs (pz v - target_z) < tolerance)%Q /\
                p = (px v, py v)) /\
  (analyze_slice sqrt all_verts target_z tolerance = Ok None <->
   (length pts < 10)%nat) /\
  (length pts = 9%nat ->
   analyze_slice sqrt all_verts target_z tolerance = Ok None) /\
  (length pts = 10%nat ->
   exists info,
     analyze_slice sqrt all_verts target_z tolerance = Ok (Some info) /\
     verts info = 10%nat) /\
  analyze_slice_default sqrt all_verts target_z =
    analyze_slice sqrt all_verts target_z 0.25.
Proof.
  intros pts.
  assert (Hfew : (length pts < 10)%nat ->
                 analyze_slice sqrt all_verts target_z tolerance = Ok None).
  { intros Hlt. unfold analyze_slice. fold pts.
    destruct (Nat.ltb_spec (length pts) 10); [done|lia]. }
  split; [apply elem_of_slab|]. split; [|split; [|split]].
  - split; [|done]. intros Hnone.
    destruct (Nat.lt_ge_cases (length pts) 10) as [Hlt|Hge]; [done|].
    destruct (analyze_slice_enough sqrt all_verts target_z tolerance Hge)
      as (x0 & x1 & y0 & y1 & _ & _ & _ & _ & Heq).
    cbv zeta in Heq. fold pts in Heq. rewrite Heq in Hnone. discriminate.
  - intros H9. apply Hfew. lia.
  - intros H10.
    assert (Hge : (10 <= length pts)%nat) by lia.
    destruct (analyze_slice_enough sqrt all_verts target_z tolerance Hge)
      as (x0 & x1 & y0 & y1 & _ & _ & _ & _ & Heq).
    cbv zeta in Heq. fold pts in Heq.
    eexists. split; [exact Heq|]. simpl. exact H10.
  - reflexivity.
Qed.

Lemma slice_threshold_witness :
  analyze_slice floor_sqrt sample_verts9 0 0.25 = Ok None /\
  exists info,
    analyze_slice floor_sqrt sample_verts10 0 0.25 = Ok (Some info) /\
    verts info = 10%nat.
Proof.
  split.
  - destruct (slice_threshold floor_sqrt sample_verts9 0 0.25)
      as (_ & _ & H9 & _ & _).
    apply H9. reflexivity.
  - destruct (slice_threshold floor_sqrt sample_verts10 0 0.25)
      as (_ & _ & _ & H10 & _).
    apply H10. reflexivity.
Defined.

Lemma shape_of_label (v : Q) : shape_of v = label_text (label_of v).
Proof.
  unfold shape_of, label_of.
  destruct (Qlt_le_dec v 0.1) as [H1|H1].
  - apply ltb_lt in H1. by rewrite H1.
  - apply ltb_ge in H1. rewrite H1.
    destruct (Qlt_le_dec v 0.25) as [H2|H2].
    + apply ltb_lt in H2. by rewrite H2.
    + apply ltb_ge in H2. by rewrite H2.
Qed.

(** The guard [avg_r > 0] of the code and the guard "mean radius is 0" of
    the specification agree on a mean that is not negative. *)
Lemma variation_guard (sqrt : Q -> Q) (dists : list Q) :
  (0 <= mean dists)%Q ->
  (if ltb 0 (mean dists) then (pstdev sqrt dists / mean dists)%Q else 0%Q) =
    variation_coefficient sqrt dists.
Proof.
  intros Hmean. unfold variation_coefficient.
  destruct (ltb 0 (mean dists)) eqn:E.
  - apply ltb_lt in E. destruct (Qeq_bool (mean dists) 0) eqn:E0; [|done].
    apply Qeq_bool_iff in E0. lra.
  - apply ltb_ge in E. destruct (Qeq_bool (mean dists) 0) eqn:E0; [done|].
    apply Qeq_bool_neq in E0. exfalso. apply E0. lra.
Qed.

(** C7.  On a slab of at least 10 points [analyze_slice] returns a result
    whose centre is the midpoint of the bounding box of the points, whose
    mean radius is the arithmetic mean of the distances of the points to
    that centre, whose variation is the population standard deviation of
    those distances over the mean radius, and 0 when the mean radius is 0,
    and whose shape is "circular" below 0.1, "roughly circular/oval" below
    0.25 and "irregular" from there on.  The square root is any function
    that returns no negative value. *)
Theorem slice_statistics (sqrt : Q -> Q) (all_verts : list Point3)
    (target_z tolerance : Q) :
  (forall x, 0 <= sqrt x)%Q ->
  let pts := slab all_verts target_z tolerance in
  (10 <= length pts)%nat ->
  exists info,
    analyze_slice sqrt all_verts target_z tolerance = Ok (Some info) /\
    (exists x0 x1 y0 y1,
        is_min x0 pts.*1 /\ is_max x1 pts.*1 /\
        is_min y0 pts.*2 /\ is_max y1 pts.*2 /\
        center info = ((x0 + x1) / 2, (y0 + y1) / 2)%Q) /\
    let dists := map (euclid sqrt (center info)) pts in
    avg_radius info = mean dists /\
    variation info = variation_coefficient sqrt dists /\
    shape info = label_text (label_of (variation info)).
Proof.
  intros Hsqrt pts Hlen.
  destruct (analyze_slice_enough sqrt all_verts target_z tolerance Hlen)
    as (x0 & x1 & y0 & y1 & Hx0 & Hx1 & Hy0 & Hy1 & Heq).
  cbv zeta in Heq. fold pts in Heq.
  eexists. split; [exact Heq|]. cbn [center avg_radius variation shape].
  split; [by exists x0, x1, y0, y1|].
  split; [done|]. split; [|apply shape_of_label].
  apply variation_guard. apply mean_nonneg.
  apply Forall_forall. intros d Hd.
  apply list_elem_of_In, in_map_iff in Hd as (p & <- & _). apply Hsqrt.
Qed.

Lemma floor_sqrt_nonneg (x : Q) : (0 <= floor_sqrt x)%Q.
Proof.
  unfold floor_sqrt, Qle. simpl. pose proof (Z.sqrt_nonneg (Qfloor x)). lia.
Qed.

Lemma slice_statistics_witness :
  exists info,
    analyze_slice floor_sqrt sample_verts10 0 0.25 = Ok (Some info) /\
    (exists x0 x1 y0 y1,
        is_min x0 (slab sample_verts10 0 0.25).*1 /\
        is_max x1 (slab sample_verts10 0 0.25).*1 /\
        is_min y0 (slab sample_verts10 0 0.25).*2 /\
        is_max y1 (slab sample_verts10 0 0.25).*2 /\
        center info = ((x0 + x1) / 2, (y0 + y1) / 2)%Q) /\
    avg_radius info =
      mean (map (euclid floor_sqrt (center info)) (slab sample_verts10 0 0.25)) /\
    variation info =
      variation_coefficient floor_sqrt
        (map (euclid floor_sqrt (center info)) (slab sample_verts10 0 0.25)) /\
    shape info = label_text (label_of (variation info)).
Proof.
  apply (slice_statistics floor_sqrt sample_verts10 0 0.25).
  - apply floor_sqrt_nonneg.
  - vm_compute. lia.
Defined.

(** On the sample slab the centre is the middle (2, 2) of the bounding box,
    while the mean of the x coordinates is 2.4: the centre is not the
    centroid of the points. *)
Example centre_is_box_midpoint :
  (exists info,
      analyze_slice floor_sqrt sample_verts10 0 0.25 = Ok (Some info) /\
      center info = (4 # 2, 4 # 2)) /\
  mean (slab sample_verts10 0 0.25).*1 = 2.4%Q.
Proof.
  split; [|reflexivity]. eexists. split; reflexivity.
Qed.

(** ** ASCII cross-sections *)

Lemma mark_Ok (grid_res min_x min_y : Q) (rows cols : Z)
    (grid : list (list ascii)) (p : Q * Q) :
  ~ (grid_res == 0)%Q ->
  exists grid', mark grid_res min_x min_y rows cols grid p = Ok grid'.
Proof.
  intros Hres. unfold mark. rewrite !div_Ok by done. rewrite !bind_Ok.
  match goal with |- context [if ?b then _ else _] => destruct b end; eauto.
Qed.

Lemma mark_all_Ok (grid_res min_x min_y : Q) (rows cols : Z)
    (verts_2d : list (Q * Q)) (grid : list (list ascii)) :
  ~ (grid_res == 0)%Q ->
  exists grid', mark_all grid_res min_x min_y rows cols grid verts_2d = Ok grid'.
Proof.
  intros Hres. revert grid.
  induction verts_2d as [|p rest IH]; intros grid; simpl; [eauto|].
  destruct (mark_Ok grid_res min_x min_y rows cols grid p Hres) as [g Hg].
  rewrite Hg, bind_Ok. apply IH.
Qed.

Lemma blank_grid_fits (capacity rows cols : Z) :
  - maxsize - 1 <= cols <= maxsize -> rows * (Z.max cols 0 + 1) <= capacity ->
  blank_grid capacity rows cols =
    Ok (replicate (Z.to_nat rows) (replicate (Z.to_nat cols) " "%char)).
Proof.
  intros Hcols Hcells. unfold blank_grid.
  destruct (Z.leb_spec rows 0) as [Hrows|_].
  - by replace (Z.to_nat rows) with 0%nat by lia.
  - destruct (Z.ltb_spec maxsize cols); [lia|].
    destruct (Z.ltb_spec cols (- maxsize - 1)); [lia|]. cbn [orb].
    destruct (Z.ltb_spec capacity (rows * (Z.max cols 0 + 1))); [lia|done].
Qed.

Lemma blank_grid_cases (capacity rows cols : Z) :
  blank_grid capacity rows cols =
    Ok (replicate (Z.to_nat rows) (replicate (Z.to_nat cols) " "%char)) \/
  exists e, blank_grid capacity rows cols = Raise e /\ allocation_error e.
Proof.
  unfold blank_grid, allocation_error.
  destruct (Z.leb_spec rows 0) as [Hrows|_].
  - left. by replace (Z.to_nat rows) with 0%nat by lia.
  - destruct ((maxsize <? cols) || (cols <? - maxsize - 1)); [right; eauto|].
    destruct (capacity <? rows * (Z.max cols 0 + 1)); [right; eauto|by left].
Qed.

(** A cross-section of at least one point, drawn with a label and a cell
    size that is not 0: it starts with the label when it is drawn, it is
    drawn when the grid can be allocated, and nothing but the allocation of
    the grid can fail. *)
Lemma ascii_cross_section_label (fmt_f : nat -> nat -> Q -> string)
    (capacity : Z) (verts_2d : list (Q * Q)) (width height grid_res : Q)
    (label : string) :
  (0 < length verts_2d)%nat -> ~ (grid_res == 0)%Q -> label <> "" ->
  ((exists rows,
      ascii_cross_section fmt_f capacity verts_2d width height grid_res label
        = Ok (label :: rows)) \/
   (exists e,
      ascii_cross_section fmt_f capacity verts_2d width height grid_res label
        = Raise e /\ allocation_error e)) /\
  (grid_fits capacity width height grid_res ->
   exists rows,
     ascii_cross_section fmt_f capacity verts_2d width height grid_res label
       = Ok (label :: rows)).
Proof.
  intros Hlen Hres Hlabel. unfold ascii_cross_section, grid_fits.
  destruct verts_2d as [|p rest]; [simpl in Hlen; lia|].
  destruct (min_Ok ((p :: rest).*1)) as (mx & -> & _); [simpl; lia|].
  destruct (min_Ok ((p :: rest).*2)) as (my & -> & _); [simpl; lia|].
  rewrite !bind_Ok. rewrite !div_Ok by done. rewrite !bind_Ok. cbv zeta.
  set (cols := Py.int (width / grid_res) + 2).
  set (rows := Py.int (height / grid_res) + 2).
  assert (Hdrawn : forall blank,
            exists lines,
              (grid ← mark_all grid_res mx my rows cols blank (p :: rest);
               Ok ((if decide (label = "") then [] else [label])
                   ++ (r ← reverse (seq 0 (Z.to_nat rows));
                       row_line fmt_f grid_res my grid r)))
              = Ok (label :: lines)).
  { intros blank.
    destruct (mark_all_Ok grid_res mx my rows cols (p :: rest) blank Hres)
      as [grid ->].
    rewrite bind_Ok. destruct (decide (label = "")) as [E|_]; [done|].
    eexists. reflexivity. }
  split.
  - destruct (blank_grid_cases capacity rows cols) as [->|(e & -> & He)].
    + left. rewrite bind_Ok. apply Hdrawn.
    + right. exists e. by split.
  - intros [Hcols Hcells]. rewrite blank_grid_fits by done.
    rewrite bind_Ok. apply Hdrawn.
Qed.

Lemma ascii_tol_max (z_range : Q) :
  (0.25 <= ascii_tol z_range)%Q /\ (z_range * 0.03 <= ascii_tol z_range)%Q /\
  (ascii_tol z_range = 0.25%Q \/ ascii_tol z_range = (z_range * 0.03)%Q).
Proof.
  unfold ascii_tol, max2.
  destruct (ltb 0.25 (z_range * 0.03)) eqn:E;
    [apply ltb_lt in E | apply ltb_ge in E];
    (split; [lra|]; split; [lra|]); [by right | by left].
Qed.

(** One pass of the loop of the ASCII section: nothing for a slab of fewer
    than 10 points; otherwise a labelled block, or the exception of the
    allocation of the grid. *)
Lemma ascii_block_cases (fmt_f : nat -> nat -> Q -> string) (capacity : Z)
    (all_verts : list Point3) (w h z_range z_target : Q) :
  let pts := slab all_verts z_target (ascii_tol z_range) in
  let label := "  " +:+ nl +:+ "  --- z=" +:+ fmt_f 0%nat 1%nat z_target
               +:+ "mm ---" in
  ((length pts < 10)%nat ->
   ascii_block fmt_f capacity all_verts w h z_range z_target = Ok []) /\
  ((10 <= length pts)%nat ->
   ((exists rows,
       ascii_block fmt_f capacity all_verts w h z_range z_target
         = Ok (label :: rows)) \/
    (exists e,
       ascii_block fmt_f capacity all_verts w h z_range z_target = Raise e /\
       allocation_error e)) /\
   (grid_fits capacity w h 2 ->
    exists rows,
      ascii_block fmt_f capacity all_verts w h z_range z_target
        = Ok (label :: rows))).
Proof.
  intros pts label. unfold ascii_block. fold pts.
  destruct (Nat.ltb_spec (length pts) 10) as [Hlt|Hge].
  - split; [done|]. lia.
  - split; [lia|]. intros _.
    destruct (ascii_cross_section_label fmt_f capacity pts w h 2
                (nl +:+ "  --- z=" +:+ fmt_f 0%nat 1%nat z_target +:+ "mm ---"))
      as [Hcases Hfits]; [lia|lra|done|].
    split.
    + destruct Hcases as [[rows ->]|(e & -> & He)].
      * left. rewrite bind_Ok. cbn [map]. eauto.
      * right. exists e. by split.
    + intros Hfit. destruct (Hfits Hfit) as [rows ->].
      rewrite bind_Ok. cbn [map]. eauto.
Qed.

Lemma mapM_Ok {A B} (f : A -> result B) (P : A -> B -> Prop) (l : list A) :
  (forall a, exists b, f a = Ok b /\ P a b) ->
  exists bs, mapM f l = Ok bs /\ Forall2 P l bs.
Proof.
  intros Hf. induction l as [|a l (bs & Hbs & HP)]; simpl.
  - exists []. by split.
  - destruct (Hf a) as (b & Hb & Hab). rewrite Hb, bind_Ok, Hbs, bind_Ok.
    exists (b :: bs). split; [done|]. by constructor.
Qed.

(** C10.  The ASCII section of the report visits its five heights with the
    tolerance [max(0.25, 0.03 * z_range)].  At any height, a slab of fewer
    than 10 vertices is passed over: its block is empty, with no line in its
    place and no exception.  A slab of at least 10 vertices is rendered: its
    block starts with the label of the height, unless the grid of the
    picture cannot be allocated and the exception of the allocation ends the
    block.  When the grid can be allocated the section prints, between its
    heading and a blank line, one block per height. *)
Theorem ascii_block_threshold (fmt_f : nat -> nat -> Q -> string)
    (capacity : Z) (all_verts : list Point3) (w h min_z max_z : Q) :
  let z_range := (max_z - min_z)%Q in
  let tol := ascii_tol z_range in
  let label := fun z_target =>
    "  " +:+ nl +:+ "  --- z=" +:+ fmt_f 0%nat 1%nat z_target +:+ "mm ---" in
  ((0.25 <= tol)%Q /\ (z_range * 0.03 <= tol)%Q /\
   (tol = 0.25%Q \/ tol = (z_range * 0.03)%Q)) /\
  (forall z_target,
     let pts := slab all_verts z_target tol in
     ((length pts < 10)%nat ->
      ascii_block fmt_f capacity all_verts w h z_range z_target = Ok []) /\
     ((10 <= length pts)%nat ->
      (exists rows,
         ascii_block fmt_f capacity all_verts w h z_range z_target
           = Ok (label z_target :: rows)) \/
      (exists e,
         ascii_block fmt_f capacity all_verts w h z_range z_target = Raise e /\
         allocation_error e))) /\
  (grid_fits capacity w h 2 ->
   exists blocks,
     ascii_section fmt_f capacity all_verts w h min_z max_z =
       Ok (["ASCII cross-sections (# = geometry present):"]
           ++ concat blocks ++ [""]) /\
     Forall2
       (fun z_target block =>
          let pts := slab all_verts z_target tol in
          ((length pts < 10)%nat -> block = []) /\
          ((10 <= length pts)%nat ->
           exists rows, block = label z_target :: rows))
       (ascii_z_levels min_z max_z z_range) blocks).
Proof.
  intros z_range tol label. split; [apply ascii_tol_max|]. split.
  - intros z_target pts.
    destruct (ascii_block_cases fmt_f capacity all_verts w h z_range z_target)
      as [Hlt Hge].
    split; [exact Hlt|]. intros Hlen. by destruct (Hge Hlen) as [Hcases _].
  - intros Hfit. unfold ascii_section. fold z_range.
    destruct (mapM_Ok (ascii_block fmt_f capacity all_verts w h z_range)
                (fun z_target block =>
                   let pts := slab all_verts z_target tol in
                   ((length pts < 10)%nat -> block = []) /\
                   ((10 <= length pts)%nat ->
                    exists rows, block = label z_target :: rows))
                (ascii_z_levels min_z max_z z_range))
      as (blocks & Hblocks & Hall).
    { intros z_target.
      destruct (ascii_block_cases fmt_f capacity all_verts w h z_range z_target)
        as [Hlt Hge].
      destruct (Nat.lt_ge_cases
                  (length (slab all_verts z_target (ascii_tol z_range))) 10)
        as [Hlen|Hlen].
      - exists []. split; [by apply Hlt|]. cbv zeta. unfold tol.
        split; [done|]. intros Hten. lia.
      - destruct (Hge Hlen) as [_ Hdrawn].
        destruct (Hdrawn Hfit) as [rows Hrows].
        exists (label z_target :: rows). split; [exact Hrows|].
        cbv zeta. unfold tol. split; [intros Hnine; lia|].
        intros _. by exists rows. }
    exists blocks. split; [|done]. by rewrite Hblocks, bind_Ok.
Qed.

(** On the sample mesh, whose heights run from -0.2 to 5, only the first of
    the five heights has 10 vertices in its slab: on a machine that can
    allocate 1000 items the section prints one block. *)
Lemma ascii_block_threshold_witness :
  exists block,
    ascii_section fmt_int_part 1000 sample_verts10 4 4 (-0.2) 5 =
      Ok (["ASCII cross-sections (# = geometry present):"]
          ++ concat [block; []; []; []; []] ++ [""]) /\
    exists rows,
      block = ("  " +:+ nl +:+ "  --- z=" +:+ "0" +:+ "mm ---") :: rows.
Proof.
  destruct (ascii_block_threshold fmt_int_part 1000 sample_verts10 4 4 (-0.2) 5)
    as (_ & _ & Hfit).
  destruct Hfit as (blocks & Hsec & Hall); [by vm_compute|].
  cbv zeta in Hall.
  apply Forall2_cons_inv_l in Hall as (b0 & r0 & [Hlo0 Hhi0] & Hall & ->).
  apply Forall2_cons_inv_l in Hall as (b1 & r1 & [Hlo1 _] & Hall & ->).
  apply Forall2_cons_inv_l in Hall as (b2 & r2 & [Hlo2 _] & Hall & ->).
  apply Forall2_cons_inv_l in Hall as (b3 & r3 & [Hlo3 _] & Hall & ->).
  apply Forall2_cons_inv_l in Hall as (b4 & r4 & [Hlo4 _] & Hall & ->).
  apply Forall2_nil_inv_l in Hall as ->.
  rewrite Hlo1, Hlo2, Hlo3, Hlo4 in Hsec by (vm_compute; lia).
  exists b0. split; [exact Hsec|].
  destruct Hhi0 as [rows ->]; [vm_compute; lia|]. by exists rows.
Defined.

(** A picture of 10^38 in width cannot be drawn, whatever the machine: its
    columns fit no index, and the exception leaves [ascii_cross_section]. *)
Example wide_picture_overflows (capacity : Z) :
  ascii_cross_section fmt_int_part capacity [(0, 0); (1, 1)]%Q
    (inject_Z (10 ^ 38)) 4 2 "z" = Raise OverflowError.
Proof. vm_compute. reflexivity. Qed.

(** ** The recommendation *)

(** C4.  The recommendation depends on the triangle count and the two
    percentages only, tested in this order: fewer than 500 triangles and
    more than 80 percent flat or vertical faces give the manual parametric
    strategy; otherwise more than 1000 triangles or more than 30 percent
    curved faces give the polyhedron strategy, with the ratio
    [max(0.1, 20000 / count)] suggested when the count exceeds 50000;
    otherwise the sliced strategy is given.  The three examples of the
    specification come out as it says. *)
Theorem recommendation_precedence :
  (forall (n : Z) (fv cv : Q),
      (n < 500 /\ (80 < fv)%Q -> recommend n fv cv = ManualParametric) /\
      (~ (n < 500 /\ (80 < fv)%Q) -> 1000 < n \/ (30 < cv)%Q ->
       exists reduce,
         recommend n fv cv = Polyhedron reduce /\
         (n <= 50000 -> reduce = None) /\
         (50000 < n ->
          exists ratio,
            reduce = Some ratio /\
            (0.1 <= ratio)%Q /\ (of_int 20000 / of_int n <= ratio)%Q /\
            (ratio = 0.1%Q \/ ratio = (of_int 20000 / of_int n)%Q))) /\
      (~ (n < 500 /\ (80 < fv)%Q) -> ~ (1000 < n \/ (30 < cv)%Q) ->
       recommend n fv cv = SlicedCrossSection)) /\
  recommend 300 60 20 = SlicedCrossSection /\
  recommend 1200 10 5 = Polyhedron None /\
  recommend 400 85 2 = ManualParametric.
Proof.
  split; [|by vm_compute].
  intros n fv cv. unfold recommend.
  destruct (Z.ltb_spec n 500) as [Hn|Hn];
    destruct (ltb 80 fv) eqn:Efv;
    [apply ltb_lt in Efv | apply ltb_ge in Efv
     | apply ltb_lt in Efv | apply ltb_ge in Efv];
    cbn [andb].
  1: { split; [done|]. split; intros Hnot; exfalso; by apply Hnot. }
  all: split; [intros [? ?]; exfalso; first [lia | lra]|].
  all: destruct (Z.ltb_spec 1000 n) as [Hk|Hk];
    destruct (ltb 30 cv) eqn:Ecv;
    [apply ltb_lt in Ecv | apply ltb_ge in Ecv
     | apply ltb_lt in Ecv | apply ltb_ge in Ecv];
    cbn [orb].
  all: split; [intros _ Hor | intros _ Hnor].
  all: try (exfalso; apply Hnor; first [by left | by right]).
  all: try (exfalso; destruct Hor; first [lia | lra]).
  all: try reflexivity.
  all: eexists; split; [reflexivity|];
    destruct (Z.ltb_spec 50000 n) as [Hbig|Hbig];
    (split; [intros ?; first [reflexivity | lia] | intros ?; try lia]).
  all: eexists; split; [reflexivity|]; unfold max2;
    destruct (ltb 0.1 (of_int 20000 / of_int n)) eqn:E;
    [apply ltb_lt in E | apply ltb_ge in E];
    (split; [lra|]; split; [lra|]); first [by right | by left].
Qed.

(** ** Pocket detection *)

Lemma min_Z_spec (l : list Z) (x : Z) :
  min_Z x l ∈ x :: l /\ forall y, y ∈ x :: l -> min_Z x l <= y.
Proof.
  unfold min_Z. revert x. induction l as [|z l IH]; intros x; simpl.
  - split; [by left|]. intros y Hy. apply list_elem_of_singleton in Hy. lia.
  - destruct (IH (Z.min x z)) as [Hin Hle]. split.
    + apply elem_of_cons in Hin as [->|Hin]; [|by do 2 right].
      destruct (Z.min_spec x z) as [[_ ->]|[_ ->]]; [by left | right; by left].
    + intros y Hy.
      pose proof (Hle _ (list_elem_of_here _ _)) as H0.
      apply elem_of_cons in Hy as [->|Hy]; [lia|].
      apply elem_of_cons in Hy as [->|Hy]; [lia|].
      apply Hle. by right.
Qed.

Lemma max_Z_spec (l : list Z) (x : Z) :
  max_Z x l ∈ x :: l /\ forall y, y ∈ x :: l -> y <= max_Z x l.
Proof.
  unfold max_Z. revert x. induction l as [|z l IH]; intros x; simpl.
  - split; [by left|]. intros y Hy. apply list_elem_of_singleton in Hy. lia.
  - destruct (IH (Z.max x z)) as [Hin Hle]. split.
    + apply elem_of_cons in Hin as [->|Hin]; [|by do 2 right].
      destruct (Z.max_spec x z) as [[_ ->]|[_ ->]]; [right; by left | by left].
    + intros y Hy.
      pose proof (Hle _ (list_elem_of_here _ _)) as H0.
      apply elem_of_cons in Hy as [->|Hy]; [lia|].
      apply elem_of_cons in Hy as [->|Hy]; [lia|].
      apply Hle. by right.
Qed.

Lemma elem_of_range_incl (a b k : Z) : k ∈ range_incl a b <-> a <= k <= b.
Proof. unfold range_incl. rewrite elem_of_seqZ. lia. Qed.

Lemma sparse_hits (grid : gmap (Z * Z) Z) (cell : Z * Z) :
  sparse grid cell = true <-> hits grid cell < 3.
Proof.
  unfold sparse, hits. destruct (grid !! cell) as [n|]; simpl.
  - apply Z.ltb_lt.
  - split; [lia|done].
Qed.

Lemma dense_hits (grid : gmap (Z * Z) Z) (cell : Z * Z) :
  dense grid cell = (3 <=? hits grid cell).
Proof.
  unfold dense, hits. by destruct (grid !! cell) as [n|].
Qed.

(** The count of the code runs over the cell and its 8 neighbours; the cell
    itself adds nothing when it is sparse. *)
Lemma neighbors_of_sparse (grid : gmap (Z * Z) Z) (gx gy : Z) :
  sparse grid (gx, gy) = true ->
  neighbors grid gx gy = dense_neighbours grid gx gy.
Proof.
  intros Hs. apply sparse_hits in Hs.
  unfold neighbors, dense_neighbours.
  change offsets with
    ([(-1, -1); (-1, 0); (-1, 1); (0, -1)] ++ [(0, 0)]
     ++ [(0, 1); (1, -1); (1, 0); (1, 1)]).
  change neighbours8 with
    ([(-1, -1); (-1, 0); (-1, 1); (0, -1)]
     ++ [(0, 1); (1, -1); (1, 0); (1, 1)]).
  rewrite !List.filter_app, !length_app.
  assert (Hc : List.filter (fun d => dense grid (gx + d.1, gy + d.2)) [(0, 0)] = []).
  { cbn [List.filter fst snd]. rewrite !Z.add_0_r, dense_hits.
    destruct (Z.leb_spec 3 (hits grid (gx, gy))); [lia|done]. }
  rewrite Hc. cbn [length]. rewrite Nat.add_0_l.
  f_equal; f_equal; apply List.filter_ext; intros d; apply dense_hits.
Qed.

Lemma span_low (keys : list (Z * Z)) (x0 : Z) (xs : list Z) (f : Z * Z -> Z) (g : Z) :
  f <$> keys = x0 :: xs ->
  min_Z x0 xs <= g <-> exists k, k ∈ keys /\ f k <= g.
Proof.
  intros Hkeys. destruct (min_Z_spec xs x0) as [Hin Hle].
  rewrite <- Hkeys in Hin, Hle. split.
  - intros Hg. apply list_elem_of_fmap in Hin as (k & Hk & Hkin).
    exists k. split; [done|]. lia.
  - intros (k & Hkin & Hk).
    specialize (Hle (f k) (list_elem_of_fmap_2 f _ _ Hkin)). lia.
Qed.

Lemma span_high (keys : list (Z * Z)) (x0 : Z) (xs : list Z) (f : Z * Z -> Z) (g : Z) :
  f <$> keys = x0 :: xs ->
  g <= max_Z x0 xs <-> exists k, k ∈ keys /\ g <= f k.
Proof.
  intros Hkeys. destruct (max_Z_spec xs x0) as [Hin Hle].
  rewrite <- Hkeys in Hin, Hle. split.
  - intros Hg. apply list_elem_of_fmap in Hin as (k & Hk & Hkin).
    exists k. split; [done|]. lia.
  - intros (k & Hkin & Hk).
    specialize (Hle (f k) (list_elem_of_fmap_2 f _ _ Hkin)). lia.
Qed.

Lemma in_span_keys (grid : gmap (Z * Z) Z) (gx gy : Z) :
  in_span grid gx gy <->
  (exists k, k ∈ elements (dom grid) /\ k.1 <= gx) /\
  (exists k, k ∈ elements (dom grid) /\ gx <= k.1) /\
  (exists k, k ∈ elements (dom grid) /\ k.2 <= gy) /\
  (exists k, k ∈ elements (dom grid) /\ gy <= k.2).
Proof.
  unfold in_span. by setoid_rewrite elem_of_elements.
Qed.

(** C2.  A cell enters [empty_interior] exactly when it lies in the
    rectangle that spans the occupied cells, its own hit count (0 for a
    cell without entry) is below 3, and at least 4 of its 8 immediate
    neighbours have a hit count of at least 3. *)
Theorem pocket_cell_classification (grid : gmap (Z * Z) Z) (gx gy : Z) :
  (gx, gy) ∈ empty_cells grid <->
  in_span grid gx gy /\
  hits grid (gx, gy) < 3 /\
  (4 <= dense_neighbours grid gx gy)%nat.
Proof.
  rewrite in_span_keys. unfold empty_cells.
  destruct (elements (dom grid)) as [|k0 ks] eqn:Hkeys.
  - cbn [fmap list_fmap]. split; [by intros ?%elem_of_nil|].
    intros (((k & Hk & _) & _) & _). by apply elem_of_nil in Hk.
  - set (keys := k0 :: ks).
    change (fst <$> keys) with (k0.1 :: ks.*1).
    change (snd <$> keys) with (k0.2 :: ks.*2).
    rewrite list_elem_of_bind. setoid_rewrite list_elem_of_bind.
    rewrite <- (span_low keys k0.1 ks.*1 fst gx eq_refl).
    rewrite <- (span_high keys k0.1 ks.*1 fst gx eq_refl).
    rewrite <- (span_low keys k0.2 ks.*2 snd gy eq_refl).
    rewrite <- (span_high keys k0.2 ks.*2 snd gy eq_refl).
    split.
    + intros (gx' & (gy' & Hin & Hy) & Hx).
      apply elem_of_range_incl in Hx, Hy.
      destruct (sparse grid (gx', gy')) eqn:Hs; cbn [andb] in Hin;
        [|by apply elem_of_nil in Hin].
      destruct (Nat.leb_spec 4 (neighbors grid gx' gy')) as [Hn|Hn];
        [|by apply elem_of_nil in Hin].
      apply list_elem_of_singleton in Hin. injection Hin as -> ->.
      rewrite <- (neighbors_of_sparse grid gx' gy' Hs).
      apply sparse_hits in Hs. repeat split; lia.
    + intros ((Hx0 & Hx1 & Hy0 & Hy1) & Hhits & Hn).
      apply sparse_hits in Hhits.
      rewrite <- (neighbors_of_sparse grid gx gy Hhits) in Hn.
      exists gx. split; [|apply elem_of_range_incl; lia].
      exists gy. split; [|apply elem_of_range_incl; lia].
      rewrite Hhits. cbn [andb].
      destruct (Nat.leb_spec 4 (neighbors grid gx gy)); [|lia].
      by apply list_elem_of_singleton.
Qed.

Lemma pocket_cell_classification_witness :
  in_span (hit_grid ring_cells) 1 1 /\
  hits (hit_grid ring_cells) (1, 1) < 3 /\
  (4 <= dense_neighbours (hit_grid ring_cells) 1 1)%nat.
Proof.
  apply (pocket_cell_classification (hit_grid ring_cells) 1 1).
  assert (H : empty_cells (hit_grid ring_cells) = [(1, 1); (1, 3); (3, 1); (3, 3)])
    by (vm_compute; reflexivity).
  rewrite H. by left.
Defined.

Lemma mapM_total {A B} (f : A -> result B) (g : A -> B) (l : list A) :
  (forall a, f a = Ok (g a)) -> mapM f l = Ok (map g l).
Proof.
  intros Hf. induction l as [|a l IH]; simpl; [done|].
  by rewrite Hf, bind_Ok, IH, bind_Ok.
Qed.

(** X4.  What [detect_pockets] returns, from the cells that enter
    [empty_interior]: nothing on fewer than 10 vertices or on no such cell,
    and otherwise a result that counts them. *)
Lemma detect_pockets_cells (all_verts : list Point3)
    (min_x min_y z_target tol grid_size : Q) :
  ~ (grid_size == 0)%Q ->
  let verts_2d :=
    map (fun v => (px v - min_x, py v - min_y)%Q)
        (List.filter (in_slab z_target tol) all_verts) in
  let cells := empty_cells (hit_grid (map (cell_of grid_size) verts_2d)) in
  ((length verts_2d < 10)%nat ->
   detect_pockets all_verts min_x min_y z_target tol grid_size = Ok None) /\
  ((10 <= length verts_2d)%nat -> cells = [] ->
   detect_pockets all_verts min_x min_y z_target tol grid_size = Ok None) /\
  ((10 <= length verts_2d)%nat -> cells <> [] ->
   exists info,
     detect_pockets all_verts min_x min_y z_target tol grid_size = Ok (Some info) /\
     count info = length cells).
Proof.
  intros Hsize verts_2d cells.
  assert (Hcells : (10 <= length verts_2d)%nat ->
    detect_pockets all_verts min_x min_y z_target tol grid_size =
      match map (cell_centre grid_size) cells with
      | [] => Ok None
      | _ :: _ =>
          let ex := (map (cell_centre grid_size) cells).*1 in
          let ey := (map (cell_centre grid_size) cells).*2 in
          min_ex ← Py.min ex; max_ex ← Py.max ex;
          min_ey ← Py.min ey; max_ey ← Py.max ey;
          Ok (Some {| count := length (map (cell_centre grid_size) cells);
                      pocket_x_range := (min_ex, max_ex);
                      pocket_y_range := (min_ey, max_ey);
                      pocket_width := max_ex - min_ex;
                      pocket_height := max_ey - min_ey |})
      end).
  { intros Hge. unfold detect_pockets. fold verts_2d.
    destruct (Nat.ltb_spec (length verts_2d) 10) as [Hlt|_]; [lia|].
    rewrite (mapM_total _ (cell_of grid_size)), bind_Ok; [reflexivity|].
    intros [x y]. rewrite !div_Ok by done. by rewrite !bind_Ok. }
  split; [|split].
  - intros Hlt. unfold detect_pockets. fold verts_2d.
    destruct (Nat.ltb_spec (length verts_2d) 10); [done|lia].
  - intros Hge Hnil. rewrite (Hcells Hge), Hnil. reflexivity.
  - intros Hge Hne. rewrite (Hcells Hge).
    destruct cells as [|c cs] eqn:Ecells; [done|].
    set (centres := map (cell_centre grid_size) (c :: cs)).
    assert (Hlen : length centres = S (length cs)).
    { unfold centres. by rewrite length_map. }
    destruct centres as [|e es] eqn:Ecentres; [simpl in Hlen; lia|].
    cbv zeta.
    destruct (min_Ok ((e :: es).*1)) as (a & -> & _); [simpl; lia|].
    destruct (max_Ok ((e :: es).*1)) as (b & -> & _); [simpl; lia|].
    destruct (min_Ok ((e :: es).*2)) as (a' & -> & _); [simpl; lia|].
    destruct (max_Ok ((e :: es).*2)) as (b' & -> & _); [simpl; lia|].
    rewrite !bind_Ok. eexists. split; [reflexivity|]. exact Hlen.
Qed.

(** A ring of vertices around an empty centre, all at one height: the four
    corner cells of the hole have at least 4 dense neighbours, and the
    detector reports them. *)
Example ring_has_pocket :
  exists info,
    detect_pockets_default ring_verts 0 0 0 = Ok (Some info) /\
    count info = 4%nat /\
    (pocket_x_range info).1 == 3 /\ (pocket_x_range info).2 == 7 /\
    (pocket_y_range info).1 == 3 /\ (pocket_y_range info).2 == 7 /\
    pocket_width info == 4 /\ pocket_height info == 4.
Proof.
  eexists. split; [vm_compute; reflexivity|]. by vm_compute.
Qed.

(** ** Further properties of the loader and of the metrics *)

(** X1.  A binary file whose count announces exactly the records that follow is
    read into that many triangles, in file order; bytes after the last
    record are not read. *)
Theorem binary_complete_read (unpack_f32 : list byte -> Q)
    (header count : list byte) (records : list (list byte)) (rest : list byte) :
  length header = 80%nat ->
  length count = 4%nat ->
  Forall (fun r => length r = 50%nat) records ->
  N.to_nat (le_value count) = length records ->
  exists triangles,
    read_binary_stl unpack_f32 (header ++ count ++ concat records ++ rest) =
      Ok (header, triangles) /\
    triangles = map (unpack_triangle unpack_f32) records /\
    length triangles = length records.
Proof.
  intros Hheader Hcount Hrec Hn. unfold read_binary_stl.
  rewrite (read_app_length 80 header) by done.
  rewrite (read_app_length 4 count) by done.
  unfold unpack_u32. rewrite Hcount. cbn [Nat.eqb]. rewrite bind_Ok, Hn.
  rewrite read_triangles_complete by done.
  eexists. split; [reflexivity|]. split; [done|]. by rewrite length_map.
Qed.

Lemma binary_complete_read_witness :
  exists triangles,
    read_binary_stl f32_value
      (header0 ++ count3 ++ concat [record1; record1; record1] ++ [x2a]) =
      Ok (header0, triangles) /\
    triangles = map (unpack_triangle f32_value) [record1; record1; record1] /\
    length triangles = 3%nat.
Proof.
  apply (binary_complete_read f32_value header0 count3
           [record1; record1; record1] [x2a]).
  - reflexivity.
  - reflexivity.
  - repeat constructor.
  - reflexivity.
Defined.

Lemma prefix_endfacet (line : string) :
  String.prefix "endfacet" line = true ->
  String.prefix "facet normal" line = false /\
  String.prefix "vertex" line = false.
Proof.
  destruct line as [|c rest]; [done|]. cbn [String.prefix].
  destruct (ascii_dec "e" c) as [<-|]; [|done]. intros _. by split.
Qed.

(** X2.  At [endfacet] a facet that has no normal, or whose vertices are not
    exactly three, leaves the state of the text parser as it was: no
    triangle is added and no exception is raised. *)
Theorem malformed_facet_dropped (float_of_str : string -> result Q)
    (st : ascii_state) (raw : string) :
  String.prefix "endfacet" (Str.strip raw) = true ->
  cur_normal st = None \/ length (cur_verts st) <> 3%nat ->
  ascii_step float_of_str st raw = Ok st.
Proof.
  intros Hend Hbad. unfold ascii_step.
  destruct (prefix_endfacet _ Hend) as [-> ->]. rewrite Hend.
  destruct Hbad as [->|Hlen]; [done|].
  destruct (cur_normal st); [|done].
  destruct (cur_verts st) as [|a [|b [|c [|d l]]]]; simpl in Hlen; done.
Qed.

Lemma malformed_facet_dropped_witness :
  ascii_step digits_float (mkAsciiState (Some (0, 0, 1)%Q) [(0, 0, 0); (1, 0, 0)]%Q [])
    ("  endfacet" +:+ nl) =
  Ok (mkAsciiState (Some (0, 0, 1)%Q) [(0, 0, 0); (1, 0, 0)]%Q []).
Proof.
  apply malformed_facet_dropped.
  - reflexivity.
  - right. simpl. lia.
Defined.

(** The sample text holds a facet with two vertices and a facet with three:
    the parser returns the second one only. *)
Example text_parse_sample :
  read_ascii_stl sample_text digits_float [] =
    Ok (String.list_byte_of_string "solid part",
        [mkTriangle (0, 0, 1)%Q (0, 0, 0)%Q (1, 0, 0)%Q (0, 1, 0)%Q]).
Proof. vm_compute. reflexivity. Qed.

Lemma elem_of_all_verts (triangles : list Triangle) :
  triangles <> [] -> (0 < length (all_verts_of triangles))%nat.
Proof.
  destruct triangles as [|t rest]; [done|]. intros _. simpl. lia.
Qed.

(** X3.  Every vertex of a mesh that has a triangle lies within the bounding box
    of the report, sides included. *)
Theorem vertices_within_bounding_box (triangles : list Triangle) :
  triangles <> [] ->
  exists box,
    bounding_box triangles = Ok box /\
    forall v, v ∈ all_verts_of triangles ->
      (min_x box <= px v <= max_x box)%Q /\
      (min_y box <= py v <= max_y box)%Q /\
      (min_z box <= pz v <= max_z box)%Q.
Proof.
  intros Hne. pose proof (elem_of_all_verts triangles Hne) as Hlen.
  unfold bounding_box.
  destruct (min_Ok (map px (all_verts_of triangles))) as (x0 & -> & _ & Hx0);
    [by rewrite length_map|].
  destruct (max_Ok (map px (all_verts_of triangles))) as (x1 & -> & _ & Hx1);
    [by rewrite length_map|].
  destruct (min_Ok (map py (all_verts_of triangles))) as (y0 & -> & _ & Hy0);
    [by rewrite length_map|].
  destruct (max_Ok (map py (all_verts_of triangles))) as (y1 & -> & _ & Hy1);
    [by rewrite length_map|].
  destruct (min_Ok (map pz (all_verts_of triangles))) as (z0 & -> & _ & Hz0);
    [by rewrite length_map|].
  destruct (max_Ok (map pz (all_verts_of triangles))) as (z1 & -> & _ & Hz1);
    [by rewrite length_map|].
  rewrite !bind_Ok. eexists. split; [reflexivity|]. cbn.
  intros v Hv.
  pose proof (list_elem_of_fmap_2 px _ _ Hv) as Hpx.
  pose proof (list_elem_of_fmap_2 py _ _ Hv) as Hpy.
  pose proof (list_elem_of_fmap_2 pz _ _ Hv) as Hpz.
  repeat split; auto.
Qed.

Lemma vertices_within_bounding_box_witness :
  exists box,
    bounding_box [unpack_triangle f32_value record1] = Ok box /\
    forall v, v ∈ all_verts_of [unpack_triangle f32_value record1] ->
      (min_x box <= px v <= max_x box)%Q /\
      (min_y box <= py v <= max_y box)%Q /\
      (min_z box <= pz v <= max_z box)%Q.
Proof.
  apply (vertices_within_bounding_box [unpack_triangle f32_value record1]).
  discriminate.
Defined.

Lemma detect_pockets_cells_witness :
  exists info,
    detect_pockets ring_verts 0 0 0 0.3 2 = Ok (Some info) /\
    count info = 4%nat.
Proof.
  destruct (detect_pockets_cells ring_verts 0 0 0 0.3 2) as (_ & _ & Hsome).
  - by vm_compute.
  - apply Hsome.
    + vm_compute. lia.
    + by vm_compute.
Defined.

(* ================================================================= *)
(** * Further properties of the loader *)

Lemma read_triangles_closed (unpack_f32 : list byte -> Q) (num_tri : nat)
    (f : list byte) :
  read_triangles unpack_f32 num_tri f =
    map (fun i => unpack_triangle unpack_f32 (take 50 (drop (50 * i) f)))
        (seq 0 (Nat.min num_tri (length f / 50))).
Proof.
  revert f. induction num_tri as [|n IH]; intros f; [done|].
  cbn [read_triangles]. unfold read.
  destruct (Nat.ltb_spec (length (take 50 f)) 50) as [Hshort|Hlong].
  - rewrite length_take in Hshort.
    assert (Hdiv : (length f / 50 = 0)%nat) by (apply Nat.div_small; lia).
    by rewrite Hdiv, Nat.min_0_r.
  - rewrite length_take in Hlong.
    assert (Hdiv : (length f / 50 = S (length (drop 50 f) / 50))%nat).
    { rewrite length_drop.
      replace (length f) with (1 * 50 + (length f - 50))%nat at 1 by lia.
      rewrite Nat.div_add_l by lia. lia. }
    rewrite Hdiv, <- Nat.succ_min_distr. cbn [seq map].
    rewrite Nat.mul_0_r, drop_0. f_equal.
    rewrite IH, <- seq_shift, map_map. apply map_ext. intros i.
    rewrite drop_drop. do 3 f_equal. lia.
Qed.

(** X5.  Once a binary file holds its 84 bytes of header and count it is
    read without an exception: the header is its first 80 bytes, and the
    triangles are the records 0, 1, ... in file order, as many as the count
    announces or as the file holds whole, whichever is smaller. *)
Theorem binary_read_closed_form (unpack_f32 : list byte -> Q) (file : list byte) :
  (84 <= length file)%nat ->
  read_binary_stl unpack_f32 file =
    Ok (take 80 file,
        map (fun i => unpack_triangle unpack_f32 (record_at file i))
            (seq 0 (Nat.min (announced file) (whole_records file)))).
Proof.
  intros Hlen. unfold read_binary_stl, read, unpack_u32.
  rewrite length_take, length_drop.
  replace (Nat.min 4 (length file - 80)) with 4%nat by lia.
  cbn [Nat.eqb]. rewrite bind_Ok. f_equal. f_equal.
  rewrite read_triangles_closed. unfold announced, whole_records, record_at.
  rewrite !length_drop. replace (length file - 80 - 4)%nat with (length file - 84)%nat by lia.
  apply map_ext. intros i. rewrite !drop_drop. do 3 f_equal; lia.
Qed.

Lemma binary_read_closed_form_witness :
  read_binary_stl f32_value (header0 ++ count3 ++ record1 ++ record1 ++ [x2a]) =
    Ok (header0, replicate 2 (unpack_triangle f32_value record1)).
Proof.
  etransitivity.
  - apply (binary_read_closed_form f32_value). vm_compute. lia.
  - vm_compute. reflexivity.
Defined.

Lemma take_drop_take {A} (l : list A) (a b c : nat) :
  (a + b <= c)%nat -> take a (drop b (take c l)) = take a (drop b l).
Proof.
  intros H. rewrite skipn_firstn_comm, take_take. f_equal. lia.
Qed.

(** X6.  A record is read through its first 48 bytes only: the two
    attribute bytes, and whatever else differs past byte 48, change
    nothing in the triangle. *)
Theorem attribute_bytes_ignored (unpack_f32 : list byte -> Q)
    (data data' : list byte) :
  take 48 data = take 48 data' ->
  unpack_triangle unpack_f32 data = unpack_triangle unpack_f32 data'.
Proof.
  intros H48.
  assert (Hval : forall i, (i < 12)%nat ->
            val unpack_f32 data i = val unpack_f32 data' i).
  { intros i Hi. unfold val.
    rewrite <- (take_drop_take data 4 (4 * i) 48) by lia.
    rewrite <- (take_drop_take data' 4 (4 * i) 48) by lia.
    by rewrite H48. }
  unfold unpack_triangle. rewrite !Hval by lia. reflexivity.
Qed.

Lemma attribute_bytes_ignored_witness :
  unpack_triangle f32_value (take 48 record1 ++ [xff; xff]) =
  unpack_triangle f32_value record1.
Proof.
  apply attribute_bytes_ignored. reflexivity.
Defined.

(* ================================================================= *)
(** * Further properties of the text parser *)

Lemma prefix_facet_normal (line : string) :
  String.prefix "facet normal" line = true ->
  String.prefix "endfacet" line = false.
Proof.
  destruct line as [|c rest]; [done|]. cbn [String.prefix].
  destruct (ascii_dec "f" c) as [<-|]; [|done]. by intros _.
Qed.

Lemma prefix_vertex (line : string) :
  String.prefix "vertex" line = true ->
  String.prefix "facet normal" line = false /\
  String.prefix "endfacet" line = false.
Proof.
  destruct line as [|c rest]; [done|]. cbn [String.prefix].
  destruct (ascii_dec "v" c) as [<-|]; [|done]. by intros _.
Qed.

Lemma ascii_step_grows (float_of_str : string -> result Q)
    (st st' : ascii_state) (raw : string) :
  ascii_step float_of_str st raw = Ok st' ->
  exists added,
    triangles_so_far st' = triangles_so_far st ++ added /\
    (length added <= length (List.filter is_endfacet [raw]))%nat.
Proof.
  unfold ascii_step, is_endfacet. cbn [List.filter].
  destruct (String.prefix "facet normal" (Str.strip raw)) eqn:Hf.
  { rewrite (prefix_facet_normal _ Hf).
    destruct (float3 _ _ _) as [n|e]; [|done]. cbn. intros [= <-].
    exists []. by rewrite app_nil_r. }
  destruct (String.prefix "vertex" (Str.strip raw)) eqn:Hv.
  { destruct (prefix_vertex _ Hv) as [_ ->].
    destruct (float3 _ _ _) as [v|e]; [|done]. cbn. intros [= <-].
    exists []. by rewrite app_nil_r. }
  destruct (String.prefix "endfacet" (Str.strip raw)).
  - destruct (cur_normal st) as [n|];
      [|intros [= <-]; exists []; rewrite app_nil_r; cbn; split; [done|lia]].
    destruct (cur_verts st) as [|a [|b [|c [|d l]]]];
      intros [= <-]; cbn;
      solve [ exists []; rewrite app_nil_r; cbn; split; [done|lia]
            | eexists [_]; split; [done|cbn; lia] ].
  - intros Hst. assert (st' = st) as -> by (destruct (cur_normal st), (cur_verts st) as [|? [|? [|? [|]]]]; congruence).
    exists []. by rewrite app_nil_r.
Qed.

Lemma ascii_loop_grows (float_of_str : string -> result Q)
    (lines : list string) (st st' : ascii_state) :
  ascii_loop float_of_str st lines = Ok st' ->
  exists added,
    triangles_so_far st' = triangles_so_far st ++ added /\
    (length added <= length (List.filter is_endfacet lines))%nat.
Proof.
  revert st. induction lines as [|raw rest IH]; intros st.
  - cbn. intros [= <-]. exists []. by rewrite app_nil_r.
  - cbn [ascii_loop]. destruct (ascii_step float_of_str st raw) as [st1|e] eqn:Hstep; [|done].
    rewrite bind_Ok. intros Hrest.
    destruct (ascii_step_grows _ _ _ _ Hstep) as (a1 & E1 & L1).
    destruct (IH _ Hrest) as (a2 & E2 & L2).
    exists (a1 ++ a2). split.
    + by rewrite E2, E1, <- app_assoc.
    + rewrite length_app. cbn [List.filter] in *.
      destruct (is_endfacet raw); cbn [length] in *; lia.
Qed.

(** X7.  The text parser never invents a triangle: when it returns, the
    triangles are no more than the [endfacet] lines of the file, and the
    header is the first line without the whitespace around it, encoded as
    UTF-8. *)
Theorem text_triangles_bounded (readlines : list byte -> result (list string))
    (float_of_str : string -> result Q) (file : list byte)
    (lines : list string) (header : list byte) (triangles : list Triangle) :
  readlines file = Ok lines ->
  read_ascii_stl readlines float_of_str file = Ok (header, triangles) ->
  (length triangles <= length (List.filter is_endfacet lines))%nat /\
  header = Str.encode (Str.strip (default EmptyString (head lines))).
Proof.
  intros Hlines. unfold read_ascii_stl. rewrite Hlines, bind_Ok.
  destruct (ascii_loop _ _ lines) as [st|e] eqn:Hloop; [|done].
  rewrite bind_Ok. intros [= <- <-].
  destruct (ascii_loop_grows _ _ _ _ Hloop) as (added & E & L).
  cbn in E. rewrite E. split; [done|]. by destruct lines.
Qed.

(** The header of the text file whose first line is [solid caf] followed by
    U+00E9 ends in the two bytes [c3 a9]. *)
Lemma text_triangles_bounded_witness :
  (length (@nil Triangle)
     <= length (List.filter is_endfacet accent_lines))%nat /\
  String.list_byte_of_string "solid caf" ++ [xc3; xa9] =
    Str.encode (Str.strip (default EmptyString (head accent_lines))).
Proof.
  apply (text_triangles_bounded accent_text digits_float []); reflexivity.
Defined.

Lemma float3_short (float_of_str : string -> result Q) (parts : list string)
    (i : nat) :
  (length (drop i parts) < 3)%nat ->
  (forall s, s ∈ drop i parts -> exists q, float_of_str s = Ok q) ->
  float3 float_of_str parts i = Raise IndexError.
Proof.
  intros Hlen Hnum. unfold float3, Str.item. rewrite length_drop in Hlen.
  assert (Hitem : forall j,
            (parts !! (i + j)%nat = None) \/
            (exists s q, parts !! (i + j)%nat = Some s /\ float_of_str s = Ok q)).
  { intros j. destruct (parts !! (i + j)%nat) as [s|] eqn:Hj; [right|by left].
    destruct (Hnum s) as (q & Hq); [|by eauto].
    apply list_elem_of_lookup. exists j. by rewrite lookup_drop. }
  destruct (Hitem 0%nat) as [H0|(s0 & q0 & H0 & Hq0)];
    rewrite Nat.add_0_r in H0; rewrite H0; [done|].
  cbn. rewrite Hq0. cbn.
  destruct (Hitem 1%nat) as [->|(s1 & q1 & -> & Hq1)]; [done|].
  cbn. rewrite Hq1. cbn.
  rewrite (lookup_ge_None_2 parts (i + 2)) by lia. done.
Qed.

(** X8.  A [facet normal] or [vertex] line with fewer than three fields after
    the keyword, all of them numbers, ends the text parser with an
    IndexError, whatever the lines before it gave and whatever follows: the
    triangles read so far are lost with it. *)
Theorem short_numeric_line_aborts
    (readlines : list byte -> result (list string))
    (float_of_str : string -> result Q) (file : list byte)
    (before after : list string) (raw : string) (st : ascii_state)
    (fields : list string) :
  readlines file = Ok (before ++ raw :: after) ->
  ascii_loop float_of_str ascii_init before = Ok st ->
  number_fields raw = Some fields ->
  (length fields < 3)%nat ->
  (forall s, s ∈ fields -> exists q, float_of_str s = Ok q) ->
  read_ascii_stl readlines float_of_str file = Raise IndexError.
Proof.
  intros Hlines Hbefore Hfields Hshort Hnum.
  assert (Hstep : ascii_step float_of_str st raw = Raise IndexError).
  { unfold ascii_step. unfold number_fields in Hfields.
    destruct (String.prefix "facet normal" (Str.strip raw)).
    - injection Hfields as <-. by rewrite float3_short.
    - destruct (String.prefix "vertex" (Str.strip raw)); [|done].
      injection Hfields as <-. by rewrite float3_short. }
  assert (Hloop : forall l s0, ascii_loop float_of_str s0 l = Ok st ->
            ascii_loop float_of_str s0 (l ++ raw :: after) = Raise IndexError).
  { induction l as [|x l IH]; intros s0; cbn [ascii_loop app].
    - intros [= ->]. by rewrite Hstep.
    - destruct (ascii_step float_of_str s0 x) as [s1|e]; [|done].
      rewrite !bind_Ok. apply IH. }
  unfold read_ascii_stl. rewrite Hlines, bind_Ok.
  unfold ascii_init in Hbefore. by rewrite (Hloop before _ Hbefore).
Qed.

Lemma short_numeric_line_aborts_witness :
  read_ascii_stl
    (fun _ => Ok (sample_lines ++ ["      vertex 1 2" +:+ nl; "endsolid" +:+ nl]))
    digits_float [] = Raise IndexError.
Proof.
  eapply (short_numeric_line_aborts _ digits_float []
            sample_lines ["endsolid" +:+ nl] ("      vertex 1 2" +:+ nl)).
  - reflexivity.
  - vm_compute. reflexivity.
  - vm_compute. reflexivity.
  - vm_compute. lia.
  - intros s Hs.
    repeat (apply elem_of_cons in Hs as [->|Hs]; [vm_compute; eauto|]).
    by apply elem_of_nil in Hs.
Defined.

(** X9.  [endfacet] does not clear the facet being read: from a state that
    holds a normal and three vertices, every further [endfacet] line adds
    the same triangle once more. *)
Theorem repeated_endfacet_duplicates (float_of_str : string -> result Q)
    (st : ascii_state) (n a b c : Point3) (lines : list string) :
  cur_normal st = Some n ->
  cur_verts st = [a; b; c] ->
  Forall (fun raw => is_endfacet raw = true) lines ->
  ascii_loop float_of_str st lines =
    Ok (mkAsciiState (Some n) [a; b; c]
          (triangles_so_far st ++ replicate (length lines) (mkTriangle n a b c))).
Proof.
  intros Hn Hv Hall. revert st Hn Hv.
  induction Hall as [|raw rest Hend _ IH]; intros st Hn Hv.
  - cbn. rewrite app_nil_r. destruct st; cbn in *. by subst.
  - cbn [ascii_loop]. unfold ascii_step at 1. unfold is_endfacet in Hend.
    destruct (prefix_endfacet _ Hend) as [-> ->]. rewrite Hend, Hn, Hv.
    rewrite bind_Ok, IH by done. cbn [triangles_so_far length replicate].
    by rewrite <- app_assoc.
Qed.

Lemma repeated_endfacet_duplicates_witness :
  ascii_loop digits_float
    (mkAsciiState (Some (0, 0, 1)%Q) [(0, 0, 0); (1, 0, 0); (0, 1, 0)]%Q [])
    ["  endfacet" +:+ nl; "  endfacet" +:+ nl] =
  Ok (mkAsciiState (Some (0, 0, 1)%Q) [(0, 0, 0); (1, 0, 0); (0, 1, 0)]%Q
        (replicate 2 (mkTriangle (0, 0, 1)%Q (0, 0, 0)%Q (1, 0, 0)%Q (0, 1, 0)%Q))).
Proof.
  apply (repeated_endfacet_duplicates digits_float
           (mkAsciiState (Some (0, 0, 1)%Q) [(0, 0, 0); (1, 0, 0); (0, 1, 0)]%Q [])).
  - reflexivity.
  - reflexivity.
  - repeat constructor.
Defined.

(* ================================================================= *)
(** * The pictures of [ascii_cross_section] *)

Lemma picture_row_lookup (cols : nat) (f : nat -> bool) (c : nat) :
  picture_row cols f !! c =
    if (c <? cols)%nat then Some (if f c then "#"%char else " "%char) else None.
Proof.
  unfold picture_row. rewrite list_lookup_fmap.
  destruct (Nat.ltb_spec c cols) as [Hlt|Hge].
  - by rewrite lookup_seq_lt.
  - by rewrite lookup_seq_ge.
Qed.

Lemma picture_lookup (rows cols : nat) (f : nat -> nat -> bool) (r : nat) :
  picture rows cols f !! r =
    if (r <? rows)%nat then Some (picture_row cols (f r)) else None.
Proof.
  unfold picture. rewrite list_lookup_fmap.
  destruct (Nat.ltb_spec r rows) as [Hlt|Hge].
  - by rewrite lookup_seq_lt.
  - by rewrite lookup_seq_ge.
Qed.

Lemma picture_cell (rows cols : nat) (f : nat -> nat -> bool) (r c : nat) :
  (r < rows)%nat -> (c < cols)%nat ->
  picture rows cols f !! r ≫= (.!! c) =
    Some (if f r c then "#"%char else " "%char).
Proof.
  intros Hr Hc. rewrite picture_lookup.
  apply Nat.ltb_lt in Hr, Hc. rewrite Hr. unfold mbind, option_bind.
  by rewrite picture_row_lookup, Hc.
Qed.

Lemma picture_row_ext (cols : nat) (f g : nat -> bool) :
  (forall c, (c < cols)%nat -> f c = g c) ->
  picture_row cols f = picture_row cols g.
Proof.
  intros H. apply list_eq. intros c. rewrite !picture_row_lookup.
  destruct (Nat.ltb_spec c cols); [by rewrite H|done].
Qed.

Lemma picture_ext (rows cols : nat) (f g : nat -> nat -> bool) :
  (forall r c, (r < rows)%nat -> (c < cols)%nat -> f r c = g r c) ->
  picture rows cols f = picture rows cols g.
Proof.
  intros H. apply list_eq. intros r. rewrite !picture_lookup.
  destruct (Nat.ltb_spec r rows); [|done].
  f_equal. apply picture_row_ext. auto.
Qed.

Lemma picture_blank (rows cols : nat) :
  replicate rows (replicate cols " "%char) = picture rows cols (fun _ _ => false).
Proof.
  assert (Hrep : forall {A} (x : A) n, replicate n x = map (fun _ => x) (seq 0 n)).
  { intros A x n. apply list_eq. intros i. rewrite list_lookup_fmap.
    destruct (Nat.lt_ge_cases i n).
    - by rewrite lookup_replicate_2, lookup_seq_lt.
    - rewrite lookup_seq_ge by done. by apply lookup_replicate_None. }
  unfold picture, picture_row. by rewrite !Hrep.
Qed.

Lemma picture_row_insert (cols : nat) (f : nat -> bool) (c : nat) :
  (c < cols)%nat ->
  <[c := "#"%char]> (picture_row cols f) =
    picture_row cols (fun c' => f c' || (c' =? c)%nat).
Proof.
  intros Hc. apply list_eq. intros i. rewrite picture_row_lookup.
  destruct (decide (i = c)) as [->|Hne].
  - rewrite list_lookup_insert_eq by (unfold picture_row; by rewrite length_map, length_seq).
    apply Nat.ltb_lt in Hc. rewrite Hc, Nat.eqb_refl, orb_true_r. done.
  - rewrite list_lookup_insert_ne by done. rewrite picture_row_lookup.
    apply Nat.eqb_neq in Hne. by rewrite Hne, orb_false_r.
Qed.

Lemma picture_alter (rows cols : nat) (f : nat -> nat -> bool) (r c : nat) :
  (r < rows)%nat -> (c < cols)%nat ->
  alter (fun row => <[c := "#"%char]> row) r (picture rows cols f) =
    picture rows cols (fun r' c' => f r' c' || ((r' =? r)%nat && (c' =? c)%nat)).
Proof.
  intros Hr Hc. apply list_eq. intros i. rewrite picture_lookup.
  destruct (decide (i = r)) as [->|Hne].
  - rewrite list_lookup_alter_eq, picture_lookup.
    apply Nat.ltb_lt in Hr. rewrite Hr. cbn. f_equal.
    rewrite picture_row_insert by done. apply picture_row_ext.
    intros c' _. by rewrite Nat.eqb_refl.
  - rewrite list_lookup_alter_ne by done. rewrite picture_lookup.
    destruct (i <? rows)%nat; [|done]. f_equal. apply picture_row_ext.
    intros c' _. apply Nat.eqb_neq in Hne. by rewrite Hne, orb_false_r.
Qed.

Lemma mark_picture (grid_res min_x min_y : Q) (rows cols : Z)
    (f : nat -> nat -> bool) (p : Q * Q) :
  ~ (grid_res == 0)%Q ->
  mark grid_res min_x min_y rows cols
       (picture (Z.to_nat rows) (Z.to_nat cols) f) p =
    Ok (picture (Z.to_nat rows) (Z.to_nat cols)
          (fun r c => f r c || covered grid_res min_x min_y [p] r c)).
Proof.
  intros Hres. unfold mark. rewrite !div_Ok by done. rewrite !bind_Ok.
  unfold covered, raster_cell. cbn [existsb fst snd].
  set (c := Py.int ((p.1 - min_x) / grid_res)).
  set (r := Py.int ((p.2 - min_y) / grid_res)).
  destruct ((0 <=? r) && (r <? rows) && (0 <=? c) && (c <? cols)) eqn:Hin.
  - rewrite !andb_true_iff in Hin. destruct Hin as [[[Hr0 Hr1] Hc0] Hc1].
    f_equal. rewrite picture_alter by lia. apply picture_ext.
    intros r' c' _ _. rewrite orb_false_r. f_equal.
    destruct (Nat.eqb_spec r' (Z.to_nat r)), (Nat.eqb_spec c' (Z.to_nat c)),
      (Z.eqb_spec r (Z.of_nat r')), (Z.eqb_spec c (Z.of_nat c')); cbn; lia.
  - f_equal. apply picture_ext. intros r' c' Hr' Hc'. rewrite orb_false_r.
    destruct (Z.eqb_spec r (Z.of_nat r')), (Z.eqb_spec c (Z.of_nat c'));
      cbn; rewrite ?orb_false_r; try done.
    exfalso. subst r c. rewrite e, e0 in Hin.
    rewrite !andb_false_iff in Hin. lia.
Qed.

Lemma mark_all_picture (grid_res min_x min_y : Q) (rows cols : Z)
    (verts_2d : list (Q * Q)) (f : nat -> nat -> bool) :
  ~ (grid_res == 0)%Q ->
  mark_all grid_res min_x min_y rows cols
       (picture (Z.to_nat rows) (Z.to_nat cols) f) verts_2d =
    Ok (picture (Z.to_nat rows) (Z.to_nat cols)
          (fun r c => f r c || covered grid_res min_x min_y verts_2d r c)).
Proof.
  intros Hres. revert f. induction verts_2d as [|p rest IH]; intros f.
  - cbn. f_equal. apply picture_ext. intros. by rewrite orb_false_r.
  - cbn [mark_all]. rewrite mark_picture by done. rewrite bind_Ok, IH.
    f_equal. apply picture_ext. intros r c _ _.
    unfold covered. cbn [existsb]. by rewrite orb_false_r, orb_assoc.
Qed.

(** X10.  The loop that fills the grid of a picture is a rasterisation: for a
    resolution that is not 0 it raises nothing, the grid keeps its [rows]
    rows of [cols] characters, and a cell holds [#] exactly when the cell of
    some vertex is that cell; every other cell stays blank. *)
Theorem picture_is_rasterisation (grid_res min_x min_y : Q) (rows cols : Z)
    (verts_2d : list (Q * Q)) :
  ~ (grid_res == 0)%Q ->
  mark_all grid_res min_x min_y rows cols
       (replicate (Z.to_nat rows) (replicate (Z.to_nat cols) " "%char)) verts_2d =
    Ok (picture (Z.to_nat rows) (Z.to_nat cols)
          (covered grid_res min_x min_y verts_2d)).
Proof.
  intros Hres. rewrite picture_blank, mark_all_picture by done.
  f_equal.
Qed.

Lemma picture_is_rasterisation_witness :
  mark_all 2 0 0 2 3 (replicate 2 (replicate 3 " "%char))
           [(0, 0); (5, 3); (9, 9); (4.5, 0)]%Q =
    Ok [["#"; " "; "#"]; [" "; " "; "#"]]%char.
Proof.
  etransitivity.
  - apply (picture_is_rasterisation 2 0 0 2 3). vm_compute. discriminate.
  - vm_compute. reflexivity.
Defined.

Lemma int_nonneg (x : Q) : (0 <= x)%Q -> Py.int x = Qfloor x.
Proof.
  intros Hx. unfold Py.int, Qfloor. destruct x as [n d]. cbn [Qnum Qden].
  apply Z.quot_div_nonneg; [|lia].
  unfold Qle in Hx. cbn in Hx. lia.
Qed.

Lemma int_bounds (x y : Q) :
  (0 <= x)%Q -> (x <= y)%Q -> 0 <= Py.int x <= Py.int y.
Proof.
  intros Hx Hxy. pose proof (Qle_trans _ _ _ Hx Hxy) as Hy.
  rewrite (int_nonneg x), (int_nonneg y) by done.
  split.
  - change 0 with (Qfloor 0). by apply Qfloor_resp_le.
  - by apply Qfloor_resp_le.
Qed.

Lemma raster_cell_inside (grid_res min_x min_y width height : Q) (p : Q * Q) :
  (0 < grid_res)%Q ->
  (0 <= p.1 - min_x <= width)%Q ->
  (0 <= p.2 - min_y <= height)%Q ->
  let cell := raster_cell grid_res min_x min_y p in
  0 <= cell.1 < Py.int (height / grid_res) + 2 /\
  0 <= cell.2 < Py.int (width / grid_res) + 2.
Proof.
  intros Hres [Hx0 Hx1] [Hy0 Hy1]. cbn.
  assert (Hdiv : forall a b, (0 <= a)%Q -> (a <= b)%Q ->
            (0 <= a / grid_res)%Q /\ (a / grid_res <= b / grid_res)%Q).
  { intros a b Ha Hab. split.
    - apply Qle_shift_div_l; [done|]. by rewrite Qmult_0_l.
    - apply Qle_shift_div_l; [done|].
      unfold Qdiv. rewrite <- Qmult_assoc, (Qmult_comm (/ grid_res)).
      rewrite Qmult_inv_r, Qmult_1_r by (intros E; rewrite E in Hres; by apply Qlt_irrefl in Hres).
      done. }
  destruct (Hdiv _ _ Hx0 Hx1) as [Hc0 Hc1].
  destruct (Hdiv _ _ Hy0 Hy1) as [Hr0 Hr1].
  pose proof (int_bounds _ _ Hc0 Hc1). pose proof (int_bounds _ _ Hr0 Hr1). lia.
Qed.

Lemma covered_own_cell (grid_res min_x min_y : Q) (verts_2d : list (Q * Q))
    (p : Q * Q) (r c : nat) :
  p ∈ verts_2d ->
  raster_cell grid_res min_x min_y p = (Z.of_nat r, Z.of_nat c) ->
  covered grid_res min_x min_y verts_2d r c = true.
Proof.
  intros Hp Hcell. unfold covered. apply existsb_exists. exists p.
  split; [by apply list_elem_of_In|]. rewrite Hcell. cbn. by rewrite !Z.eqb_refl.
Qed.

Lemma min_is_min (l : list Q) (m : Q) : Py.min l = Ok m -> is_min m l.
Proof.
  intros Hm. destruct l as [|x r]; [done|].
  destruct (min_Ok (x :: r)) as (m' & Hm' & Hmin); [cbn; lia|]. congruence.
Qed.

Lemma max_is_max (l : list Q) (m : Q) : Py.max l = Ok m -> is_max m l.
Proof.
  intros Hm. destruct l as [|x r]; [done|].
  destruct (max_Ok (x :: r)) as (m' & Hm' & Hmax); [cbn; lia|]. congruence.
Qed.

Lemma bounding_box_sides (triangles : list Triangle) (box : BoundingBox) :
  bounding_box triangles = Ok box ->
  is_min (min_x box) (map px (all_verts_of triangles)) /\
  is_max (max_x box) (map px (all_verts_of triangles)) /\
  is_min (min_y box) (map py (all_verts_of triangles)) /\
  is_max (max_y box) (map py (all_verts_of triangles)) /\
  is_min (min_z box) (map pz (all_verts_of triangles)) /\
  is_max (max_z box) (map pz (all_verts_of triangles)).
Proof.
  unfold bounding_box. intros Hbox. set (all_verts := all_verts_of triangles) in *.
  destruct (Py.min (map px all_verts)) as [x0|] eqn:Hx0; [|done].
  destruct (Py.max (map px all_verts)) as [x1|] eqn:Hx1; [|done].
  destruct (Py.min (map py all_verts)) as [y0|] eqn:Hy0; [|done].
  destruct (Py.max (map py all_verts)) as [y1|] eqn:Hy1; [|done].
  destruct (Py.min (map pz all_verts)) as [z0|] eqn:Hz0; [|done].
  destruct (Py.max (map pz all_verts)) as [z1|] eqn:Hz1; [|done].
  rewrite !bind_Ok in Hbox. injection Hbox as <-. cbn.
  auto 10 using min_is_min, max_is_max.
Qed.

(** X11.  The pictures of the report lose no vertex: with the width and the
    height of the bounding box of the mesh, and the resolution 2 of the call
    site, the cell of every vertex of a slab lies within the grid and holds
    [#] after the loop. *)
Theorem report_picture_keeps_every_vertex (triangles : list Triangle)
    (box : BoundingBox) (z_target tol x0 y0 : Q) :
  bounding_box triangles = Ok box ->
  let verts_2d := slab (all_verts_of triangles) z_target tol in
  Py.min verts_2d.*1 = Ok x0 ->
  Py.min verts_2d.*2 = Ok y0 ->
  let cols := Py.int ((max_x box - min_x box) / 2) + 2 in
  let rows := Py.int ((max_y box - min_y box) / 2) + 2 in
  exists grid,
    mark_all 2 x0 y0 rows cols
      (replicate (Z.to_nat rows) (replicate (Z.to_nat cols) " "%char)) verts_2d
      = Ok grid /\
    forall p, p ∈ verts_2d ->
      exists r c,
        raster_cell 2 x0 y0 p = (Z.of_nat r, Z.of_nat c) /\
        grid !! r ≫= (.!! c) = Some "#"%char.
Proof.
  intros Hbox verts_2d Hx0 Hy0 cols rows.
  assert (H2 : ~ (2 == 0)%Q) by done.
  rewrite picture_blank, mark_all_picture by done.
  eexists. split; [reflexivity|]. intros p Hp.
  destruct (bounding_box_sides _ _ Hbox)
    as ((_ & Hbx0) & (_ & Hbx1) & (_ & Hby0) & (_ & Hby1) & _).
  apply min_is_min in Hx0 as [Hx0in Hx0]. apply min_is_min in Hy0 as [Hy0in Hy0].
  assert (Hbox_p : forall q, q ∈ verts_2d ->
            (min_x box <= q.1 <= max_x box)%Q /\ (min_y box <= q.2 <= max_y box)%Q).
  { intros q Hq. apply elem_of_slab in Hq as (v & Hv & _ & ->). cbn.
    pose proof (list_elem_of_fmap_2 px _ _ Hv).
    pose proof (list_elem_of_fmap_2 py _ _ Hv). auto. }
  apply list_elem_of_fmap in Hx0in as (qx & -> & Hqx).
  apply list_elem_of_fmap in Hy0in as (qy & -> & Hqy).
  destruct (Hbox_p p Hp) as [[_ Hpx] [_ Hpy]].
  destruct (Hbox_p qx Hqx) as [[Hqx0 _] _].
  destruct (Hbox_p qy Hqy) as [_ [Hqy0 _]].
  pose proof (Hx0 p.1 (list_elem_of_fmap_2 fst _ _ Hp)) as Hx.
  pose proof (Hy0 p.2 (list_elem_of_fmap_2 snd _ _ Hp)) as Hy.
  destruct (raster_cell_inside 2 qx.1 qy.2
              (max_x box - min_x box) (max_y box - min_y box) p)
    as [Hr Hc]; [done|split; lra|split; lra|].
  fold rows in Hr. fold cols in Hc.
  set (cell := raster_cell 2 qx.1 qy.2 p) in *.
  exists (Z.to_nat cell.1), (Z.to_nat cell.2).
  assert (Hcell : cell = (Z.of_nat (Z.to_nat cell.1), Z.of_nat (Z.to_nat cell.2))).
  { rewrite !Z2Nat.id by lia. by destruct cell. }
  split; [done|].
  rewrite picture_cell by lia.
  by rewrite (covered_own_cell 2 qx.1 qy.2 verts_2d p).
Qed.

Lemma report_picture_keeps_every_vertex_witness :
  exists grid,
    mark_all 2 0 0 7 7 (replicate 7 (replicate 7 " "%char))
      (slab (all_verts_of cube) 0 0.25) = Ok grid /\
    forall p, p ∈ slab (all_verts_of cube) 0 0.25 ->
      exists r c,
        raster_cell 2 0 0 p = (Z.of_nat r, Z.of_nat c) /\
        grid !! r ≫= (.!! c) = Some "#"%char.
Proof.
  apply (report_picture_keeps_every_vertex cube
           (mkBox 0 10 0 10 0 10) 0 0.25 0 0); vm_compute; reflexivity.
Defined.

(* ================================================================= *)
(** * Further properties of the pocket detection *)

Lemma hits_add_hit (grid : gmap (Z * Z) Z) (cell k : Z * Z) :
  hits (add_hit grid cell) k = hits grid k + (if decide (k = cell) then 1 else 0).
Proof.
  unfold hits, add_hit. destruct (decide (k = cell)) as [->|Hne].
  - by rewrite lookup_insert_eq.
  - rewrite lookup_insert_ne by done. lia.
Qed.

Lemma hit_grid_fold (cells : list (Z * Z)) (grid : gmap (Z * Z) Z) (k : Z * Z) :
  hits (fold_left add_hit cells grid) k =
    hits grid k + Z.of_nat (length (filter (.= k) cells)) /\
  (k ∈ dom (fold_left add_hit cells grid) <-> k ∈ dom grid \/ k ∈ cells).
Proof.
  revert grid. induction cells as [|c rest IH]; intros grid.
  - cbn. split; [lia|]. rewrite elem_of_nil. tauto.
  - cbn [fold_left]. destruct (IH (add_hit grid c)) as [-> ->].
    rewrite hits_add_hit, filter_cons, elem_of_cons.
    unfold add_hit at 1. rewrite dom_insert, elem_of_union, elem_of_singleton.
    split.
    + destruct (decide (k = c)) as [->|Hne].
      * rewrite decide_True by done. cbn [length]. lia.
      * rewrite decide_False by congruence. lia.
    + tauto.
Qed.

(** X12.  The dictionary of the pocket detection counts: the entry of a cell
    is the number of vertices of the slab that fall in it, and a cell has an
    entry exactly when some vertex falls in it. *)
Theorem hit_grid_counts (cells : list (Z * Z)) (k : Z * Z) :
  hits (hit_grid cells) k = Z.of_nat (length (filter (.= k) cells)) /\
  (k ∈ dom (hit_grid cells) <-> k ∈ cells).
Proof.
  unfold hit_grid. destruct (hit_grid_fold cells ∅ k) as [-> ->].
  unfold hits. rewrite lookup_empty, dom_empty. split; [done|].
  rewrite elem_of_empty. tauto.
Qed.

Lemma empty_cells_NoDup (grid : gmap (Z * Z) Z) : NoDup (empty_cells grid).
Proof.
  unfold empty_cells.
  destruct ((elements (dom grid)).*1) as [|x0 xs]; [constructor|].
  destruct ((elements (dom grid)).*2) as [|y0 ys]; [constructor|].
  assert (Hcell : forall gx gy (y : Z * Z),
            y ∈ (if sparse grid (gx, gy) && (4 <=? neighbors grid gx gy)%nat
                 then [(gx, gy)] else []) -> y = (gx, gy)).
  { intros gx gy y. destruct (_ && _).
    - by intros ->%list_elem_of_singleton.
    - by intros ?%elem_of_nil. }
  assert (Hrow : forall gx (y : Z * Z),
            y ∈ (gy ← range_incl (min_Z y0 ys) (max_Z y0 ys);
                 if sparse grid (gx, gy) && (4 <=? neighbors grid gx gy)%nat
                 then [(gx, gy)] else []) -> y.1 = gx).
  { intros gx y (gy & Hy & _)%list_elem_of_bind. by rewrite (Hcell _ _ _ Hy). }
  apply NoDup_bind.
  - intros gx1 gx2 y _ _ H1 H2. by rewrite <- (Hrow _ _ H1), <- (Hrow _ _ H2).
  - intros gx _. apply NoDup_bind.
    + intros gy1 gy2 y _ _ H1 H2.
      apply Hcell in H1, H2. congruence.
    + intros gy _. destruct (_ && _); [apply NoDup_singleton|constructor].
    + apply NoDup_seqZ.
  - apply NoDup_seqZ.
Qed.

Lemma detect_pockets_enough (all_verts : list Point3)
    (min_x min_y z_target tol grid_size : Q) :
  ~ (grid_size == 0)%Q ->
  let verts_2d :=
    map (fun v => (px v - min_x, py v - min_y)%Q)
        (List.filter (in_slab z_target tol) all_verts) in
  let centres :=
    map (cell_centre grid_size)
        (empty_cells (hit_grid (map (cell_of grid_size) verts_2d))) in
  detect_pockets all_verts min_x min_y z_target tol grid_size =
    if (length verts_2d <? 10)%nat then Ok None
    else
      match centres with
      | [] => Ok None
      | _ :: _ =>
          min_ex ← Py.min centres.*1; max_ex ← Py.max centres.*1;
          min_ey ← Py.min centres.*2; max_ey ← Py.max centres.*2;
          Ok (Some {| count := length centres;
                      pocket_x_range := (min_ex, max_ex);
                      pocket_y_range := (min_ey, max_ey);
                      pocket_width := max_ex - min_ex;
                      pocket_height := max_ey - min_ey |})
      end.
Proof.
  intros Hsize verts_2d centres. unfold detect_pockets. fold verts_2d.
  destruct (length verts_2d <? 10)%nat; [done|].
  rewrite (mapM_total _ (cell_of grid_size)), bind_Ok; [reflexivity|].
  intros [x y]. rewrite !div_Ok by done. by rewrite !bind_Ok.
Qed.

(** X13.  A pocket that [detect_pockets] reports is the extent of the cells
    that entered [empty_interior]: no cell is listed twice, the two ranges
    are the smallest and the largest centre coordinate on each axis, in
    coordinates from the lower corner of the bounding box, and the width and
    the height are their differences, never negative. *)
Theorem pocket_is_extent_of_cells (all_verts : list Point3)
    (min_x min_y z_target tol grid_size : Q) (info : PocketInfo) :
  ~ (grid_size == 0)%Q ->
  detect_pockets all_verts min_x min_y z_target tol grid_size = Ok (Some info) ->
  let verts_2d :=
    map (fun v => (px v - min_x, py v - min_y)%Q)
        (List.filter (in_slab z_target tol) all_verts) in
  let cells := empty_cells (hit_grid (map (cell_of grid_size) verts_2d)) in
  let centres := map (cell_centre grid_size) cells in
  NoDup cells /\
  is_min (pocket_x_range info).1 centres.*1 /\
  is_max (pocket_x_range info).2 centres.*1 /\
  is_min (pocket_y_range info).1 centres.*2 /\
  is_max (pocket_y_range info).2 centres.*2 /\
  pocket_width info = ((pocket_x_range info).2 - (pocket_x_range info).1)%Q /\
  pocket_height info = ((pocket_y_range info).2 - (pocket_y_range info).1)%Q /\
  (0 <= pocket_width info)%Q /\ (0 <= pocket_height info)%Q.
Proof.
  intros Hsize Hinfo verts_2d cells centres.
  split; [apply empty_cells_NoDup|].
  rewrite detect_pockets_enough in Hinfo by done. cbv zeta in Hinfo.
  fold verts_2d cells centres in Hinfo.
  destruct (length verts_2d <? 10)%nat; [done|].
  destruct centres as [|e es] eqn:Ecentres; [done|].
  destruct (Py.min (e :: es).*1) as [a|] eqn:Ha; [|done].
  destruct (Py.max (e :: es).*1) as [b|] eqn:Hb; [|done].
  destruct (Py.min (e :: es).*2) as [a'|] eqn:Ha'; [|done].
  destruct (Py.max (e :: es).*2) as [b'|] eqn:Hb'; [|done].
  rewrite !bind_Ok in Hinfo. injection Hinfo as <-. cbn.
  apply min_is_min in Ha, Ha'. apply max_is_max in Hb, Hb'.
  repeat (split; [done|]).
  destruct Ha as [Hain _], Ha' as [Ha'in _], Hb as [_ Hb], Hb' as [_ Hb'].
  specialize (Hb _ Hain). specialize (Hb' _ Ha'in). split; lra.
Qed.

Lemma pocket_is_extent_of_cells_witness :
  exists info cells,
    detect_pockets ring_verts 0 0 0 0.3 2 = Ok (Some info) /\
    NoDup cells /\
    is_min (pocket_x_range info).1 (map (cell_centre 2) cells).*1 /\
    is_max (pocket_x_range info).2 (map (cell_centre 2) cells).*1 /\
    (0 <= pocket_width info)%Q.
Proof.
  eexists _, _. split; [vm_compute; reflexivity|].
  destruct (pocket_is_extent_of_cells ring_verts 0 0 0 0.3 2 _
              ltac:(done) ltac:(vm_compute; reflexivity))
    as (H1 & H2 & H3 & _ & _ & _ & _ & H8 & _).
  repeat split; [exact H1|apply H2|apply H2|apply H3|apply H3|exact H8].
Defined.

Lemma div_zero (x y : Q) : (y == 0)%Q -> Py.div x y = Raise ZeroDivisionError.
Proof.
  intros Hy. unfold Py.div. apply Qeq_bool_iff in Hy. by rewrite Hy.
Qed.

Lemma mapM_first_raises {A B} (f : A -> result B) (x : A) (l : list A) (e : exn) :
  f x = Raise e -> mapM f (x :: l) = Raise e.
Proof. intros Hx. simpl. by rewrite Hx. Qed.

(** X14.  A cell size of 0 is an error only after the guards: [detect_pockets]
    returns nothing on a slab of fewer than 10 vertices and raises
    ZeroDivisionError on a larger one; [ascii_cross_section] returns no line
    on an empty list of vertices and raises ZeroDivisionError on any
    other. *)
Theorem zero_cell_size (fmt_f : nat -> nat -> Q -> string) (capacity : Z)
    (all_verts : list Point3) (min_x min_y z_target tol grid_size : Q)
    (verts_2d : list (Q * Q)) (width height : Q) (label : string) :
  (grid_size == 0)%Q ->
  detect_pockets all_verts min_x min_y z_target tol grid_size =
    (if (length (List.filter (in_slab z_target tol) all_verts) <? 10)%nat
     then Ok None else Raise ZeroDivisionError) /\
  ascii_cross_section fmt_f capacity verts_2d width height grid_size label =
    (match verts_2d with [] => Ok [] | _ :: _ => Raise ZeroDivisionError end).
Proof.
  intros Hzero. split.
  - unfold detect_pockets. rewrite length_map.
    destruct (Nat.ltb_spec (length (List.filter (in_slab z_target tol) all_verts)) 10)
      as [|Hge]; [done|].
    destruct (List.filter (in_slab z_target tol) all_verts) as [|v rest];
      [simpl in Hge; lia|].
    cbn [map]. rewrite (mapM_first_raises _ _ _ ZeroDivisionError); [done|].
    cbn beta iota. rewrite !(div_zero _ _ Hzero). reflexivity.
  - unfold ascii_cross_section. destruct verts_2d as [|p rest]; [done|].
    destruct (min_Ok ((p :: rest).*1)) as (a & -> & _); [simpl; lia|].
    destruct (min_Ok ((p :: rest).*2)) as (b & -> & _); [simpl; lia|].
    rewrite !bind_Ok. rewrite !(div_zero _ _ Hzero). reflexivity.
Qed.

Lemma zero_cell_size_witness :
  detect_pockets ring_verts 0 0 0 0.3 0 =
    (if (length (List.filter (in_slab 0 0.3) ring_verts) <? 10)%nat
     then Ok None else Raise ZeroDivisionError) /\
  ascii_cross_section fmt_int_part 1000 [(1, 1)%Q] 4 4 0 "" =
    Raise ZeroDivisionError.
Proof.
  apply (zero_cell_size fmt_int_part 1000 ring_verts 0 0 0 0.3 0 [(1, 1)%Q] 4 4 "").
  reflexivity.
Defined.

(* ================================================================= *)
(** * The histogram of the heights and the surfaces *)

Lemma sum_map_insert {V} (g : V -> nat) (m : gmap Qc V) (k : Qc) (v : V) :
  (sum_list_with (fun kv => g kv.2) (map_to_list (<[k := v]> m))
     + from_option g 0 (m !! k) =
   sum_list_with (fun kv => g kv.2) (map_to_list m) + g v)%nat.
Proof.
  destruct (m !! k) as [old|] eqn:Hk.
  - rewrite <- insert_delete_eq.
    rewrite map_to_list_insert by apply lookup_delete_eq.
    rewrite <- (map_to_list_delete m k old Hk). cbn. lia.
  - rewrite map_to_list_insert by done. cbn. lia.
Qed.

Lemma z_histogram_fold (round1 : Q -> Q) (all_verts : list Point3)
    (m : gmap Qc nat) (k : Qc) :
  fold_left (add_level round1) all_verts m !! k =
    match length (filter (fun v => level_of round1 v = k) all_verts) with
    | O => m !! k
    | S n => Some (default 0 (m !! k) + S n)%nat
    end.
Proof.
  revert m. induction all_verts as [|v rest IH]; intros m; [done|].
  cbn [fold_left]. rewrite IH, filter_cons. unfold add_level.
  fold (level_of round1 v).
  destruct (decide (level_of round1 v = k)) as [->|Hne].
  - rewrite lookup_insert_eq. cbn [length].
    destruct (length _); simpl; f_equal; lia.
  - by rewrite lookup_insert_ne.
Qed.

Lemma values_total_fold (round1 : Q -> Q) (all_verts : list Point3)
    (m : gmap Qc nat) :
  values_total (fold_left (add_level round1) all_verts m) =
    (values_total m + length all_verts)%nat.
Proof.
  revert m. induction all_verts as [|v rest IH]; intros m; [cbn; lia|].
  cbn [fold_left length]. rewrite IH. unfold add_level, values_total.
  pose proof (sum_map_insert id m (level_of round1 v)
                (default 0 (m !! level_of round1 v) + 1)%nat) as Hsum.
  change (fun kv : Qc * nat => id kv.2) with (@snd Qc nat) in Hsum.
  unfold level_of, id in *. lia.
Qed.

(** X15.  The histogram of the heights counts: the entry of a rounded height
    is the number of vertices that round to it, a height that no vertex
    rounds to has no entry, and the entries add up to the three vertices of
    every triangle. *)
Theorem z_histogram_counts (round1 : Q -> Q) (triangles : list Triangle) (k : Qc) :
  let all_verts := all_verts_of triangles in
  z_histogram round1 all_verts !! k =
    match length (filter (fun v => level_of round1 v = k) all_verts) with
    | O => None
    | S n => Some (S n)
    end /\
  values_total (z_histogram round1 all_verts) = (3 * length triangles)%nat.
Proof.
  intros all_verts. unfold z_histogram. split.
  - rewrite z_histogram_fold, lookup_empty. by destruct (length _).
  - rewrite values_total_fold. unfold values_total. rewrite map_to_list_empty.
    cbn. unfold all_verts, all_verts_of.
    induction triangles as [|t rest IH]; cbn in *; lia.
Qed.

Lemma max_count_of_spec (l : list nat) (x : nat) :
  x ∈ l ->
  exists m, max_count_of l = Ok m /\ m ∈ l /\ forall n, n ∈ l -> (n <= m)%nat.
Proof.
  destruct l as [|y r]; [by intros ?%elem_of_nil|]. intros _.
  unfold max_count_of. eexists. split; [reflexivity|]. revert y.
  induction r as [|z r IH]; intros y; cbn [fold_left].
  - split; [apply list_elem_of_here|]. by intros n ->%list_elem_of_singleton.
  - destruct (IH (if (y <? z)%nat then z else y)) as [Hin Hmax]. split.
    + apply elem_of_cons in Hin as [->|Hin].
      * destruct (y <? z)%nat; [apply list_elem_of_further|]; apply list_elem_of_here.
      * by do 2 apply list_elem_of_further.
    + intros n Hn.
      assert (Hy : (y <= if (y <? z)%nat then z else y)%nat).
      { destruct (Nat.ltb_spec y z); lia. }
      assert (Hz : (z <= if (y <? z)%nat then z else y)%nat).
      { destruct (Nat.ltb_spec y z); lia. }
      pose proof (Hmax _ (list_elem_of_here _ _)).
      apply elem_of_cons in Hn as [->|Hn]; [lia|].
      apply elem_of_cons in Hn as [->|Hn]; [lia|].
      apply Hmax. by apply list_elem_of_further.
Qed.

Lemma z_hist_scale (round1 : Q -> Q) (all_verts : list Point3) :
  all_verts <> [] ->
  let z_hist := z_histogram round1 all_verts in
  exists max_count,
    max_count_of (map_to_list z_hist).*2 = Ok max_count /\
    (0 < max_count)%nat /\
    bar_scale_of max_count = Ok (of_int 40 / of_len max_count)%Q /\
    forall k n, z_hist !! k = Some n -> (n <= max_count)%nat.
Proof.
  intros Hne z_hist.
  assert (Hpos : forall k n, z_hist !! k = Some n -> (0 < n)%nat).
  { intros k n. unfold z_hist, z_histogram.
    rewrite z_histogram_fold, lookup_empty.
    destruct (length _); [done|]. intros [= <-]. cbn. lia. }
  assert (Hsome : exists k n, z_hist !! k = Some n).
  { destruct all_verts as [|v rest]; [done|].
    exists (level_of round1 v). unfold z_hist, z_histogram.
    rewrite z_histogram_fold, lookup_empty, filter_cons, decide_True by done.
    cbn [length]. eauto. }
  destruct Hsome as (k0 & n0 & Hk0).
  assert (Hvalue : forall k n, z_hist !! k = Some n -> n ∈ (map_to_list z_hist).*2).
  { intros k n Hk. apply list_elem_of_fmap. exists (k, n). split; [done|].
    by apply elem_of_map_to_list. }
  destruct (max_count_of_spec _ _ (Hvalue _ _ Hk0)) as (mx & Hmx & Hmxin & Hmax).
  assert (Hmxpos : (0 < mx)%nat).
  { apply list_elem_of_fmap in Hmxin as ([k n] & -> & Hkn).
    apply elem_of_map_to_list in Hkn. by apply (Hpos k). }
  exists mx. split; [done|]. split; [done|]. split; [|by eauto].
  unfold bar_scale_of. apply Nat.ltb_lt in Hmxpos as Hlt. rewrite Hlt.
  apply div_Ok. by apply of_len_nonzero.
Qed.

(** X16.  No bar of the histogram is longer than 40 characters: the mesh of a
    report has a vertex, so the histogram has an entry, its largest count is
    positive, and every count, scaled, lies between 0 and 40. *)
Theorem histogram_bars_bounded (round1 : Q -> Q) (all_verts : list Point3) :
  all_verts <> [] ->
  let z_hist := z_histogram round1 all_verts in
  exists max_count bar_scale,
    max_count_of (map_to_list z_hist).*2 = Ok max_count /\
    (0 < max_count)%nat /\
    bar_scale_of max_count = Ok bar_scale /\
    forall k n, z_hist !! k = Some n -> 0 <= bar_length n bar_scale <= 40.
Proof.
  intros Hne z_hist.
  destruct (z_hist_scale round1 all_verts Hne) as (mx & Hmx & Hmxpos & Hs & Hmax).
  exists mx, (of_int 40 / of_len mx)%Q. split; [done|]. split; [done|].
  split; [done|]. intros k n Hk. unfold bar_length.
  pose proof (Hmax k n Hk) as Hle.
  pose proof (of_len_pos mx Hmxpos) as Hmxq.
  assert (Hn0 : (0 <= of_len n)%Q).
  { unfold of_len, Qle. cbn. lia. }
  assert (Hnmx : (of_len n <= of_len mx)%Q).
  { unfold of_len, Qle. cbn. lia. }
  change 40 with (Py.int (of_int 40)).
  apply int_bounds.
  - apply Qmult_le_0_compat; [done|].
    apply Qle_shift_div_l; [done|]. by rewrite Qmult_0_l.
  - unfold Qdiv. rewrite Qmult_assoc.
    apply Qle_shift_div_r; [done|].
    rewrite (Qmult_comm (of_len n)). by apply Qmult_le_l.
Qed.

Lemma histogram_bars_bounded_witness :
  exists max_count bar_scale,
    max_count_of (map_to_list (z_histogram round_tenths (all_verts_of cube))).*2
      = Ok max_count /\
    (0 < max_count)%nat /\
    bar_scale_of max_count = Ok bar_scale /\
    forall k n, z_histogram round_tenths (all_verts_of cube) !! k = Some n ->
      0 <= bar_length n bar_scale <= 40.
Proof.
  apply (histogram_bars_bounded round_tenths (all_verts_of cube)). discriminate.
Defined.

Lemma face_total_count_face (faces : gmap Qc (gmap string nat)) (z k : Qc) :
  face_total (count_face faces z) k =
    (face_total faces k + (if decide (k = z) then 1 else 0))%nat.
Proof.
  unfold face_total, count_face. destruct (decide (k = z)) as [->|Hne].
  - rewrite lookup_insert_eq. cbn [default from_option id].
    by rewrite lookup_insert_eq.
  - rewrite lookup_insert_ne by done. lia.
Qed.

Lemma faces_total_count_face (faces : gmap Qc (gmap string nat)) (z : Qc) :
  faces_total (count_face faces z) = S (faces_total faces).
Proof.
  unfold faces_total, count_face.
  pose proof (sum_map_insert (fun inner : gmap string nat => default 0%nat (inner !! "total"))
                faces z
                (<["total" := (default 0 (default ∅ (faces !! z) !! "total") + 1)%nat]>
                   (default ∅ (faces !! z)))) as Hsum.
  cbn beta in Hsum. rewrite lookup_insert_eq in Hsum.
  destruct (faces !! z) as [old|]; cbn in Hsum |- *; [lia|].
  rewrite lookup_empty in Hsum |- *. cbn in Hsum |- *. lia.
Qed.

Lemma detect_surfaces_fold (round1 : Q -> Q) (min_y : Q)
    (triangles : list Triangle)
    (st : gmap Qc (gmap string nat) * gmap Qc (gmap string nat))
    (c : normal_counts) :
  let st' := fold_left (surface_step round1 min_y) triangles st in
  let c' := fold_left count_normal triangles c in
  (faces_total st'.1 + top c = faces_total st.1 + top c')%nat /\
  (faces_total st'.2 + bottom c = faces_total st.2 + bottom c')%nat /\
  forall k,
    face_total st'.1 k =
      (face_total st.1 k +
       length (filter (fun t => ltb 0.9 (pz (normal t)) = true /\
                                surface_level round1 t = k) triangles))%nat /\
    face_total st'.2 k =
      (face_total st.2 k +
       length (filter (fun t => ltb 0.9 (pz (normal t)) = false /\
                                ltb (pz (normal t)) (-0.9) = true /\
                                surface_level round1 t = k) triangles))%nat.
Proof.
  revert st c. induction triangles as [|t rest IH]; intros st c.
  - cbn. split; [done|]. split; [done|]. intros k. lia.
  - cbn [fold_left]. cbv zeta.
    destruct (IH (surface_step round1 min_y st t) (count_normal c t))
      as (Htop & Hbot & Hkey).
    unfold surface_step, count_normal in Htop, Hbot, Hkey |- *.
    fold (surface_level round1 t) in Htop, Hbot, Hkey |- *.
    destruct (ltb 0.9 (pz (normal t))) eqn:E1;
      [|destruct (ltb (pz (normal t)) (-0.9)) eqn:E2].
    + cbn [fst snd top bottom] in *. rewrite faces_total_count_face in Htop.
      split; [lia|]. split; [lia|]. intros k. destruct (Hkey k) as [-> ->].
      rewrite face_total_count_face, !filter_cons.
      destruct (decide (k = surface_level round1 t)) as [->|Hne].
      * rewrite decide_True by done.
        rewrite (decide_False (P := _ /\ _ /\ _)) by (intros (? & _); congruence).
        cbn [length]. lia.
      * rewrite decide_False by (intros (_ & ?); congruence).
        rewrite (decide_False (P := _ /\ _ /\ _)) by (intros (? & _); congruence).
        lia.
    + cbn [fst snd top bottom] in *. rewrite faces_total_count_face in Hbot.
      split; [lia|]. split; [lia|]. intros k. destruct (Hkey k) as [-> ->].
      rewrite face_total_count_face, !filter_cons.
      rewrite decide_False by (intros (? & _); congruence).
      destruct (decide (k = surface_level round1 t)) as [->|Hne].
      * rewrite decide_True by done. cbn [length]. lia.
      * rewrite decide_False by (intros (_ & _ & ?); congruence). lia.
    + destruct (ltb (Qabs (pz (normal t))) 0.1); cbn [fst snd top bottom] in *;
        (split; [lia|]); (split; [lia|]); intros k; destruct (Hkey k) as [-> ->];
        rewrite !filter_cons;
        rewrite decide_False by (intros (? & _); congruence);
        rewrite (decide_False (P := _ /\ _ /\ _)) by (intros (_ & ? & _); congruence);
        lia.
Qed.

(** X17.  The surfaces are the flat faces of the face-normal analysis, sorted
    by height: the counts of the floor surfaces add up to the top-facing
    count of the report and those of the ceiling surfaces to the
    bottom-facing count, and the count at a height is the number of such
    faces whose centroid rounds to it. *)
Theorem surfaces_account_for_flat_faces (round1 : Q -> Q)
    (triangles : list Triangle) (min_y : Q) :
  let faces := detect_surfaces round1 triangles min_y in
  faces_total faces.1 = top (face_normals triangles) /\
  faces_total faces.2 = bottom (face_normals triangles) /\
  forall k,
    face_total faces.1 k =
      length (filter (fun t => ltb 0.9 (pz (normal t)) = true /\
                               surface_level round1 t = k) triangles) /\
    face_total faces.2 k =
      length (filter (fun t => ltb 0.9 (pz (normal t)) = false /\
                               ltb (pz (normal t)) (-0.9) = true /\
                               surface_level round1 t = k) triangles).
Proof.
  intros faces.
  destruct (detect_surfaces_fold round1 min_y triangles (∅, ∅) (mkCounts 0 0 0 0))
    as (Htop & Hbot & Hkey).
  fold (detect_surfaces round1 triangles min_y) in Htop, Hbot, Hkey.
  fold (face_normals triangles) in Htop, Hbot. fold faces in Htop, Hbot, Hkey.
  cbn [fst snd top bottom] in Htop, Hbot.
  unfold faces_total in Htop at 2. unfold faces_total in Hbot at 2.
  rewrite map_to_list_empty in Htop, Hbot. cbn in Htop, Hbot.
  split; [lia|]. split; [lia|]. intros k. destruct (Hkey k) as [-> ->].
  unfold face_total. cbn [fst snd]. rewrite !lookup_empty.
  cbn [default from_option id]. rewrite !lookup_empty. cbn [default from_option id].
  split; lia.
Qed.

(* ================================================================= *)
(** * The heights of the cross-section analysis *)

Lemma sorted_strict (l : list Qc) :
  StronglySorted Qcle l -> NoDup l -> StronglySorted Qclt l.
Proof.
  induction 1 as [|x l Hsorted IH Hall]; intros Hnd; [constructor|].
  apply NoDup_cons in Hnd as [Hx Hnd]. constructor; [auto|].
  apply Forall_forall. intros y Hy.
  assert (Hxy : (x <= y)%Qc).
  { eapply Forall_forall in Hall; [exact Hall|done]. }
  destruct (Qcle_lt_or_eq x y Hxy) as [Hlt|Heq]; [done|].
  exfalso. apply Hx. by rewrite Heq.
Qed.

Lemma sorted_set_spec (l : list Qc) :
  let levels := merge_sort Qcle (elements (list_to_set (C := gset Qc) l)) in
  StronglySorted Qclt levels /\
  (forall k, k ∈ levels <-> k ∈ l) /\
  (length levels <= length l)%nat.
Proof.
  intros levels.
  assert (Hperm : levels ≡ₚ elements (list_to_set (C := gset Qc) l))
    by apply merge_sort_Permutation.
  assert (Hnd : NoDup levels).
  { rewrite Hperm. apply NoDup_elements. }
  assert (Hin : forall k, k ∈ levels <-> k ∈ l).
  { intros k. unfold levels. rewrite merge_sort_Permutation, elem_of_elements.
    apply elem_of_list_to_set. }
  split; [|split; [done|]].
  - apply sorted_strict; [|done]. apply StronglySorted_merge_sort; apply _.
  - apply submseteq_length, NoDup_submseteq; [done|]. intros k. apply Hin.
Qed.

(** X18.  The cross-section analysis visits between one and seven heights,
    in strictly ascending order and none twice; the lowest and the highest
    height of the mesh are among them, and a mesh without depth is visited
    at one height only. *)
Theorem z_levels_ascending (min_z max_z : Q) :
  let levels := z_levels min_z max_z in
  StronglySorted Qclt levels /\
  (1 <= length levels <= 7)%nat /\
  float_key min_z ∈ levels /\ float_key max_z ∈ levels /\
  ((max_z == min_z)%Q -> levels = [float_key min_z]).
Proof.
  intros levels. unfold levels, z_levels.
  set (l := float_key <$> _).
  destruct (sorted_set_spec l) as (Hsorted & Hin & Hlen). cbv zeta in *.
  set (sorted := merge_sort Qcle (elements (list_to_set (C := gset Qc) l))) in *.
  assert (Hmin : float_key min_z ∈ sorted).
  { apply Hin. unfold l. cbn. apply list_elem_of_here. }
  assert (Hmax : float_key max_z ∈ sorted).
  { apply Hin. unfold l. cbn. do 6 apply list_elem_of_further. apply list_elem_of_here. }
  split; [done|]. split.
  { split; [|exact Hlen]. destruct sorted; [by apply elem_of_nil in Hmin|cbn; lia]. }
  split; [done|]. split; [done|].
  intros Hflat.
  assert (Hall : forall k, k ∈ sorted -> k = float_key min_z).
  { intros k Hk. apply Hin in Hk. unfold l in Hk. cbn in Hk.
    repeat (apply elem_of_cons in Hk as [->|Hk];
            [apply Qc_is_canon; cbn; rewrite !Qred_correct, ?Hflat; lra|]).
    by apply elem_of_nil in Hk. }
  assert (Hnd : NoDup sorted).
  { unfold sorted. rewrite merge_sort_Permutation. apply NoDup_elements. }
  destruct sorted as [|a [|b rest]].
  - by apply elem_of_nil in Hmin.
  - f_equal. apply Hall, list_elem_of_here.
  - exfalso. apply NoDup_cons in Hnd as [Hab _]. apply Hab.
    rewrite (Hall a), (Hall b);
      [apply list_elem_of_here|apply list_elem_of_further|]; apply list_elem_of_here.
Qed.

Lemma z_levels_ascending_witness :
  z_levels 3 3 = [float_key 3].
Proof.
  apply (z_levels_ascending 3 3). reflexivity.
Defined.

(* ================================================================= *)
(** * The extent of a cross-section *)

(** X21.  A result of [analyze_slice] describes the slab it was computed from:
    it counts the points of the slab, at least 10; its two ranges are the
    smallest and the largest coordinate of the points on each axis; its
    width and its height are the differences of these, never negative; and
    its centre lies within both ranges. *)
Theorem slice_extent (sqrt : Q -> Q) (all_verts : list Point3)
    (target_z tolerance : Q) (info : SliceInfo) :
  analyze_slice sqrt all_verts target_z tolerance = Ok (Some info) ->
  let pts := slab all_verts target_z tolerance in
  verts info = length pts /\ (10 <= verts info)%nat /\
  is_min (x_range info).1 pts.*1 /\ is_max (x_range info).2 pts.*1 /\
  is_min (y_range info).1 pts.*2 /\ is_max (y_range info).2 pts.*2 /\
  width info = ((x_range info).2 - (x_range info).1)%Q /\
  height info = ((y_range info).2 - (y_range info).1)%Q /\
  (0 <= width info)%Q /\ (0 <= height info)%Q /\
  ((x_range info).1 <= (center info).1 <= (x_range info).2)%Q /\
  ((y_range info).1 <= (center info).2 <= (y_range info).2)%Q.
Proof.
  intros Hinfo pts.
  destruct (Nat.lt_ge_cases (length pts) 10) as [Hlt|Hge].
  { unfold analyze_slice in Hinfo. fold pts in Hinfo.
    apply Nat.ltb_lt in Hlt. by rewrite Hlt in Hinfo. }
  destruct (analyze_slice_enough sqrt all_verts target_z tolerance Hge)
    as (x0 & x1 & y0 & y1 & Hx0 & Hx1 & Hy0 & Hy1 & Heq).
  cbv zeta in Heq. rewrite Heq in Hinfo. injection Hinfo as <-.
  cbn [verts x_range y_range width height center fst snd]. fold pts.
  assert (Hx : (x0 <= x1)%Q) by (destruct Hx0 as [Hin _], Hx1 as [_ Hmax]; auto).
  assert (Hy : (y0 <= y1)%Q) by (destruct Hy0 as [Hin _], Hy1 as [_ Hmax]; auto).
  repeat (split; [done|]).
  assert (Hmid : forall a b : Q, (a <= b)%Q -> (a <= (a + b) / 2 <= b)%Q).
  { intros a b Hab. split.
    - apply Qle_shift_div_l; [done|]. lra.
    - apply Qle_shift_div_r; [done|]. lra. }
  repeat split; try lra; by apply Hmid.
Qed.

Lemma slice_extent_witness :
  exists info,
    analyze_slice floor_sqrt sample_verts10 0 0.25 = Ok (Some info) /\
    verts info = length (slab sample_verts10 0 0.25) /\
    (0 <= width info)%Q /\ (0 <= height info)%Q.
Proof.
  eexists. split; [vm_compute; reflexivity|].
  destruct (slice_extent floor_sqrt sample_verts10 0 0.25 _
              ltac:(vm_compute; reflexivity))
    as (H1 & _ & _ & _ & _ & _ & _ & _ & H9 & H10 & _).
  split; [exact H1|]. split; [exact H9|exact H10].
Defined.

(* ================================================================= *)
(** * The report *)

Lemma returned_bind {A B} (m : io A) (f : A -> io B) :
  returned (m ≫= f) =
    match returned m with
    | Ok a => returned (f a)
    | Raise e => Raise e
    end.
Proof. unfold mbind, io_bind. by destruct (returned m). Qed.

Lemma printed_bind {A B} (m : io A) (f : A -> io B) :
  printed (m ≫= f) =
    match returned m with
    | Ok a => printed m ++ printed (f a)
    | Raise e => printed m
    end.
Proof. unfold mbind, io_bind. by destruct (returned m). Qed.

Lemma returned_print {B} (s : string) (f : unit -> io B) :
  returned (print s ≫= f) = returned (f tt).
Proof. by rewrite returned_bind. Qed.

Lemma returned_lift {A B} (r : result A) (a : A) (f : A -> io B) :
  r = Ok a -> returned (lift r ≫= f) = returned (f a).
Proof. intros ->. by rewrite returned_bind. Qed.

Lemma returned_seq {A B} (m : io A) (a : A) (f : A -> io B) :
  returned m = Ok a -> returned (m ≫= f) = returned (f a).
Proof. intros H. by rewrite returned_bind, H. Qed.

Lemma for_each_returns {A} (l : list A) (body : A -> io unit) :
  (forall x, x ∈ l -> returned (body x) = Ok tt) ->
  returned (for_each l body) = Ok tt.
Proof.
  induction l as [|x rest IH]; intros Hbody; [done|].
  cbn [for_each]. rewrite (returned_seq _ tt).
  - apply IH. intros y Hy. apply Hbody. by apply list_elem_of_further.
  - apply Hbody, list_elem_of_here.
Qed.

Lemma for_each_print_returns (l : list string) :
  returned (for_each l print) = Ok tt.
Proof. by apply for_each_returns. Qed.

Section ReportReturns.

Variable sqrt : Q -> Q.
Variable fmt_f : nat -> nat -> Q -> string.
Variable round1 : Q -> Q.
Variable capacity : Z.

Lemma header_section_returns (filepath : string) (filesize : nat)
    (fmt : string) (len : nat) (box : BoundingBox) :
  returned (header_section fmt_f filepath filesize fmt len box) = Ok tt.
Proof. unfold header_section. by rewrite !returned_print. Qed.

Lemma percent_Ok (n len : nat) :
  (0 < len)%nat -> exists s, percent fmt_f n len = Ok s.
Proof.
  intros Hlen. unfold percent. rewrite div_Ok by by apply of_len_nonzero.
  rewrite bind_Ok. eauto.
Qed.

Lemma normals_section_returns (c : normal_counts) (len : nat) :
  (0 < len)%nat -> returned (normals_section fmt_f c len) = Ok tt.
Proof.
  intros Hlen. unfold normals_section.
  destruct (percent_Ok (top c) len Hlen) as (p1 & H1).
  destruct (percent_Ok (bottom c) len Hlen) as (p2 & H2).
  destruct (percent_Ok (vertical c) len Hlen) as (p3 & H3).
  destruct (percent_Ok (angled c) len Hlen) as (p4 & H4).
  rewrite returned_print, (returned_lift _ _ _ H1).
  rewrite returned_print, (returned_lift _ _ _ H2).
  rewrite returned_print, (returned_lift _ _ _ H3).
  rewrite returned_print, (returned_lift _ _ _ H4).
  by rewrite !returned_print.
Qed.

Lemma surface_lines_returns (heading : string) (faces : gmap Qc (gmap string nat)) :
  returned (surface_lines fmt_f heading faces) = Ok tt.
Proof.
  unfold surface_lines. rewrite returned_print, (returned_seq _ tt); [done|].
  apply for_each_returns. intros z _. by destruct (5 <? _)%nat.
Qed.

Lemma analyze_slice_Ok (all_verts : list Point3) (target_z tolerance : Q) :
  exists info, analyze_slice sqrt all_verts target_z tolerance = Ok info.
Proof.
  destruct (Nat.lt_ge_cases (length (slab all_verts target_z tolerance)) 10)
    as [Hlt|Hge].
  - exists None. unfold analyze_slice.
    apply Nat.ltb_lt in Hlt. by rewrite Hlt.
  - destruct (analyze_slice_enough sqrt all_verts target_z tolerance Hge)
      as (x0 & x1 & y0 & y1 & _ & _ & _ & _ & Heq).
    eexists. exact Heq.
Qed.

Lemma cross_section_section_returns (all_verts : list Point3) (min_z max_z : Q) :
  returned (cross_section_section sqrt fmt_f all_verts min_z max_z) = Ok tt.
Proof.
  unfold cross_section_section.
  rewrite returned_print, (returned_seq _ tt); [done|].
  apply for_each_returns. intros z _.
  destruct (analyze_slice_Ok all_verts z 0.25) as (info & Hinfo).
  unfold analyze_slice_default. by rewrite (returned_lift _ _ _ Hinfo).
Qed.

Lemma ascii_section_io_returns (all_verts : list Point3) (w h min_z max_z : Q) :
  grid_fits capacity w h 2 ->
  returned (ascii_section_io fmt_f capacity all_verts w h min_z max_z) = Ok tt.
Proof.
  intros Hfit. unfold ascii_section_io.
  rewrite returned_print, (returned_seq _ tt); [done|].
  apply for_each_returns. intros z _.
  destruct (ascii_block_cases fmt_f capacity all_verts w h (max_z - min_z) z)
    as [Hlt Hge].
  destruct (Nat.lt_ge_cases
              (length (slab all_verts z (ascii_tol (max_z - min_z)))) 10)
    as [Hlen|Hlen].
  - rewrite (returned_lift _ _ _ (Hlt Hlen)). apply for_each_print_returns.
  - destruct (Hge Hlen) as [_ Hdrawn]. destruct (Hdrawn Hfit) as [rows Hrows].
    rewrite (returned_lift _ _ _ Hrows). apply for_each_print_returns.
Qed.

Lemma detect_pockets_default_Ok (all_verts : list Point3) (min_x min_y z_target : Q) :
  exists pocket, detect_pockets_default all_verts min_x min_y z_target = Ok pocket.
Proof.
  unfold detect_pockets_default. rewrite detect_pockets_enough by done.
  cbv zeta. destruct (_ <? 10)%nat; [eauto|].
  destruct (map (cell_centre 2) _) as [|e es]; [eauto|].
  destruct (min_Ok ((e :: es).*1)) as (a & -> & _); [simpl; lia|].
  destruct (max_Ok ((e :: es).*1)) as (b & -> & _); [simpl; lia|].
  destruct (min_Ok ((e :: es).*2)) as (a' & -> & _); [simpl; lia|].
  destruct (max_Ok ((e :: es).*2)) as (b' & -> & _); [simpl; lia|].
  rewrite !bind_Ok. eauto.
Qed.

Lemma pocket_loop_spec (all_verts : list Point3) (min_x min_y : Q)
    (levels : list Q) (found_pockets : bool) :
  let lines := pocket_lines fmt_f all_verts min_x min_y levels in
  pocket_loop fmt_f all_verts min_x min_y levels found_pockets =
    mkIO lines (Ok (found_pockets || bool_decide (lines <> []))).
Proof.
  revert found_pockets. induction levels as [|z rest IH]; intros found_pockets.
  - cbn. by rewrite orb_false_r.
  - cbn [pocket_loop]. unfold pocket_lines. cbn [mbind list_bind].
    fold (pocket_lines fmt_f all_verts min_x min_y rest).
    destruct (detect_pockets_default_Ok all_verts min_x min_y z) as (pocket & ->).
    destruct pocket as [p|].
    + unfold mbind at 1 2, io_bind. cbn [lift returned printed print].
      rewrite IH. cbn [returned printed app]. f_equal. by rewrite orb_true_r.
    + unfold mbind at 1, io_bind. cbn [lift returned printed].
      rewrite IH. reflexivity.
Qed.

(** X19.  The pocket section prints its heading, one line for every one of
    the nine heights at which a pocket is found, in ascending order of the
    fraction, the line that no void was detected exactly when no height has
    a pocket, and an empty line; it raises nothing. *)
Theorem pocket_section_lines (all_verts : list Point3)
    (min_x min_y min_z z_range : Q) :
  let lines :=
    pocket_lines fmt_f all_verts min_x min_y (pocket_z_levels min_z z_range) in
  pocket_section fmt_f all_verts min_x min_y min_z z_range =
    mkIO (["Pocket/void detection:"] ++ lines
          ++ (if bool_decide (lines = [])
              then ["  No internal voids detected (solid object)"] else [])
          ++ [""])
         (Ok tt).
Proof.
  intros lines. unfold pocket_section. rewrite pocket_loop_spec. fold lines.
  cbn [orb]. destruct lines as [|l rest]; reflexivity.
Qed.

Lemma pocket_section_returns (all_verts : list Point3)
    (min_x min_y min_z z_range : Q) :
  returned (pocket_section fmt_f all_verts min_x min_y min_z z_range) = Ok tt.
Proof.
  unfold pocket_section. rewrite pocket_loop_spec.
  rewrite returned_print, returned_bind. cbn [returned].
  by destruct (_ || _).
Qed.

Lemma z_hist_section_returns (all_verts : list Point3) :
  all_verts <> [] -> returned (z_hist_section fmt_f round1 all_verts) = Ok tt.
Proof.
  intros Hne. unfold z_hist_section.
  destruct (z_hist_scale round1 all_verts Hne) as (mx & Hmx & _ & Hs & _).
  rewrite (returned_lift _ _ _ Hmx), (returned_lift _ _ _ Hs), returned_print.
  rewrite (returned_seq _ tt); [done|]. by apply for_each_returns.
Qed.

Lemma recommendation_Ok (triangles : list Triangle) (c : normal_counts) :
  triangles <> [] -> exists lines, recommendation fmt_f triangles c = Ok lines.
Proof.
  intros Hne. unfold recommendation.
  assert (Hlen : ~ (of_len (length triangles) == 0)%Q).
  { apply of_len_nonzero. destruct triangles; [done|cbn; lia]. }
  rewrite !div_Ok by done. rewrite !bind_Ok. eauto.
Qed.

Lemma report_io_returns (filepath : string) (filesize : nat) (fmt : string)
    (triangles : list Triangle) :
  triangles <> [] ->
  (forall box,
     bounding_box triangles = Ok box ->
     grid_fits capacity (max_x box - min_x box) (max_y box - min_y box) 2) ->
  returned (report_io sqrt fmt_f round1 capacity filepath filesize fmt triangles)
    = Ok tt.
Proof.
  intros Hne Hfit. unfold report_io.
  assert (Hverts : all_verts_of triangles <> []).
  { destruct triangles; [done|]. discriminate. }
  assert (Hbox : exists box, bounding_box triangles = Ok box).
  { pose proof (elem_of_all_verts triangles Hne) as Hlen. unfold bounding_box.
    destruct (min_Ok (map px (all_verts_of triangles))) as (x0 & -> & _); [by rewrite length_map|].
    destruct (max_Ok (map px (all_verts_of triangles))) as (x1 & -> & _); [by rewrite length_map|].
    destruct (min_Ok (map py (all_verts_of triangles))) as (y0 & -> & _); [by rewrite length_map|].
    destruct (max_Ok (map py (all_verts_of triangles))) as (y1 & -> & _); [by rewrite length_map|].
    destruct (min_Ok (map pz (all_verts_of triangles))) as (z0 & -> & _); [by rewrite length_map|].
    destruct (max_Ok (map pz (all_verts_of triangles))) as (z1 & -> & _); [by rewrite length_map|].
    rewrite !bind_Ok. eauto. }
  destruct Hbox as (box & Hbox).
  rewrite (returned_lift _ _ _ Hbox).
  rewrite (returned_seq _ tt) by apply header_section_returns.
  rewrite (returned_seq _ tt)
    by (apply normals_section_returns; destruct triangles; [done|cbn; lia]).
  rewrite (returned_seq _ tt) by by apply z_hist_section_returns.
  rewrite (returned_seq _ tt) by apply cross_section_section_returns.
  rewrite (returned_seq _ tt) by (apply ascii_section_io_returns; auto).
  destruct (detect_surfaces round1 triangles (min_y box)) as [top_faces bot_faces].
  rewrite (returned_seq _ tt) by apply surface_lines_returns.
  rewrite (returned_seq _ tt) by apply surface_lines_returns.
  rewrite (returned_seq _ tt) by apply pocket_section_returns.
  destruct (recommendation_Ok triangles (face_normals triangles) Hne) as (lines & Hlines).
  rewrite (returned_lift _ _ _ Hlines). apply for_each_print_returns.
Qed.

End ReportReturns.

(** X20.  When the grid of the pictures of a mesh can be allocated, the
    analysis of the mesh raises nothing: on a file that exists, a run then
    ends with status 1 exactly when the loader raises, and with status 0 in
    every other case, whatever the triangles. *)
Theorem exit_status_follows_loader
    (unpack_f32 : list byte -> Q) (readlines : list byte -> result (list string))
    (float_of_str : string -> result Q) (sqrt : Q -> Q)
    (fmt_f : nat -> nat -> Q -> string) (round1 : Q -> Q) (capacity : Z)
    (fs : string -> option (list byte)) (prog path : string)
    (rest : list string) (file : list byte) :
  fs path = Some file ->
  (forall fmt header triangles box,
     load unpack_f32 readlines float_of_str file = Ok (fmt, (header, triangles)) ->
     bounding_box triangles = Ok box ->
     grid_fits capacity (max_x box - min_x box) (max_y box - min_y box) 2) ->
  exit_code (main unpack_f32 readlines float_of_str
               (full_report sqrt fmt_f round1 capacity) fs (prog :: path :: rest)) =
    match load unpack_f32 readlines float_of_str file with
    | Ok _ => 0
    | Raise _ => 1
    end.
Proof.
  intros Hfile Hfit. unfold main. rewrite Hfile. unfold analyze.
  destruct (load unpack_f32 readlines float_of_str file)
    as [[fmt [header triangles]]|e]; [|done].
  destruct triangles as [|t ts]; [done|].
  unfold full_report. rewrite report_io_returns; [done|done|].
  intros box Hbox. by apply (Hfit fmt header (t :: ts)).
Qed.

Lemma exit_status_follows_loader_witness :
  exit_code (main f32_value no_text no_float
               (full_report floor_sqrt fmt_fixed round_tenths 1000)
               (fun _ => Some (header0 ++ count3 ++ record1 ++ record1 ++ record1))
               ["analyze-stl.py"; "part.stl"]) = 0.
Proof.
  apply (exit_status_follows_loader f32_value no_text no_float floor_sqrt
           fmt_fixed round_tenths 1000 _ "analyze-stl.py" "part.stl" []
           (header0 ++ count3 ++ record1 ++ record1 ++ record1)).
  - reflexivity.
  - intros fmt header triangles box Hload Hbox.
    vm_compute in Hload. injection Hload as <- <- <-.
    vm_compute in Hbox. injection Hbox as <-.
    by vm_compute.
Defined.

(* ================================================================= *)
(** * A facet of a text file, and the exit status of a binary file *)

Lemma ascii_loop_app (float_of_str : string -> result Q)
    (l1 l2 : list string) (st st1 : ascii_state) :
  ascii_loop float_of_str st l1 = Ok st1 ->
  ascii_loop float_of_str st (l1 ++ l2) = ascii_loop float_of_str st1 l2.
Proof.
  revert st. induction l1 as [|x l1 IH]; intros st; cbn [ascii_loop app].
  - by intros [= ->].
  - destruct (ascii_step float_of_str st x) as [s1|e]; [|done].
    rewrite !bind_Ok. apply IH.
Qed.

Lemma ascii_loop_ignored (float_of_str : string -> result Q)
    (lines : list string) (st : ascii_state) :
  Forall (fun raw => is_ignored raw = true) lines ->
  ascii_loop float_of_str st lines = Ok st.
Proof.
  induction 1 as [|raw rest Hraw _ IH]; [done|].
  cbn [ascii_loop]. unfold ascii_step, is_ignored in *.
  apply andb_true_iff in Hraw as [[Hf Hv]%andb_true_iff He].
  apply negb_true_iff in Hf, Hv, He. rewrite Hf, Hv, He.
  rewrite bind_Ok. exact IH.
Qed.

(** X22.  One facet of a text file gives one triangle: a [facet normal] line,
    three [vertex] lines and an [endfacet] line, with lines that are passed
    over (such as [outer loop] and [endloop]) anywhere between them, add
    exactly the triangle of the numbers they hold, whatever normal and
    vertices the parser held before. *)
Theorem facet_block_parsed (float_of_str : string -> result Q)
    (st : ascii_state) (rn r1 r2 r3 rend : string)
    (pad0 pad1 pad2 pad3 : list string) (n a b c : Point3) :
  String.prefix "facet normal" (Str.strip rn) = true ->
  float3 float_of_str (Str.split (Str.strip rn)) 2 = Ok n ->
  String.prefix "vertex" (Str.strip r1) = true ->
  float3 float_of_str (Str.split (Str.strip r1)) 1 = Ok a ->
  String.prefix "vertex" (Str.strip r2) = true ->
  float3 float_of_str (Str.split (Str.strip r2)) 1 = Ok b ->
  String.prefix "vertex" (Str.strip r3) = true ->
  float3 float_of_str (Str.split (Str.strip r3)) 1 = Ok c ->
  is_endfacet rend = true ->
  Forall (fun raw => is_ignored raw = true) (pad0 ++ pad1 ++ pad2 ++ pad3) ->
  ascii_loop float_of_str st
    (rn :: pad0 ++ r1 :: pad1 ++ r2 :: pad2 ++ r3 :: pad3 ++ [rend]) =
  Ok (mkAsciiState (Some n) [a; b; c]
        (triangles_so_far st ++ [mkTriangle n a b c])).
Proof.
  intros Hn Hfn H1 Hf1 H2 Hf2 H3 Hf3 Hend Hpad.
  apply Forall_app in Hpad as [Hp0 Hpad].
  apply Forall_app in Hpad as [Hp1 Hpad].
  apply Forall_app in Hpad as [Hp2 Hp3].
  assert (Hvertex : forall s r v,
            String.prefix "vertex" (Str.strip r) = true ->
            float3 float_of_str (Str.split (Str.strip r)) 1 = Ok v ->
            ascii_step float_of_str s r =
              Ok (mkAsciiState (cur_normal s) (cur_verts s ++ [v]) (triangles_so_far s))).
  { intros s r v Hr Hv. unfold ascii_step.
    destruct (prefix_vertex _ Hr) as [-> _]. by rewrite Hr, Hv. }
  cbn [ascii_loop]. unfold ascii_step at 1. rewrite Hn, Hfn, !bind_Ok.
  rewrite (ascii_loop_app _ pad0 _ _ _ (ascii_loop_ignored _ _ _ Hp0)).
  cbn [ascii_loop]. rewrite (Hvertex _ _ _ H1 Hf1), bind_Ok.
  rewrite (ascii_loop_app _ pad1 _ _ _ (ascii_loop_ignored _ _ _ Hp1)).
  cbn [ascii_loop]. rewrite (Hvertex _ _ _ H2 Hf2), bind_Ok.
  rewrite (ascii_loop_app _ pad2 _ _ _ (ascii_loop_ignored _ _ _ Hp2)).
  cbn [ascii_loop]. rewrite (Hvertex _ _ _ H3 Hf3), bind_Ok.
  rewrite (ascii_loop_app _ pad3 _ _ _ (ascii_loop_ignored _ _ _ Hp3)).
  cbn [ascii_loop cur_normal cur_verts triangles_so_far app].
  unfold ascii_step, is_endfacet in *.
  destruct (prefix_endfacet _ Hend) as [-> ->]. by rewrite Hend.
Qed.

Lemma facet_block_parsed_witness :
  ascii_loop digits_float
    (mkAsciiState (Some (1, 0, 0)%Q) [(5, 5, 5)%Q] [])
    (("  facet normal 0 0 1" +:+ nl)
       :: ["    outer loop" +:+ nl]
       ++ ("      vertex 0 0 0" +:+ nl)
       :: []
       ++ ("      vertex 1 0 0" +:+ nl)
       :: []
       ++ ("      vertex 0 1 0" +:+ nl)
       :: ["    endloop" +:+ nl]
       ++ ["  endfacet" +:+ nl]) =
  Ok (mkAsciiState (Some (0, 0, 1)%Q) [(0, 0, 0); (1, 0, 0); (0, 1, 0)]%Q
        [mkTriangle (0, 0, 1)%Q (0, 0, 0)%Q (1, 0, 0)%Q (0, 1, 0)%Q]).
Proof.
  apply (facet_block_parsed digits_float
           (mkAsciiState (Some (1, 0, 0)%Q) [(5, 5, 5)%Q] []));
    try (vm_compute; reflexivity).
  repeat constructor.
Defined.

Lemma read_binary_stl_long (unpack_f32 : list byte -> Q) (file : list byte) :
  (84 <= length file)%nat ->
  exists r, read_binary_stl unpack_f32 file = Ok r.
Proof.
  intros Hlen. unfold read_binary_stl, read, unpack_u32.
  rewrite length_take, length_drop.
  replace (Nat.min 4 (length file - 80)) with 4%nat by lia.
  cbn [Nat.eqb]. rewrite bind_Ok. eauto.
Qed.

(** X23.  On a file that exists, that format detection takes for a binary
    file and whose pictures can be allocated, the exit status depends on the
    length of the file alone: 1 when the file has fewer than 84 bytes, 0 in
    every other case. *)
Theorem binary_exit_status
    (unpack_f32 : list byte -> Q) (readlines : list byte -> result (list string))
    (float_of_str : string -> result Q) (sqrt : Q -> Q)
    (fmt_f : nat -> nat -> Q -> string) (round1 : Q -> Q) (capacity : Z)
    (fs : string -> option (list byte)) (prog path : string)
    (rest : list string) (file : list byte) :
  fs path = Some file ->
  is_ascii_stl file = false ->
  (forall header triangles box,
     read_binary_stl unpack_f32 file = Ok (header, triangles) ->
     bounding_box triangles = Ok box ->
     grid_fits capacity (max_x box - min_x box) (max_y box - min_y box) 2) ->
  exit_code (main unpack_f32 readlines float_of_str
               (full_report sqrt fmt_f round1 capacity) fs (prog :: path :: rest)) =
    if (length file <? 84)%nat then 1 else 0.
Proof.
  intros Hfile Hbinary Hfit. unfold main. rewrite Hfile. unfold analyze, load.
  rewrite Hbinary.
  destruct (Nat.ltb_spec (length file) 84) as [Hshort|Hlong].
  - by rewrite read_binary_stl_short.
  - destruct (read_binary_stl_long unpack_f32 file Hlong)
      as ([header triangles] & Hread).
    rewrite Hread, bind_Ok. destruct triangles as [|t ts]; [done|].
    unfold full_report. rewrite report_io_returns; [done|done|].
    intros box Hbox. by apply (Hfit header (t :: ts)).
Qed.

Lemma binary_exit_status_witness :
  exit_code (main f32_value no_text no_float
               (full_report floor_sqrt fmt_fixed round_tenths 1000)
               (fun _ => Some (header0 ++ count3 ++ record1))
               ["analyze-stl.py"; "part.stl"]) = 0.
Proof.
  apply (binary_exit_status f32_value no_text no_float floor_sqrt
           fmt_fixed round_tenths 1000 _ "analyze-stl.py" "part.stl" []
           (header0 ++ count3 ++ record1)).
  - reflexivity.
  - reflexivity.
  - intros header triangles box Hread Hbox.
    vm_compute in Hread. injection Hread as <- <-.
    vm_compute in Hbox. injection Hbox as <-.
    by vm_compute.
Defined.
